(** * Marketing funnel pipeline: cleaning, merging, delay features, funnel metrics

    A shallow embedding of the four pipeline stages

      - [02_data_cleaning.py]       (module [Cleaner])
      - [03_data_merging.py]        (module [Merger])
      - [04_feature_engineering.py] (module [FeatureEngine])
      - [05_funnel_analysis.py]     (module [FunnelMetrics])

    A pandas data frame is a list of row records; a cell that pandas shows
    as NaN / NaT is [None] (or [DateMissing] in a date column).  A finite
    Python float is written as the rational it denotes ([Q]); the float
    arithmetic of the funnel rates (division, multiplication, subtraction)
    rounds every result to the nearest IEEE 754 binary64 number
    ([Py.binary64]).  The sums, means and medians of data columns are
    written in exact arithmetic, and no statement below depends on their
    last digits.  Python ints are [Z] or [nat] (row counts).  Strings are
    ASCII strings.  [pd.to_datetime] is an external parser and enters as
    the class [DateParser]. *)

From Stdlib Require Import List Bool Arith ZArith QArith Lia String Ascii.
From Stdlib Require Import Qround Qabs Qpower Permutation Sorted Lqa.
Import ListNotations.

Local Open Scope Z_scope.

(* ===================================================================== *)
(** * Python and pandas primitives *)
(* ===================================================================== *)

Module Py.

(** ** The error monad: [None] is a raised exception. *)

Definition bind {A B : Type} (m : option A) (k : A -> option B) : option B :=
  match m with
  | Some a => k a
  | None => None
  end.

Notation "x <- m ;; k" := (bind m (fun x => k))
  (at level 61, m at next level, right associativity).

(** ** Floats

    A Python float is an IEEE 754 binary64 number: 53 bits of mantissa,
    the last of them worth at least [2 ^ -1074].  An operation returns the
    double nearest to its exact result, ties going to the even mantissa.
    The floats of this program are ratios of row counts and percentages;
    the overflow threshold is out of their reach and is not modelled. *)

(** Rounding to the nearest integer, ties to the even neighbour. *)
Definition round_half_even (x : Q) : Z :=
  let n := Qnum x in
  let d := Zpos (Qden x) in
  let q := n / d in
  let r := n mod d in
  match 2 * r ?= d with
  | Lt => q
  | Gt => q + 1
  | Eq => if Z.even q then q else q + 1
  end.

(** [floor (log2 x)] of a positive [x]. *)
Definition ilog2 (x : Q) : Z :=
  if Qle_bool 1 x then Z.log2 (Qfloor x) else - Z.log2_up (Qceiling (/ x)).

(** The exponent of the last mantissa bit of the doubles around a positive
    [x]. *)
Definition ulp_exponent (x : Q) : Z := Z.max (ilog2 x - 52) (-1074).

(** The double nearest to a positive [x]. *)
Definition nearest_pos (x : Q) : Q :=
  let e := ulp_exponent x in
  Qred (inject_Z (round_half_even (x / 2 ^ e)) * 2 ^ e)%Q.

(** The double nearest to [x]. *)
Definition binary64 (x : Q) : Q :=
  match (x ?= 0)%Q with
  | Eq => 0%Q
  | Gt => nearest_pos x
  | Lt => (- nearest_pos (- x))%Q
  end.

(** [a * b] and [a - b] on floats (an int operand is converted first,
    exactly for the ints of this program). *)
Definition float_mul (a b : Q) : Q := binary64 (a * b).

Definition float_sub (a b : Q) : Q := binary64 (a - b).

(** [a / b] on Python numbers: ZeroDivisionError when [b] is zero.  The
    quotient of two ints is correctly rounded as well. *)
Definition truediv (a b : Q) : option Q :=
  if Qeq_bool b 0 then None else Some (binary64 (a / b)).

(** A fallible step applied to every row: the first failure aborts. *)
Fixpoint mapM {A B : Type} (f : A -> option B) (l : list A) : option (list B) :=
  match l with
  | [] => Some []
  | a :: t =>
      match f a with
      | Some b =>
          match mapM f t with
          | Some bs => Some (b :: bs)
          | None => None
          end
      | None => None
      end
  end.

(** [len(df)]. *)
Definition len {A : Type} (l : list A) : Z := Z.of_nat (List.length l).

(** [a / b] on two Python ints. *)
Definition int_truediv (a b : Z) : option Q := truediv (inject_Z a) (inject_Z b).

(** [round(x, 2)] on a float: the number with two decimals nearest to the
    exact value of [x], ties to the even digit.  Python returns the double
    nearest to that decimal and prints it as the decimal; the decimal
    stands for it here. *)
Definition round2 (x : Q) : Q :=
  Qred (inject_Z (round_half_even (x * 100)) / 100)%Q.

(** ** Strings: [str.lower] and [str.strip] on ASCII text. *)

Definition is_upper (c : ascii) : bool :=
  let n := nat_of_ascii c in (65 <=? n)%nat && (n <=? 90)%nat.

Definition lower_char (c : ascii) : ascii :=
  if is_upper c then ascii_of_nat (nat_of_ascii c + 32) else c.

Fixpoint lower (s : string) : string :=
  match s with
  | EmptyString => EmptyString
  | String c t => String (lower_char c) (lower t)
  end.

(** The ASCII characters [str.strip()] removes: tab, newline, vertical tab,
    form feed, carriage return, the four separators 28..31 and the space. *)
Definition is_space (c : ascii) : bool :=
  let n := nat_of_ascii c in
  ((9 <=? n)%nat && (n <=? 13)%nat) || ((28 <=? n)%nat && (n <=? 32)%nat).

Fixpoint lstrip (s : string) : string :=
  match s with
  | EmptyString => EmptyString
  | String c t => if is_space c then lstrip t else s
  end.

Fixpoint rstrip (s : string) : string :=
  match s with
  | EmptyString => EmptyString
  | String c t =>
      match rstrip t with
      | EmptyString => if is_space c then EmptyString else String c EmptyString
      | t' => String c t'
      end
  end.

Definition strip (s : string) : string := rstrip (lstrip s).

(** ** Cells *)

(** A date column holds text (as [read_csv] delivers it), parsed timestamps
    (nanoseconds since the epoch, after [pd.to_datetime]) or NaN / NaT. *)
Inductive date_cell : Type :=
| DateText (s : string)
| DateStamp (ns : Z)
| DateMissing.

Definition date_isna (c : date_cell) : bool :=
  match c with DateMissing => true | _ => false end.

Definition isna {A : Type} (c : option A) : bool :=
  match c with None => true | Some _ => false end.

Definition b2n (b : bool) : nat := if b then 1%nat else 0%nat.

(** [(mask).astype(int)]. *)
Definition b2z (b : bool) : Z := if b then 1 else 0.

(** Cell equality as [DataFrame.duplicated] sees it: missing equals missing. *)
Definition text_eqb (a b : option string) : bool :=
  match a, b with
  | Some x, Some y => String.eqb x y
  | None, None => true
  | _, _ => false
  end.

Definition num_eqb (a b : option Q) : bool :=
  match a, b with
  | Some x, Some y => Qeq_bool x y
  | None, None => true
  | _, _ => false
  end.

Definition date_eqb (a b : date_cell) : bool :=
  match a, b with
  | DateText x, DateText y => String.eqb x y
  | DateStamp x, DateStamp y => Z.eqb x y
  | DateMissing, DateMissing => true
  | _, _ => false
  end.

(** [s.fillna(v)]. *)
Definition fillna {A : Type} (v : A) (c : option A) : option A :=
  match c with
  | None => Some v
  | Some _ => c
  end.

(** [s.fillna(m)] where [m] may itself be NaN (the median of an all-NaN
    column): nothing is filled then. *)
Definition fillna_opt {A : Type} (m : option A) (c : option A) : option A :=
  match c with
  | None => m
  | Some _ => c
  end.

(** [s.dropna()]. *)
Fixpoint dropna {A : Type} (l : list (option A)) : list A :=
  match l with
  | [] => []
  | Some a :: t => a :: dropna t
  | None :: t => dropna t
  end.

(** [s.median()]: NaN is skipped; the middle value of the sorted values, or
    the mean of the two middle ones; NaN when nothing is left. *)
Fixpoint insert_sorted (x : Q) (l : list Q) : list Q :=
  match l with
  | [] => [x]
  | y :: t => if Qle_bool x y then x :: l else y :: insert_sorted x t
  end.

Definition sort_values (l : list Q) : list Q := fold_right insert_sorted [] l.

Definition median (col : list (option Q)) : option Q :=
  let v := sort_values (dropna col) in
  let n := List.length v in
  match n with
  | O => None
  | _ =>
      if Nat.even n
      then Some ((nth (n / 2 - 1) v 0%Q + nth (n / 2) v 0%Q) / 2)%Q
      else Some (nth (n / 2) v 0%Q)
  end.

(** [s.clip(lower=0)]. *)
Definition clip_lower0 (q : Q) : Q := if Qle_bool 0 q then q else 0%Q.

(** [s.astype(int)] on a float: truncation towards zero. *)
Definition astype_int (q : Q) : Q := inject_Z (Z.quot (Qnum q) (Zpos (Qden q))).

(** ** [DataFrame.duplicated] / [drop_duplicates] (keep the first) *)

Section Frames.
Context {R : Type} (row_eqb : R -> R -> bool).

(** The mask: a row is flagged when an earlier row equals it. *)
Fixpoint duplicated_from (seen : list R) (df : list R) : list bool :=
  match df with
  | [] => []
  | r :: t => existsb (row_eqb r) seen :: duplicated_from (r :: seen) t
  end.

Definition duplicated (df : list R) : list bool := duplicated_from [] df.

(** [mask.sum()]. *)
Definition mask_sum (m : list bool) : nat := List.length (filter (fun b => b) m).

(** [df[~df.duplicated()]]. *)
Fixpoint drop_from (seen : list R) (df : list R) : list R :=
  match df with
  | [] => []
  | r :: t =>
      if existsb (row_eqb r) seen then drop_from (r :: seen) t
      else r :: drop_from (r :: seen) t
  end.

Definition drop_duplicates (df : list R) : list R := drop_from [] df.
End Frames.

(** ** The datetime parser *)

(** [pd.to_datetime] on one text cell: the timestamp in nanoseconds, or
    [None] when the text is not a date. *)
Class DateParser : Type := { to_timestamp : string -> option Z }.

(** [pd.to_datetime(col, errors='coerce')] on one cell. *)
Definition to_datetime_coerce `{DateParser} (c : date_cell) : date_cell :=
  match c with
  | DateText s =>
      match to_timestamp s with
      | Some t => DateStamp t
      | None => DateMissing
      end
  | DateStamp t => DateStamp t
  | DateMissing => DateMissing
  end.

(** [pd.to_datetime(col)] on one cell: text that is not a date raises. *)
Definition to_datetime_strict `{DateParser} (c : date_cell) : option date_cell :=
  match c with
  | DateText s =>
      match to_timestamp s with
      | Some t => Some (DateStamp t)
      | None => None
      end
  | DateStamp t => Some (DateStamp t)
  | DateMissing => Some DateMissing
  end.

End Py.

(* ===================================================================== *)
(** * 02_data_cleaning.py *)
(* ===================================================================== *)

Module Cleaner.
Import Py.

(** ** The closed-deals table *)

(** The columns of [olist_closed_deals_dataset.csv]; every column the script
    names is present, so each [if col in deals_clean.columns] is taken. *)

Record deal : Type := mk_deal {
  d_mql_id : option string;
  seller_id : option string;
  sdr_id : option string;
  sr_id : option string;
  won_date : date_cell;
  business_segment : option string;
  lead_type : option string;
  lead_behaviour_profile : option string;
  has_company : option Q;
  has_gtin : option Q;
  average_stock : option Q;
  business_type : option string;
  declared_product_catalog_size : option Q;
  declared_monthly_revenue : option Q
}.

(** Column assignment [df[col] = f(df[col])], one function per column the
    script writes to. *)
Definition upd_sdr_id (f : option string -> option string) (r : deal) : deal :=
  mk_deal (d_mql_id r) (seller_id r) (f (sdr_id r)) (sr_id r) (won_date r)
    (business_segment r) (lead_type r) (lead_behaviour_profile r)
    (has_company r) (has_gtin r) (average_stock r) (business_type r)
    (declared_product_catalog_size r) (declared_monthly_revenue r).

Definition upd_sr_id (f : option string -> option string) (r : deal) : deal :=
  mk_deal (d_mql_id r) (seller_id r) (sdr_id r) (f (sr_id r)) (won_date r)
    (business_segment r) (lead_type r) (lead_behaviour_profile r)
    (has_company r) (has_gtin r) (average_stock r) (business_type r)
    (declared_product_catalog_size r) (declared_monthly_revenue r).

Definition upd_won_date (f : date_cell -> date_cell) (r : deal) : deal :=
  mk_deal (d_mql_id r) (seller_id r) (sdr_id r) (sr_id r) (f (won_date r))
    (business_segment r) (lead_type r) (lead_behaviour_profile r)
    (has_company r) (has_gtin r) (average_stock r) (business_type r)
    (declared_product_catalog_size r) (declared_monthly_revenue r).

Definition upd_business_segment (f : option string -> option string) (r : deal) : deal :=
  mk_deal (d_mql_id r) (seller_id r) (sdr_id r) (sr_id r) (won_date r)
    (f (business_segment r)) (lead_type r) (lead_behaviour_profile r)
    (has_company r) (has_gtin r) (average_stock r) (business_type r)
    (declared_product_catalog_size r) (declared_monthly_revenue r).

Definition upd_lead_type (f : option string -> option string) (r : deal) : deal :=
  mk_deal (d_mql_id r) (seller_id r) (sdr_id r) (sr_id r) (won_date r)
    (business_segment r) (f (lead_type r)) (lead_behaviour_profile r)
    (has_company r) (has_gtin r) (average_stock r) (business_type r)
    (declared_product_catalog_size r) (declared_monthly_revenue r).

Definition upd_lead_behaviour_profile (f : option string -> option string) (r : deal) : deal :=
  mk_deal (d_mql_id r) (seller_id r) (sdr_id r) (sr_id r) (won_date r)
    (business_segment r) (lead_type r) (f (lead_behaviour_profile r))
    (has_company r) (has_gtin r) (average_stock r) (business_type r)
    (declared_product_catalog_size r) (declared_monthly_revenue r).

Definition upd_has_company (f : option Q -> option Q) (r : deal) : deal :=
  mk_deal (d_mql_id r) (seller_id r) (sdr_id r) (sr_id r) (won_date r)
    (business_segment r) (lead_type r) (lead_behaviour_profile r)
    (f (has_company r)) (has_gtin r) (average_stock r) (business_type r)
    (declared_product_catalog_size r) (declared_monthly_revenue r).

Definition upd_has_gtin (f : option Q -> option Q) (r : deal) : deal :=
  mk_deal (d_mql_id r) (seller_id r) (sdr_id r) (sr_id r) (won_date r)
    (business_segment r) (lead_type r) (lead_behaviour_profile r)
    (has_company r) (f (has_gtin r)) (average_stock r) (business_type r)
    (declared_product_catalog_size r) (declared_monthly_revenue r).

Definition upd_average_stock (f : option Q -> option Q) (r : deal) : deal :=
  mk_deal (d_mql_id r) (seller_id r) (sdr_id r) (sr_id r) (won_date r)
    (business_segment r) (lead_type r) (lead_behaviour_profile r)
    (has_company r) (has_gtin r) (f (average_stock r)) (business_type r)
    (declared_product_catalog_size r) (declared_monthly_revenue r).

Definition upd_business_type (f : option string -> option string) (r : deal) : deal :=
  mk_deal (d_mql_id r) (seller_id r) (sdr_id r) (sr_id r) (won_date r)
    (business_segment r) (lead_type r) (lead_behaviour_profile r)
    (has_company r) (has_gtin r) (average_stock r) (f (business_type r))
    (declared_product_catalog_size r) (declared_monthly_revenue r).

Definition upd_declared_product_catalog_size (f : option Q -> option Q) (r : deal) : deal :=
  mk_deal (d_mql_id r) (seller_id r) (sdr_id r) (sr_id r) (won_date r)
    (business_segment r) (lead_type r) (lead_behaviour_profile r)
    (has_company r) (has_gtin r) (average_stock r) (business_type r)
    (f (declared_product_catalog_size r)) (declared_monthly_revenue r).

Definition upd_declared_monthly_revenue (f : option Q -> option Q) (r : deal) : deal :=
  mk_deal (d_mql_id r) (seller_id r) (sdr_id r) (sr_id r) (won_date r)
    (business_segment r) (lead_type r) (lead_behaviour_profile r)
    (has_company r) (has_gtin r) (average_stock r) (business_type r)
    (declared_product_catalog_size r) (f (declared_monthly_revenue r)).

(** Row equality of [deals_clean.duplicated()]: every column agrees. *)
Definition deal_eqb (a b : deal) : bool :=
  text_eqb (d_mql_id a) (d_mql_id b) && text_eqb (seller_id a) (seller_id b) &&
  text_eqb (sdr_id a) (sdr_id b) && text_eqb (sr_id a) (sr_id b) &&
  date_eqb (won_date a) (won_date b) &&
  text_eqb (business_segment a) (business_segment b) &&
  text_eqb (lead_type a) (lead_type b) &&
  text_eqb (lead_behaviour_profile a) (lead_behaviour_profile b) &&
  num_eqb (has_company a) (has_company b) && num_eqb (has_gtin a) (has_gtin b) &&
  num_eqb (average_stock a) (average_stock b) &&
  text_eqb (business_type a) (business_type b) &&
  num_eqb (declared_product_catalog_size a) (declared_product_catalog_size b) &&
  num_eqb (declared_monthly_revenue a) (declared_monthly_revenue b).

(** [row.isnull().sum()]. *)
Definition deal_nulls (r : deal) : nat :=
  (b2n (isna (d_mql_id r)) + b2n (isna (seller_id r)) + b2n (isna (sdr_id r)) +
   b2n (isna (sr_id r)) + b2n (date_isna (won_date r)) +
   b2n (isna (business_segment r)) + b2n (isna (lead_type r)) +
   b2n (isna (lead_behaviour_profile r)) + b2n (isna (has_company r)) +
   b2n (isna (has_gtin r)) + b2n (isna (average_stock r)) +
   b2n (isna (business_type r)) + b2n (isna (declared_product_catalog_size r)) +
   b2n (isna (declared_monthly_revenue r)))%nat.

(** [df.isnull().sum().sum()]. *)
Definition deals_isnull_sum (df : list deal) : nat :=
  fold_right (fun r n => (deal_nulls r + n)%nat) 0%nat df.

(** [categorical_cols] *)
Definition categorical_cols : list ((option string -> option string) -> deal -> deal) :=
  [upd_business_segment; upd_lead_type; upd_lead_behaviour_profile;
   upd_business_type; upd_sdr_id; upd_sr_id].

(** A numerical column: how to read it, how to assign it, and whether it is
    one of the two boolean-coded columns ([has_company], [has_gtin]). *)
Record num_column : Type := {
  col_get : deal -> option Q;
  col_upd : (option Q -> option Q) -> deal -> deal;
  col_is_flag : bool
}.

(** [numerical_cols] *)
Definition numerical_cols : list num_column :=
  [ {| col_get := has_company; col_upd := upd_has_company; col_is_flag := true |};
    {| col_get := has_gtin; col_upd := upd_has_gtin; col_is_flag := true |};
    {| col_get := average_stock; col_upd := upd_average_stock; col_is_flag := false |};
    {| col_get := declared_product_catalog_size;
       col_upd := upd_declared_product_catalog_size; col_is_flag := false |};
    {| col_get := declared_monthly_revenue;
       col_upd := upd_declared_monthly_revenue; col_is_flag := false |} ].

(** One turn of [for col in categorical_cols]. *)
Definition fill_categorical (df : list deal)
    (upd : (option string -> option string) -> deal -> deal) : list deal :=
  map (upd (fillna "unknown"%string)) df.

(** One turn of [for col in numerical_cols]: 0 for a boolean-coded column,
    the column's median otherwise. *)
Definition fill_numerical (df : list deal) (c : num_column) : list deal :=
  if col_is_flag c then map (col_upd c (fillna 0%Q)) df
  else
    let median_val := median (map (col_get c) df) in
    map (col_upd c (fillna_opt median_val)) df.

(** "Handle missing values": both loops. *)
Definition deals_fill_missing (df : list deal) : list deal :=
  fold_left fill_numerical numerical_cols
    (fold_left fill_categorical categorical_cols df).

(** [.str.lower().str.strip()] on one cell (NaN stays NaN). *)
Definition standardize (c : option string) : option string :=
  option_map (fun s => strip (lower s)) c.

(** "Convert date columns". *)
Definition deals_to_datetime `{DateParser} (df : list deal) : list deal :=
  map (upd_won_date to_datetime_coerce) df.

(** "Standardize categorical values" and "Clean numerical columns":
    lower-cased and trimmed categories, boolean columns as int, stock and
    revenue clipped at zero. *)
Definition deals_standardize (df : list deal) : list deal :=
  let df := map (upd_business_segment standardize) df in
  let df := map (upd_lead_type standardize) df in
  let df := map (upd_lead_behaviour_profile standardize) df in
  let df := map (upd_has_company (option_map astype_int)) df in
  let df := map (upd_has_gtin (option_map astype_int)) df in
  let df := map (upd_average_stock (option_map clip_lower0)) df in
  map (upd_declared_monthly_revenue (option_map clip_lower0)) df.

(** All the steps after the fills. *)
Definition deals_convert `{DateParser} (df : list deal) : list deal :=
  deals_standardize (deals_to_datetime df).

(** What one run of a cleaning step reports besides the table. *)
Record report (R : Type) : Type := mk_report {
  cleaned : list R;
  duplicates_removed : Z;
  missing_before : nat;
  missing_after : nat;
  invalid_dates : nat
}.
Arguments mk_report {R}.
Arguments cleaned {R}.
Arguments duplicates_removed {R}.
Arguments missing_before {R}.
Arguments missing_after {R}.
Arguments invalid_dates {R}.

(** Cells a run filled: the drop [missing_before - missing_after]. *)
Definition fills_performed {R : Type} (rep : report R) : Z :=
  Z.of_nat (missing_before rep) - Z.of_nat (missing_after rep).

(** STEP 2: clean the closed-deals table. *)
Definition clean_deals `{DateParser} (deals_df : list deal) : report deal :=
  let duplicates_before := mask_sum (duplicated deal_eqb deals_df) in
  let deals_clean := drop_duplicates deal_eqb deals_df in
  let duplicates_removed :=
    Z.of_nat duplicates_before - Z.of_nat (mask_sum (duplicated deal_eqb deals_clean)) in
  let missing_before := deals_isnull_sum deals_clean in
  let deals_clean := deals_fill_missing deals_clean in
  let missing_after := deals_isnull_sum deals_clean in
  let deals_clean := deals_to_datetime deals_clean in
  let invalid_dates :=
    List.length (filter (fun r => date_isna (won_date r)) deals_clean) in
  let deals_clean := deals_standardize deals_clean in
  mk_report deals_clean duplicates_removed missing_before missing_after invalid_dates.

(** ** The marketing-qualified-leads table *)

Record lead : Type := mk_lead {
  mql_id : option string;
  first_contact_date : date_cell;
  landing_page_id : option string;
  origin : option string
}.

Definition upd_first_contact_date (f : date_cell -> date_cell) (r : lead) : lead :=
  mk_lead (mql_id r) (f (first_contact_date r)) (landing_page_id r) (origin r).

Definition upd_landing_page_id (f : option string -> option string) (r : lead) : lead :=
  mk_lead (mql_id r) (first_contact_date r) (f (landing_page_id r)) (origin r).

Definition upd_origin (f : option string -> option string) (r : lead) : lead :=
  mk_lead (mql_id r) (first_contact_date r) (landing_page_id r) (f (origin r)).

Definition lead_eqb (a b : lead) : bool :=
  text_eqb (mql_id a) (mql_id b) &&
  date_eqb (first_contact_date a) (first_contact_date b) &&
  text_eqb (landing_page_id a) (landing_page_id b) &&
  text_eqb (origin a) (origin b).

Definition lead_nulls (r : lead) : nat :=
  (b2n (isna (mql_id r)) + b2n (date_isna (first_contact_date r)) +
   b2n (isna (landing_page_id r)) + b2n (isna (origin r)))%nat.

Definition leads_isnull_sum (df : list lead) : nat :=
  fold_right (fun r n => (lead_nulls r + n)%nat) 0%nat df.

Definition mql_fill_missing (df : list lead) : list lead :=
  let df := map (upd_origin (fillna "unknown"%string)) df in
  map (upd_landing_page_id (fillna "unknown"%string)) df.

Definition mql_to_datetime `{DateParser} (df : list lead) : list lead :=
  map (upd_first_contact_date to_datetime_coerce) df.

Definition mql_standardize (df : list lead) : list lead :=
  map (upd_origin standardize) df.

Definition mql_convert `{DateParser} (df : list lead) : list lead :=
  mql_standardize (mql_to_datetime df).

(** STEP 3: clean the leads table. *)
Definition clean_mql `{DateParser} (mql_df : list lead) : report lead :=
  let duplicates_before := mask_sum (duplicated lead_eqb mql_df) in
  let mql_clean := drop_duplicates lead_eqb mql_df in
  let duplicates_removed :=
    Z.of_nat duplicates_before - Z.of_nat (mask_sum (duplicated lead_eqb mql_clean)) in
  let missing_before := leads_isnull_sum mql_clean in
  let mql_clean := mql_fill_missing mql_clean in
  let missing_after := leads_isnull_sum mql_clean in
  let mql_clean := mql_to_datetime mql_clean in
  let invalid_dates :=
    List.length (filter (fun r => date_isna (first_contact_date r)) mql_clean) in
  let mql_clean := mql_standardize mql_clean in
  mk_report mql_clean duplicates_removed missing_before missing_after invalid_dates.

(** The Cleaner: [clean(rawLeads, rawDeals) -> (cleanLeads, cleanDeals)]. *)
Definition clean `{DateParser} (raw_leads : list lead) (raw_deals : list deal)
  : list lead * list deal :=
  (cleaned (clean_mql raw_leads), cleaned (clean_deals raw_deals)).

(** ** The effect of the steps on one row *)

(** "Handle missing values" on a deal row, given the three medians. *)
Definition fill_deal (m_stock m_catalog m_revenue : option Q) (r : deal) : deal :=
  mk_deal (d_mql_id r) (seller_id r)
    (fillna "unknown"%string (sdr_id r)) (fillna "unknown"%string (sr_id r))
    (won_date r)
    (fillna "unknown"%string (business_segment r))
    (fillna "unknown"%string (lead_type r))
    (fillna "unknown"%string (lead_behaviour_profile r))
    (fillna 0%Q (has_company r)) (fillna 0%Q (has_gtin r))
    (fillna_opt m_stock (average_stock r))
    (fillna "unknown"%string (business_type r))
    (fillna_opt m_catalog (declared_product_catalog_size r))
    (fillna_opt m_revenue (declared_monthly_revenue r)).

(** The conversion steps on a deal row. *)
Definition convert_deal `{DateParser} (r : deal) : deal :=
  mk_deal (d_mql_id r) (seller_id r) (sdr_id r) (sr_id r)
    (to_datetime_coerce (won_date r))
    (standardize (business_segment r)) (standardize (lead_type r))
    (standardize (lead_behaviour_profile r))
    (option_map astype_int (has_company r)) (option_map astype_int (has_gtin r))
    (option_map clip_lower0 (average_stock r))
    (business_type r)
    (declared_product_catalog_size r)
    (option_map clip_lower0 (declared_monthly_revenue r)).

Definition fill_lead (r : lead) : lead :=
  mk_lead (mql_id r) (first_contact_date r)
    (fillna "unknown"%string (landing_page_id r)) (fillna "unknown"%string (origin r)).

Definition convert_lead `{DateParser} (r : lead) : lead :=
  mk_lead (mql_id r) (to_datetime_coerce (first_contact_date r))
    (landing_page_id r) (standardize (origin r)).

(** ** Cells and rows a further run has nothing to do on *)

Definition text_standard (c : option string) : Prop :=
  exists s, c = Some s /\ strip (lower s) = s.

Definition flag_settled (c : option Q) : Prop :=
  exists q, c = Some q /\ astype_int q = q.

Definition amount_settled (c : option Q) : Prop :=
  forall q, c = Some q -> clip_lower0 q = q.

Definition date_parsed (c : date_cell) : Prop :=
  forall s, c <> DateText s.

Definition deal_settled (r : deal) : Prop :=
  text_standard (business_segment r) /\ text_standard (lead_type r) /\
  text_standard (lead_behaviour_profile r) /\
  business_type r <> None /\ sdr_id r <> None /\ sr_id r <> None /\
  flag_settled (has_company r) /\ flag_settled (has_gtin r) /\
  amount_settled (average_stock r) /\ amount_settled (declared_monthly_revenue r) /\
  date_parsed (won_date r).

Definition lead_settled (r : lead) : Prop :=
  text_standard (origin r) /\ landing_page_id r <> None /\
  date_parsed (first_contact_date r).

(** A column that is NaN in every row or in none. *)
Definition uniform {R : Type} (col : R -> option Q) (df : list R) : Prop :=
  Forall (fun r => col r = None) df \/ Forall (fun r => col r <> None) df.

Definition deals_settled (df : list deal) : Prop :=
  Forall deal_settled df /\
  uniform average_stock df /\
  uniform declared_product_catalog_size df /\
  uniform declared_monthly_revenue df.

(** ** The claims' vocabulary *)

(** A second run of the Cleaner, on the tables of the first, that removes
    no row, fills no cell and returns the tables it was given. *)
Definition rerun_changes_nothing `{DateParser}
    (raw_leads : list lead) (raw_deals : list deal) : Prop :=
  let leads1 := fst (clean raw_leads raw_deals) in
  let deals1 := snd (clean raw_leads raw_deals) in
  duplicates_removed (clean_mql leads1) = 0 /\
  duplicates_removed (clean_deals deals1) = 0 /\
  fills_performed (clean_mql leads1) = 0 /\
  fills_performed (clean_deals deals1) = 0 /\
  clean leads1 deals1 = (leads1, deals1).

End Cleaner.

(* ===================================================================== *)
(** * 03_data_merging.py *)
(* ===================================================================== *)

Module Merger.
Import Py.
Export Cleaner.

(** STEP 1: the date columns are converted back with [pd.to_datetime(col)];
    a cell that is not a date raises, and the script exits. *)
Definition load_deals `{DateParser} (deals_df : list deal) : option (list deal) :=
  mapM (fun r => d <- to_datetime_strict (won_date r) ;;
                 Some (upd_won_date (fun _ => d) r)) deals_df.

Definition load_mql `{DateParser} (mql_df : list lead) : option (list lead) :=
  mapM (fun r => d <- to_datetime_strict (first_contact_date r) ;;
                 Some (upd_first_contact_date (fun _ => d) r)) mql_df.

(** STEP 3: a row of [mql_df.merge(deals_df, on='mql_id', how='left')]: the
    lead's columns and, when a deal matched, the deal's columns. *)
Record merged : Type := mk_merged {
  lead_cols : lead;
  deal_cols : option deal
}.

(** A deal column of a merged row is NaN when no deal matched. *)
Definition deal_text (col : deal -> option string) (m : merged) : option string :=
  match deal_cols m with
  | Some d => col d
  | None => None
  end.

Definition deal_date (col : deal -> date_cell) (m : merged) : date_cell :=
  match deal_cols m with
  | Some d => col d
  | None => DateMissing
  end.

(** Key equality of the join (pandas joins a NaN key with a NaN key). *)
Definition key_match (l : lead) (d : deal) : bool := text_eqb (mql_id l) (d_mql_id d).

(** The left join: leads in their order, each with its matching deals in
    theirs, or once with empty deal columns. *)
Definition merge_left (mql_df : list lead) (deals_df : list deal) : list merged :=
  flat_map
    (fun l =>
       match filter (key_match l) deals_df with
       | [] => [mk_merged l None]
       | ds => map (fun d => mk_merged l (Some d)) ds
       end)
    mql_df.

(** STEP 4 and STEP 5: the stage indicators and the conversion flags.  (The
    time-based and business-intelligence columns of STEP 6 and STEP 7 are
    not part of this development.) *)
Record master : Type := mk_master {
  source : merged;
  stage_1_lead_generated : Z;
  stage_2_first_contact : Z;
  stage_3_sales_qualified : Z;
  stage_4_consultation : Z;
  stage_5_deal_closed : Z;
  is_converted : Z;
  dropout_after_lead : Z;
  dropout_after_contact : Z;
  dropout_after_qualification : Z;
  dropout_after_consultation : Z
}.

Definition add_funnel_columns (m : merged) : master :=
  let stage_1 := 1 in
  let stage_2 := b2z (negb (date_isna (first_contact_date (lead_cols m)))) in
  let stage_3 := b2z (negb (isna (deal_text sdr_id m))) in
  let stage_4 := b2z (negb (isna (deal_text sr_id m))) in
  let stage_5 := b2z (negb (date_isna (deal_date won_date m))) in
  {| source := m;
     stage_1_lead_generated := stage_1;
     stage_2_first_contact := stage_2;
     stage_3_sales_qualified := stage_3;
     stage_4_consultation := stage_4;
     stage_5_deal_closed := stage_5;
     is_converted := stage_5;
     dropout_after_lead := 1 - stage_2;
     dropout_after_contact := b2z ((stage_2 =? 1) && (stage_3 =? 0));
     dropout_after_qualification := b2z ((stage_3 =? 1) && (stage_4 =? 0));
     dropout_after_consultation := b2z ((stage_4 =? 1) && (stage_5 =? 0)) |}.

(** [master_df[col].sum()]. *)
Definition col_sum (col : master -> Z) (df : list master) : Z :=
  fold_right (fun r acc => col r + acc) 0 df.

(** STEP 8: later stages should not exceed earlier stages. *)
Definition logic_errors (master_df : list master) : list string :=
  (if col_sum stage_2_first_contact master_df >? col_sum stage_1_lead_generated master_df
   then ["Stage 2 > Stage 1"%string] else []) ++
  (if col_sum stage_3_sales_qualified master_df >? col_sum stage_2_first_contact master_df
   then ["Stage 3 > Stage 2"%string] else []) ++
  (if col_sum stage_4_consultation master_df >? col_sum stage_3_sales_qualified master_df
   then ["Stage 4 > Stage 3"%string] else []) ++
  (if col_sum stage_5_deal_closed master_df >? col_sum stage_4_consultation master_df
   then ["Stage 5 > Stage 4"%string] else []).

(** The master table from tables already loaded. *)
Definition build_master (mql_df : list lead) (deals_df : list deal) : list master :=
  map add_funnel_columns (merge_left mql_df deals_df).

(** The Merger: [merge(cleanLeads, cleanDeals) -> masterTable]; [None] when
    loading fails. *)
Definition merge `{DateParser} (mql_df : list lead) (deals_df : list deal)
  : option (list master) :=
  deals_df <- load_deals deals_df ;;
  mql_df <- load_mql mql_df ;;
  Some (build_master mql_df deals_df).

(** The five stage counts never increase along the funnel. *)
Definition monotonic_funnel (master_df : list master) : Prop :=
  col_sum stage_5_deal_closed master_df <= col_sum stage_4_consultation master_df /\
  col_sum stage_4_consultation master_df <= col_sum stage_3_sales_qualified master_df /\
  col_sum stage_3_sales_qualified master_df <= col_sum stage_2_first_contact master_df /\
  col_sum stage_2_first_contact master_df <= col_sum stage_1_lead_generated master_df.

(** The five stage flags of a row. *)
Definition stage_flags (r : master) : Z * Z * Z * Z * Z :=
  (stage_1_lead_generated r, stage_2_first_contact r, stage_3_sales_qualified r,
   stage_4_consultation r, stage_5_deal_closed r).

(** ** The claims' vocabulary *)

(** A merged row whose lead no deal of the input matches. *)
Definition unmatched (deals_df : list deal) (r : master) : Prop :=
  forall d, In d deals_df -> key_match (lead_cols (source r)) d = false.

(** A merged row with every field the stage flags look at present. *)
Definition fully_completed (r : master) : Prop :=
  first_contact_date (lead_cols (source r)) <> DateMissing /\
  deal_text sdr_id (source r) <> None /\
  deal_text sr_id (source r) <> None /\
  deal_date won_date (source r) <> DateMissing.

(** Every output row of an unmatched lead carries the flags (1,0,0,0,0)
    and is not converted. *)
Definition unmatched_rows_stop_at_stage_1 `{DateParser}
    (mql_df : list lead) (deals_df : list deal) : Prop :=
  forall master_df r,
    merge mql_df deals_df = Some master_df -> In r master_df ->
    unmatched deals_df r ->
    stage_flags r = (1, 0, 0, 0, 0) /\ is_converted r = 0.

(** The master table built from the Cleaner's tables has non-increasing
    stage counts. *)
Definition cleaned_funnel_is_monotonic `{DateParser}
    (raw_leads : list lead) (raw_deals : list deal) : Prop :=
  forall master_df,
    merge (fst (clean raw_leads raw_deals)) (snd (clean raw_leads raw_deals))
      = Some master_df ->
    monotonic_funnel master_df.

End Merger.

(* ===================================================================== *)
(** * 04_feature_engineering.py: the delivery delay features *)
(* ===================================================================== *)

Module FeatureEngine.
Import Py.

Record order : Type := mk_order {
  order_purchase_timestamp : date_cell;
  order_delivered_customer_date : date_cell;
  order_estimated_delivery_date : date_cell
}.

(** An order row with the three columns [create_delivery_delay_feature] adds. *)
Record delayed_order : Type := mk_delayed_order {
  base : order;
  delivery_delay_days : Z;
  is_delayed : Z;
  delay_category : string
}.

Definition ns_per_day : Z := 86400 * 1000000000.

(** [(a - b).dt.days]: whole days of the difference, rounded down; NaN when
    either side is NaT. *)
Definition days_between (a b : date_cell) : option Z :=
  match a, b with
  | DateStamp x, DateStamp y => Some ((x - y) / ns_per_day)
  | _, _ => None
  end.

Definition categorize_delay (days : Z) : string :=
  if days <=? 0 then "On Time/Early"
  else if days <=? 7 then "Minor Delay (1-7 days)"
  else if days <=? 30 then "Major Delay (8-30 days)"
  else "Severe Delay (30+ days)".

Definition delay_row `{DateParser} (r : order) : delayed_order :=
  let r := mk_order (to_datetime_coerce (order_purchase_timestamp r))
                    (to_datetime_coerce (order_delivered_customer_date r))
                    (to_datetime_coerce (order_estimated_delivery_date r)) in
  let delay := days_between (order_delivered_customer_date r)
                            (order_estimated_delivery_date r) in
  let delay := match delay with Some d => d | None => 0 end in
  {| base := r;
     delivery_delay_days := delay;
     is_delayed := b2z (delay >? 0);
     delay_category := categorize_delay delay |}.

Definition create_delivery_delay_feature `{DateParser} (df : list order)
  : list delayed_order :=
  map delay_row df.

End FeatureEngine.

(* ===================================================================== *)
(** * 05_funnel_analysis.py *)
(* ===================================================================== *)

Module FunnelMetrics.
Import Py.

(** ** Customer-level metrics *)

(** The columns of the engineered orders table the aggregation reads. *)
Record order_row : Type := mk_order_row {
  customer_unique_id : option string;
  order_id : option string;
  is_delayed : Z;
  is_canceled : Z;
  has_negative_review : Z;
  has_negative_experience : Z;
  price : option Q;
  customer_state : option string;
  order_purchase_timestamp : option string
}.

Record customer : Type := mk_customer {
  cs_customer_unique_id : string;
  total_orders : Z;
  experienced_delay : Z;
  experienced_cancellation : Z;
  gave_negative_review : Z;
  had_negative_experience : Z;
  total_spent : Q;
  cs_customer_state : option string;
  first_order_date : option string;
  customer_type : string
}.

(** The group keys of [df.groupby('customer_unique_id')]: the distinct
    customer ids in sorted order; rows without an id belong to no group. *)
Fixpoint insert_key (k : string) (ks : list string) : list string :=
  match ks with
  | [] => [k]
  | h :: t =>
      match String.compare k h with
      | Lt => k :: ks
      | Eq => ks
      | Gt => h :: insert_key k t
      end
  end.

Definition group_keys (df : list order_row) : list string :=
  fold_right insert_key [] (dropna (map customer_unique_id df)).

Definition group_rows (k : string) (df : list order_row) : list order_row :=
  filter (fun r => text_eqb (customer_unique_id r) (Some k)) df.

(** The aggregations: ['count'] counts the cells that are not NaN. *)
Definition agg_count {A : Type} (col : list (option A)) : Z := len (dropna col).

Definition agg_max (col : list Z) : Z :=
  match col with
  | [] => 0
  | x :: t => fold_left Z.max t x
  end.

Definition agg_sum (col : list (option Q)) : Q :=
  fold_left Qplus (dropna col) 0%Q.

Definition agg_first {A : Type} (col : list (option A)) : option A :=
  hd_error (dropna col).

Definition agg_min (col : list (option string)) : option string :=
  match dropna col with
  | [] => None
  | x :: t => Some (fold_left (fun m s => if String.ltb s m then s else m) t x)
  end.

Definition summarise (k : string) (g : list order_row) : customer :=
  let total_orders := agg_count (map order_id g) in
  {| cs_customer_unique_id := k;
     total_orders := total_orders;
     experienced_delay := agg_max (map is_delayed g);
     experienced_cancellation := agg_max (map is_canceled g);
     gave_negative_review := agg_max (map has_negative_review g);
     had_negative_experience := agg_max (map has_negative_experience g);
     total_spent := agg_sum (map price g);
     cs_customer_state := agg_first (map customer_state g);
     first_order_date := agg_min (map order_purchase_timestamp g);
     customer_type := if total_orders =? 1 then "One-time" else "Repeat" |}.

Definition calculate_customer_level_metrics (df : list order_row) : list customer :=
  map (fun k => summarise k (group_rows k df)) (group_keys df).

(** ** Core funnel metrics *)

Record core_metrics : Type := mk_core_metrics {
  acquisition_customers : Z;
  activation_customers : Z;
  retention_customers : Z;
  activation_rate_percent : Q;
  retention_rate_percent : Q;
  acquisition_to_activation_dropoff : Z;
  activation_to_retention_dropoff : Z;
  activation_dropoff_rate_percent : Q;
  retention_dropoff_rate_percent : Q
}.

(** [(num / den) * 100 if den > 0 else 0] *)
Definition guarded_percent (num den : Z) : option Q :=
  if den >? 0 then q <- int_truediv num den ;; Some (float_mul q 100)
  else Some 0%Q.

Definition calculate_core_funnel_metrics (customer_summary : list customer)
  : option core_metrics :=
  let acquisition := len customer_summary in
  let activation := len (filter (fun c => total_orders c >=? 1) customer_summary) in
  let retention := len (filter (fun c => total_orders c >=? 2) customer_summary) in
  activation_rate <- guarded_percent activation acquisition ;;
  retention_rate <- guarded_percent retention activation ;;
  let acquisition_to_activation_dropoff := acquisition - activation in
  let activation_to_retention_dropoff := activation - retention in
  activation_dropoff_rate <-
    guarded_percent acquisition_to_activation_dropoff acquisition ;;
  retention_dropoff_rate <-
    guarded_percent activation_to_retention_dropoff activation ;;
  Some {| acquisition_customers := acquisition;
          activation_customers := activation;
          retention_customers := retention;
          activation_rate_percent := round2 activation_rate;
          retention_rate_percent := round2 retention_rate;
          acquisition_to_activation_dropoff := acquisition_to_activation_dropoff;
          activation_to_retention_dropoff := activation_to_retention_dropoff;
          activation_dropoff_rate_percent := round2 activation_dropoff_rate;
          retention_dropoff_rate_percent := round2 retention_dropoff_rate |}.

(** ** Drop-off reasons and their retention impact *)

(** The three negative-signal columns of the customer summary. *)
Inductive signal : Type :=
| Delay
| Cancellation
| NegativeReview.

Definition signal_col (s : signal) : customer -> Z :=
  match s with
  | Delay => experienced_delay
  | Cancellation => experienced_cancellation
  | NegativeReview => gave_negative_review
  end.

Record retention_impact : Type := mk_retention_impact {
  retention_without_negative_percent : Q;
  retention_with_negative_percent : Q;
  retention_impact_percent : Q
}.

Definition calculate_retention_impact (customer_summary : list customer)
    (negative_experience_column : signal) : option retention_impact :=
  let no_negative :=
    filter (fun c => signal_col negative_experience_column c =? 0) customer_summary in
  retention_no_negative <-
    guarded_percent (len (filter (fun c => total_orders c >=? 2) no_negative))
                    (len no_negative) ;;
  let with_negative :=
    filter (fun c => signal_col negative_experience_column c =? 1) customer_summary in
  retention_with_negative <-
    guarded_percent (len (filter (fun c => total_orders c >=? 2) with_negative))
                    (len with_negative) ;;
  let impact := float_sub retention_no_negative retention_with_negative in
  Some {| retention_without_negative_percent := round2 retention_no_negative;
          retention_with_negative_percent := round2 retention_with_negative;
          retention_impact_percent := round2 impact |}.

Record dropoff_metrics : Type := mk_dropoff_metrics {
  customers_with_delays : Z;
  customers_with_cancellations : Z;
  customers_with_negative_reviews : Z;
  customers_with_any_negative_experience : Z;
  delay_rate_percent : Q;
  cancellation_rate_percent : Q;
  negative_review_rate_percent : Q;
  any_negative_experience_rate_percent : Q;
  delay_retention_impact : retention_impact;
  cancellation_retention_impact : retention_impact;
  review_retention_impact : retention_impact
}.

Definition calculate_dropoff_reason_metrics (customer_summary : list customer)
  : option dropoff_metrics :=
  let total_customers := len customer_summary in
  let delay_customers :=
    len (filter (fun c => experienced_delay c =? 1) customer_summary) in
  let cancellation_customers :=
    len (filter (fun c => experienced_cancellation c =? 1) customer_summary) in
  let negative_review_customers :=
    len (filter (fun c => gave_negative_review c =? 1) customer_summary) in
  let any_negative_customers :=
    len (filter (fun c => had_negative_experience c =? 1) customer_summary) in
  delay_percent <- guarded_percent delay_customers total_customers ;;
  cancellation_percent <- guarded_percent cancellation_customers total_customers ;;
  negative_review_percent <- guarded_percent negative_review_customers total_customers ;;
  any_negative_percent <- guarded_percent any_negative_customers total_customers ;;
  delay_impact <- calculate_retention_impact customer_summary Delay ;;
  cancellation_impact <- calculate_retention_impact customer_summary Cancellation ;;
  review_impact <- calculate_retention_impact customer_summary NegativeReview ;;
  Some {| customers_with_delays := delay_customers;
          customers_with_cancellations := cancellation_customers;
          customers_with_negative_reviews := negative_review_customers;
          customers_with_any_negative_experience := any_negative_customers;
          delay_rate_percent := round2 delay_percent;
          cancellation_rate_percent := round2 cancellation_percent;
          negative_review_rate_percent := round2 negative_review_percent;
          any_negative_experience_rate_percent := round2 any_negative_percent;
          delay_retention_impact := delay_impact;
          cancellation_retention_impact := cancellation_impact;
          review_retention_impact := review_impact |}.

(** ** The report's "Biggest Retention Killer" *)

(** Python's [max(a, b, c)]: a later item replaces the running maximum only
    when it is strictly greater. *)
Definition py_max3 (a b c : Q) : Q :=
  let m := a in
  let m := if Qle_bool b m then m else b in
  if Qle_bool c m then m else c.

Definition biggest_retention_killer (m : dropoff_metrics) : string :=
  let d := retention_impact_percent (delay_retention_impact m) in
  let c := retention_impact_percent (cancellation_retention_impact m) in
  let r := retention_impact_percent (review_retention_impact m) in
  if Qeq_bool d (py_max3 d c r) then "Delivery delays"
  else if Qeq_bool c (py_max3 d c r) then "Cancellations"
  else "Negative reviews".

(** ** The claims' vocabulary *)

(** Customers in a group, and those of them with two or more orders. *)
Definition group_size (s : signal) (v : Z) (cs : list customer) : nat :=
  List.length (filter (fun c => signal_col s c =? v) cs).

Definition group_retained (s : signal) (v : Z) (cs : list customer) : nat :=
  List.length (filter (fun c => (signal_col s c =? v) && (total_orders c >=? 2)) cs).

(** The retention rate of a group as a percentage; 0 for an empty group. *)
Definition retention_rate (s : signal) (v : Z) (cs : list customer) : Q :=
  if (group_size s v cs =? 0)%nat then 0%Q
  else (inject_Z (Z.of_nat (group_retained s v cs)) /
        inject_Z (Z.of_nat (group_size s v cs)) * 100)%Q.

(** The same rate in float arithmetic: the share is rounded to a double,
    and so is its product with 100. *)
Definition float_retention_rate (s : signal) (v : Z) (cs : list customer) : Q :=
  if (group_size s v cs =? 0)%nat then 0%Q
  else float_mul
         (binary64 (inject_Z (Z.of_nat (group_retained s v cs)) /
                    inject_Z (Z.of_nat (group_size s v cs))))
         100.

(** The impact returned is the rate without the signal minus the rate with
    it. *)
Definition impact_is_rate_difference (cs : list customer) (s : signal) : Prop :=
  exists r,
    calculate_retention_impact cs s = Some r /\
    (retention_impact_percent r == retention_rate s 0 cs - retention_rate s 1 cs)%Q.

(** On the customer summary of an orders table, activation equals
    acquisition. *)
Definition activation_is_acquisition (df : list order_row) : Prop :=
  exists m,
    calculate_core_funnel_metrics (calculate_customer_level_metrics df) = Some m /\
    activation_customers m = acquisition_customers m.

End FunnelMetrics.

(* ===================================================================== *)
(** * A parser instance for the worked examples *)
(* ===================================================================== *)

(** Calendar dates written [YYYY-MM-DD], the format of the data set's date
    columns, read as midnight of that day.  The theorems below hold for any
    [DateParser]; this instance serves the concrete runs. *)
Module IsoDates.
Import Py.

Definition digit (c : ascii) : option Z :=
  let n := Z.of_nat (nat_of_ascii c) in
  if (48 <=? n) && (n <=? 57) then Some (n - 48) else None.

Fixpoint number (acc : Z) (cs : list ascii) : option Z :=
  match cs with
  | [] => Some acc
  | c :: t => d <- digit c ;; number (10 * acc + d) t
  end.

Definition is_leap (y : Z) : bool :=
  (y mod 4 =? 0) && (negb (y mod 100 =? 0) || (y mod 400 =? 0)).

Definition days_in_month (y m : Z) : Z :=
  if m =? 2 then (if is_leap y then 29 else 28)
  else if (m =? 4) || (m =? 6) || (m =? 9) || (m =? 11) then 30
  else 31.

(** Days since 1970-01-01 of a proleptic Gregorian date. *)
Definition days_from_civil (y m d : Z) : Z :=
  let y := if m <=? 2 then y - 1 else y in
  let era := y / 400 in
  let yoe := y - era * 400 in
  let doy := (153 * (if m >? 2 then m - 3 else m + 9) + 2) / 5 + d - 1 in
  let doe := yoe * 365 + yoe / 4 - yoe / 100 + doy in
  era * 146097 + doe - 719468.

Definition parse (s : string) : option Z :=
  match list_ascii_of_string s with
  | [y1; y2; y3; y4; "-"%char; m1; m2; "-"%char; d1; d2] =>
      y <- number 0 [y1; y2; y3; y4] ;;
      m <- number 0 [m1; m2] ;;
      d <- number 0 [d1; d2] ;;
      if (1 <=? m) && (m <=? 12) && (1 <=? d) && (d <=? days_in_month y m)
      then Some (days_from_civil y m d * (86400 * 1000000000))
      else None
  | _ => None
  end.

#[export] Instance iso_parser : DateParser := {| to_timestamp := parse |}.

End IsoDates.

(* ===================================================================== *)
(** * 02_data_cleaning.py, STEP 4: validation of the cleaned tables *)
(* ===================================================================== *)

Module Validation.
Import Py Cleaner.

(** What [validate_dataset] prints: the duplicate rows left, the missing
    cells, the valid dates of the date column, and a warning with the count
    for each checked numerical column that has negative values. *)
Record validation : Type := mk_validation {
  total_duplicates : nat;
  total_missing : nat;
  valid_dates : nat;
  negative_values : list (string * nat)
}.

(** [(df[col] < 0).sum()]: NaN is not below zero. *)
Definition negative_count {R : Type} (col : R -> option Q) (df : list R) : nat :=
  List.length
    (filter (fun r => match col r with
                      | Some q => negb (Qle_bool 0 q)
                      | None => false
                      end) df).

(** One turn of [for col in num_cols], for a column in the checked list. *)
Definition negative_warning {R : Type} (name : string) (col : R -> option Q)
    (df : list R) : list (string * nat) :=
  let negative_count := negative_count col df in
  if (0 <? negative_count)%nat then [(name, negative_count)] else [].

(** [validate_dataset(deals_clean, "DEALS")]: of the numerical columns, in
    the table's column order, the three in the checked list. *)
Definition validate_deals (df : list deal) : validation :=
  {| total_duplicates := mask_sum (duplicated deal_eqb df);
     total_missing := deals_isnull_sum df;
     valid_dates := List.length (filter (fun r => negb (date_isna (won_date r))) df);
     negative_values :=
       negative_warning "average_stock" average_stock df ++
       negative_warning "declared_product_catalog_size" declared_product_catalog_size df ++
       negative_warning "declared_monthly_revenue" declared_monthly_revenue df |}.

(** [validate_dataset(mql_clean, "MQL")]: the leads table has no numerical
    column. *)
Definition validate_mql (df : list lead) : validation :=
  {| total_duplicates := mask_sum (duplicated lead_eqb df);
     total_missing := leads_isnull_sum df;
     valid_dates :=
       List.length (filter (fun r => negb (date_isna (first_contact_date r))) df);
     negative_values := [] |}.

End Validation.

(* ===================================================================== *)
(** * 03_data_merging.py, STEP 6 and STEP 7: time and business features *)
(* ===================================================================== *)

Module MergerFeatures.
Import Py Merger.

(** STEP 6: [(won_date - first_contact_date).dt.days], NaN when either date
    is missing.  (The calendar components year, month, quarter and weekday
    are not part of this development.) *)
Definition days_to_close (m : merged) : option Z :=
  FeatureEngine.days_between (deal_date won_date m) (first_contact_date (lead_cols m)).

(** [str(x)] of a text cell: NaN prints as [nan]. *)
Definition py_str (x : option string) : string :=
  match x with
  | Some s => s
  | None => "nan"
  end.

(** [needle in s]. *)
Fixpoint is_prefix (p s : string) : bool :=
  match p, s with
  | EmptyString, _ => true
  | String a p', String b s' => Ascii.eqb a b && is_prefix p' s'
  | String _ _, EmptyString => false
  end.

Fixpoint contains (needle s : string) : bool :=
  is_prefix needle s ||
  match s with
  | EmptyString => false
  | String _ t => contains needle t
  end.

(** STEP 7: the lambda of [lead_source_category]. *)
Definition lead_source_category (x : option string) : string :=
  if contains "organic" (lower (py_str x)) then "organic"
  else if contains "paid" (lower (py_str x)) then "paid"
  else if contains "direct" (lower (py_str x)) then "direct"
  else "other".

Definition categorize_business_size (revenue : option Q) : string :=
  match revenue with
  | None => "unknown"
  | Some revenue =>
      if Qeq_bool revenue 0 then "startup"
      else if Qle_bool revenue 1000 then "micro"
      else if Qle_bool revenue 10000 then "small"
      else if Qle_bool revenue 100000 then "medium"
      else "large"
  end.

Definition categorize_catalog_size (catalog_size : option Q) : string :=
  match catalog_size with
  | None => "unknown"
  | Some catalog_size =>
      if Qle_bool catalog_size 10 then "small"
      else if Qle_bool catalog_size 100 then "medium"
      else if Qle_bool catalog_size 1000 then "large"
      else "enterprise"
  end.

(** A numerical deal column of a merged row. *)
Definition deal_num (col : deal -> option Q) (m : merged) : option Q :=
  match deal_cols m with
  | Some d => col d
  | None => None
  end.

(** The three columns of STEP 7 on a merged row. *)
Definition row_lead_source_category (m : merged) : string :=
  lead_source_category (origin (lead_cols m)).

Definition row_business_size_category (m : merged) : string :=
  categorize_business_size (deal_num declared_monthly_revenue m).

Definition row_catalog_size_category (m : merged) : string :=
  categorize_catalog_size (deal_num declared_product_catalog_size m).

(** A needle without white space, as the three of [lead_source_category]. *)
Fixpoint no_space (s : string) : bool :=
  match s with
  | EmptyString => true
  | String c t => negb (is_space c) && no_space t
  end.

End MergerFeatures.

(* ===================================================================== *)
(** * 04_feature_engineering.py: the other feature functions *)
(* ===================================================================== *)

(** Each function adds columns to the table it is given; here it returns
    every row paired with the columns added, and reads the columns it needs
    through accessors of the row. *)
Module OrderFeatures.
Import Py.

(** ** [create_review_score_features] *)

Record review_features : Type := mk_review_features {
  review_score_label : string;
  has_negative_review : Z;
  has_no_review : Z
}.

Definition categorize_review_score (score : option Q) : string :=
  match score with
  | None => "No Review"
  | Some score =>
      if Qle_bool 4 score then "Positive (4-5)"
      else if Qeq_bool score 3 then "Neutral (3)"
      else "Negative (1-2)"
  end.

(** [(score >= 1) & (score <= 2)]: a comparison with NaN is false. *)
Definition negative_review_mask (score : option Q) : bool :=
  match score with
  | Some score => Qle_bool 1 score && Qle_bool score 2
  | None => false
  end.

Definition create_review_score_features {R : Type} (review_score : R -> option Q)
    (df : list R) : list (R * review_features) :=
  map (fun r =>
         (r, {| review_score_label := categorize_review_score (review_score r);
                has_negative_review := b2z (negative_review_mask (review_score r));
                has_no_review := b2z (isna (review_score r)) |})) df.

(** ** [create_repeat_customer_feature] *)

Record repeat_features : Type := mk_repeat_features {
  total_orders : option Z;
  is_repeat_customer : Z;
  customer_category : string
}.

(** [df.groupby('customer_unique_id').size().reset_index(name='total_orders')]:
    one row per customer id, in sorted order, with the number of rows of
    that customer; rows without an id belong to no group. *)
Definition customer_order_counts {R : Type} (customer_unique_id : R -> option string)
    (df : list R) : list (string * Z) :=
  map (fun k =>
         (k, len (filter (fun r => text_eqb (customer_unique_id r) (Some k)) df)))
      (fold_right FunnelMetrics.insert_key [] (dropna (map customer_unique_id df))).

(** [df.merge(customer_order_counts, on='customer_unique_id', how='left')]. *)
Definition merge_counts {R : Type} (customer_unique_id : R -> option string)
    (df : list R) (counts : list (string * Z)) : list (R * option Z) :=
  flat_map
    (fun r =>
       match filter (fun kc => text_eqb (customer_unique_id r) (Some (fst kc))) counts with
       | [] => [(r, None)]
       | cs => map (fun kc => (r, Some (snd kc))) cs
       end)
    df.

(** On NaN both comparisons are false and the last branch is taken. *)
Definition categorize_customer (orders : option Z) : string :=
  match orders with
  | Some orders =>
      if orders =? 1 then "One-time Customer"
      else if orders <=? 3 then "Occasional Customer (2-3 orders)"
      else "Frequent Customer (4+ orders)"
  | None => "Frequent Customer (4+ orders)"
  end.

Definition create_repeat_customer_feature {R : Type}
    (customer_unique_id : R -> option string) (df : list R)
  : list (R * repeat_features) :=
  let customer_order_counts := customer_order_counts customer_unique_id df in
  let df := merge_counts customer_unique_id df customer_order_counts in
  map (fun rt =>
         (fst rt,
          {| total_orders := snd rt;
             is_repeat_customer :=
               b2z (match snd rt with Some n => n >=? 2 | None => false end);
             customer_category := categorize_customer (snd rt) |})) df.

(** ** [create_cancellation_features] *)

Record cancellation_features : Type := mk_cancellation_features {
  is_canceled : Z;
  order_status_category : string
}.

(** [status in [...]]: NaN is in no list of strings. *)
Definition status_in (status : option string) (l : list string) : bool :=
  match status with
  | Some s => existsb (String.eqb s) l
  | None => false
  end.

Definition categorize_order_status (status : option string) : string :=
  if status_in status ["delivered"%string] then "Completed"
  else if status_in status ["canceled"%string] then "Canceled"
  else if status_in status ["shipped"; "processing"; "approved"]%string then "In Progress"
  else "Other".

Definition create_cancellation_features {R : Type} (order_status : R -> option string)
    (df : list R) : list (R * cancellation_features) :=
  map (fun r =>
         (r, {| is_canceled := b2z (text_eqb (order_status r) (Some "canceled"%string));
                order_status_category := categorize_order_status (order_status r) |}))
      df.

(** ** [create_drop_off_flags] *)

Record drop_off_flags : Type := mk_drop_off_flags {
  dropped_due_to_delay : Z;
  dropped_due_to_cancellation : Z;
  dropped_due_to_negative_review : Z;
  has_negative_experience : Z;
  has_severe_issues : Z
}.

Definition create_drop_off_flags {R : Type}
    (is_delayed is_canceled has_negative_review : R -> Z) (df : list R)
  : list (R * drop_off_flags) :=
  map (fun r =>
         (r, {| dropped_due_to_delay := is_delayed r;
                dropped_due_to_cancellation := is_canceled r;
                dropped_due_to_negative_review := has_negative_review r;
                has_negative_experience :=
                  b2z ((is_delayed r =? 1) || (is_canceled r =? 1) ||
                       (has_negative_review r =? 1));
                has_severe_issues :=
                  b2z (is_delayed r + is_canceled r + has_negative_review r >=? 2) |}))
      df.

(** ** [create_order_value_features] *)

Record value_features : Type := mk_value_features {
  order_value_category : string;
  is_high_value_order : Z
}.

Definition categorize_order_value (value : option Q) : string :=
  match value with
  | None => "Unknown"
  | Some value =>
      if negb (Qle_bool 50 value) then "Low Value (<$50)"
      else if negb (Qle_bool 200 value) then "Medium Value ($50-200)"
      else "High Value ($200+)"
  end.

Definition create_order_value_features {R : Type} (price : R -> option Q)
    (df : list R) : list (R * value_features) :=
  map (fun r =>
         (r, {| order_value_category := categorize_order_value (price r);
                is_high_value_order :=
                  b2z (match price r with
                       | Some p => Qle_bool 200 p
                       | None => false
                       end) |})) df.

End OrderFeatures.

(* ===================================================================== *)
(** * 05_funnel_analysis.py: segment metrics *)
(* ===================================================================== *)

Module Segments.
Import Py FunnelMetrics.

(** ['mean'] of a column of a group, in exact arithmetic.  A group of
    [groupby] is never empty, so the division is by a positive count. *)
Definition agg_mean (col : list Q) : Q :=
  (fold_left Qplus col 0 / inject_Z (len col))%Q.

(** A row of [state_metrics], indexed by the state. *)
Record state_row : Type := mk_state_row {
  state : string;
  customer_count : Z;
  avg_orders_per_customer : Q;
  delay_rate : Q;
  cancellation_rate : Q;
  negative_review_rate : Q;
  avg_spending : Q
}.

(** A row of [customer_type_metrics], indexed by the customer type, with the
    columns in the order of its [agg]. *)
Record type_row : Type := mk_type_row {
  type_name : string;
  type_customer_count : Z;
  type_avg_orders : Q;
  type_avg_spent : Q;
  type_delay_rate : Q;
  type_cancellation_rate : Q;
  type_negative_review_rate : Q
}.

(** The groups of [customer_summary.groupby('customer_state')]: the states in
    sorted order; customers without a state belong to no group. *)
Definition state_keys (customer_summary : list customer) : list string :=
  fold_right insert_key [] (dropna (map cs_customer_state customer_summary)).

Definition state_group (k : string) (customer_summary : list customer) : list customer :=
  filter (fun c => text_eqb (cs_customer_state c) (Some k)) customer_summary.

(** [.agg({...}).round(2)] on one group: the count of customer ids (an id is
    never missing in the summary) and the rounded means. *)
Definition state_metrics_row (k : string) (g : list customer) : state_row :=
  {| state := k;
     customer_count := len g;
     avg_orders_per_customer :=
       round2 (agg_mean (map (fun c => inject_Z (total_orders c)) g));
     delay_rate := round2 (agg_mean (map (fun c => inject_Z (experienced_delay c)) g));
     cancellation_rate :=
       round2 (agg_mean (map (fun c => inject_Z (experienced_cancellation c)) g));
     negative_review_rate :=
       round2 (agg_mean (map (fun c => inject_Z (gave_negative_review c)) g));
     avg_spending := round2 (agg_mean (map total_spent g)) |}.

Definition state_metrics (customer_summary : list customer) : list state_row :=
  map (fun k => state_metrics_row k (state_group k customer_summary))
      (state_keys customer_summary).

(** [df.nlargest(n, 'customer_count')]: the rows in descending order of the
    count, rows with equal counts in their original order, cut after [n]. *)
Fixpoint insert_desc (x : state_row) (l : list state_row) : list state_row :=
  match l with
  | [] => [x]
  | y :: t =>
      if customer_count y <=? customer_count x then x :: l
      else y :: insert_desc x t
  end.

Definition sort_desc (l : list state_row) : list state_row :=
  fold_right insert_desc [] l.

Definition nlargest (n : nat) (l : list state_row) : list state_row :=
  firstn n (sort_desc l).

Definition type_keys (customer_summary : list customer) : list string :=
  fold_right insert_key [] (map customer_type customer_summary).

Definition type_metrics_row (k : string) (g : list customer) : type_row :=
  {| type_name := k;
     type_customer_count := len g;
     type_avg_orders := round2 (agg_mean (map (fun c => inject_Z (total_orders c)) g));
     type_avg_spent := round2 (agg_mean (map total_spent g));
     type_delay_rate :=
       round2 (agg_mean (map (fun c => inject_Z (experienced_delay c)) g));
     type_cancellation_rate :=
       round2 (agg_mean (map (fun c => inject_Z (experienced_cancellation c)) g));
     type_negative_review_rate :=
       round2 (agg_mean (map (fun c => inject_Z (gave_negative_review c)) g)) |}.

Definition customer_type_metrics (customer_summary : list customer) : list type_row :=
  map (fun k =>
         type_metrics_row k
           (filter (fun c => String.eqb (customer_type c) k) customer_summary))
      (type_keys customer_summary).

Record segment_metrics : Type := mk_segment_metrics {
  seg_state_metrics : list state_row;
  seg_top_states : list state_row;
  seg_customer_type_metrics : list type_row
}.

(** [calculate_segment_metrics]: the progress report reads
    [top_states.index[0]], which raises IndexError on an empty table. *)
Definition calculate_segment_metrics (customer_summary : list customer)
  : option segment_metrics :=
  let state_metrics := state_metrics customer_summary in
  let top_states := nlargest 10 state_metrics in
  let customer_type_metrics := customer_type_metrics customer_summary in
  match top_states with
  | [] => None
  | _ :: _ =>
      Some {| seg_state_metrics := state_metrics;
              seg_top_states := top_states;
              seg_customer_type_metrics := customer_type_metrics |}
  end.

End Segments.

(* ===================================================================== *)
(** * Facts about the primitives *)
(* ===================================================================== *)

Module PyFacts.
Import Py.

(** ** Strings *)

Lemma lower_char_idem (c : ascii) : lower_char (lower_char c) = lower_char c.
Proof. destruct c as [[] [] [] [] [] [] [] []]; reflexivity. Qed.

Lemma is_space_lower_char (c : ascii) : is_space (lower_char c) = is_space c.
Proof. destruct c as [[] [] [] [] [] [] [] []]; reflexivity. Qed.

Lemma lower_idem (s : string) : lower (lower s) = lower s.
Proof.
  induction s as [|c s IH]; simpl.
  - reflexivity.
  - now rewrite lower_char_idem, IH.
Qed.

Lemma lstrip_lower (s : string) : lstrip (lower s) = lower (lstrip s).
Proof.
  induction s as [|c s IH]; simpl.
  - reflexivity.
  - rewrite is_space_lower_char. destruct (is_space c); [exact IH | reflexivity].
Qed.

Lemma rstrip_lower (s : string) : rstrip (lower s) = lower (rstrip s).
Proof.
  induction s as [|c s IH]; simpl.
  - reflexivity.
  - rewrite IH, is_space_lower_char.
    destruct (rstrip s); simpl; [destruct (is_space c)|]; reflexivity.
Qed.

Lemma strip_lower (s : string) : strip (lower s) = lower (strip s).
Proof. unfold strip. now rewrite lstrip_lower, rstrip_lower. Qed.

Lemma rstrip_idem (s : string) : rstrip (rstrip s) = rstrip s.
Proof.
  induction s as [|c s IH]; simpl.
  - reflexivity.
  - destruct (rstrip s) as [|c' s'] eqn:E.
    + destruct (is_space c) eqn:Ec; simpl; [reflexivity | now rewrite Ec].
    + simpl in *. now rewrite IH.
Qed.

(** What [rstrip] returns starts like its argument: no leading space appears. *)
Lemma rstrip_head (c : ascii) (s : string) :
  is_space c = false -> exists t, rstrip (String c s) = String c t.
Proof.
  intros Hc. simpl. destruct (rstrip s).
  - rewrite Hc. now exists EmptyString.
  - eexists. reflexivity.
Qed.

Lemma lstrip_head (s : string) :
  lstrip s = EmptyString \/
  exists c t, lstrip s = String c t /\ is_space c = false.
Proof.
  induction s as [|c s IH]; simpl.
  - now left.
  - destruct (is_space c) eqn:Ec; [exact IH|].
    right. now exists c, s.
Qed.

Lemma lstrip_strip (s : string) : lstrip (strip s) = strip s.
Proof.
  unfold strip. destruct (lstrip_head s) as [E | (c & t & E & Hc)]; rewrite E.
  - reflexivity.
  - destruct (rstrip_head c t Hc) as [t' E']. rewrite E'. simpl. now rewrite Hc.
Qed.

Lemma strip_idem (s : string) : strip (strip s) = strip s.
Proof.
  unfold strip at 1. rewrite lstrip_strip. unfold strip. apply rstrip_idem.
Qed.

(** [.str.lower().str.strip()] changes nothing the second time. *)
Lemma standardize_text_idem (s : string) :
  strip (lower (strip (lower s))) = strip (lower s).
Proof. now rewrite strip_lower, strip_idem, <- strip_lower, lower_idem. Qed.

(** ** Numbers *)

Lemma astype_int_idem (q : Q) : astype_int (astype_int q) = astype_int q.
Proof. unfold astype_int. simpl. now rewrite Z.quot_1_r. Qed.

Lemma clip_lower0_idem (q : Q) : clip_lower0 (clip_lower0 q) = clip_lower0 q.
Proof.
  unfold clip_lower0. destruct (Qle_bool 0 q) eqn:E.
  - now rewrite E.
  - reflexivity.
Qed.

Lemma insert_sorted_length (x : Q) (l : list Q) :
  List.length (insert_sorted x l) = S (List.length l).
Proof.
  induction l as [|y l IH]; simpl; [reflexivity|].
  destruct (Qle_bool x y); simpl; [reflexivity | now rewrite IH].
Qed.

Lemma sort_values_length (l : list Q) : List.length (sort_values l) = List.length l.
Proof.
  induction l as [|x l IH]; simpl; [reflexivity|].
  now rewrite insert_sorted_length, IH.
Qed.

(** The median is NaN exactly when the column has no value. *)
Lemma median_None_iff (col : list (option Q)) : median col = None <-> dropna col = [].
Proof.
  unfold median. rewrite sort_values_length.
  destruct (dropna col) as [|x l]; simpl.
  - tauto.
  - split; intros H; [|discriminate H].
    match type of H with (if ?b then _ else _) = _ => destruct b end; discriminate H.
Qed.

Lemma dropna_nil_iff {A : Type} (col : list (option A)) :
  dropna col = [] <-> Forall (fun c => c = None) col.
Proof.
  induction col as [|[a|] col IH]; simpl.
  - split; auto.
  - split; [discriminate|]. intros H. inversion H; discriminate.
  - rewrite IH. split; intros H; [constructor; auto | now inversion H].
Qed.

Lemma inject_Z_nonzero (z : Z) : z <> 0 -> Qeq_bool (inject_Z z) 0 = false.
Proof.
  intros Hz. unfold Qeq_bool, inject_Z. simpl.
  apply Z.eqb_neq. lia.
Qed.

End PyFacts.

(** ** Floats: the nearest double, its bounds and its error *)

Module FloatFacts.
Import Py.
Local Open Scope Q_scope.

(** ** Rounding to an integer *)

Lemma round_half_even_bounds (y : Q) (a b : Z) :
  inject_Z a <= y -> y <= inject_Z b -> (a <= round_half_even y <= b)%Z.
Proof.
  unfold Qle, round_half_even. destruct y as [n d]. cbn [Qnum Qden inject_Z].
  intros Ha Hb.
  pose proof (Z.div_mod n (Z.pos d) ltac:(lia)) as Hdm.
  pose proof (Z.mod_pos_bound n (Z.pos d) ltac:(lia)) as Hr.
  set (q := (n / Z.pos d)%Z) in *. set (r := (n mod Z.pos d)%Z) in *.
  destruct (Z.compare_spec (2 * r) (Z.pos d)); [destruct (Z.even q)| |]; nia.
Qed.

Lemma round_half_even_lower (y : Q) (a : Z) :
  inject_Z a <= y -> (a <= round_half_even y)%Z.
Proof.
  unfold Qle, round_half_even. destruct y as [n d]. cbn [Qnum Qden inject_Z].
  intros Ha.
  pose proof (Z.div_mod n (Z.pos d) ltac:(lia)) as Hdm.
  pose proof (Z.mod_pos_bound n (Z.pos d) ltac:(lia)) as Hr.
  set (q := (n / Z.pos d)%Z) in *. set (r := (n mod Z.pos d)%Z) in *.
  destruct (Z.compare_spec (2 * r) (Z.pos d)); [destruct (Z.even q)| |]; nia.
Qed.

Lemma round_half_even_upper (y : Q) (b : Z) :
  y <= inject_Z b -> (round_half_even y <= b)%Z.
Proof.
  unfold Qle, round_half_even. destruct y as [n d]. cbn [Qnum Qden inject_Z].
  intros Hb.
  pose proof (Z.div_mod n (Z.pos d) ltac:(lia)) as Hdm.
  pose proof (Z.mod_pos_bound n (Z.pos d) ltac:(lia)) as Hr.
  set (q := (n / Z.pos d)%Z) in *. set (r := (n mod Z.pos d)%Z) in *.
  destruct (Z.compare_spec (2 * r) (Z.pos d)); [destruct (Z.even q)| |]; nia.
Qed.

Lemma round_half_even_error (y : Q) :
  y - (1 # 2) <= inject_Z (round_half_even y) /\
  inject_Z (round_half_even y) <= y + (1 # 2).
Proof.
  unfold Qle, Qminus, Qplus, Qopp, round_half_even. destruct y as [n d].
  cbn [Qnum Qden inject_Z].
  pose proof (Z.div_mod n (Z.pos d) ltac:(lia)) as Hdm.
  pose proof (Z.mod_pos_bound n (Z.pos d) ltac:(lia)) as Hr.
  set (q := (n / Z.pos d)%Z) in *. set (r := (n mod Z.pos d)%Z) in *.
  rewrite !Pos2Z.inj_mul.
  destruct (Z.compare_spec (2 * r) (Z.pos d)); [destruct (Z.even q)| |]; nia.
Qed.

(** ** Powers of two *)

Lemma pow2_pos (k : Z) : 0 < 2 ^ k.
Proof. apply Qpower_0_lt. reflexivity. Qed.

Lemma pow2_plus (a b : Z) : 2 ^ (a + b) == 2 ^ a * 2 ^ b.
Proof. apply Qpower_plus. discriminate. Qed.

Lemma pow2_le (a b : Z) : (a <= b)%Z -> 2 ^ a <= 2 ^ b.
Proof. intros H. apply Qpower_le_compat_l; [exact H | discriminate]. Qed.

Lemma pow2_lt_inv (a b : Z) : 2 ^ a < 2 ^ b -> (a < b)%Z.
Proof. intros H. apply (Qpower_lt_compat_l_inv 2); [exact H | reflexivity]. Qed.

Lemma pow2_inject (k : Z) : (0 <= k)%Z -> 2 ^ k == inject_Z (2 ^ k).
Proof. intros H. rewrite Zpower_Qpower by exact H. reflexivity. Qed.

(** ** The binary exponent *)

Lemma ilog2_spec (x : Q) : 0 < x -> 2 ^ ilog2 x <= x /\ x < 2 ^ (ilog2 x + 1).
Proof.
  intros Hx. unfold ilog2. destruct (Qle_bool 1 x) eqn:E.
  - apply Qle_bool_iff in E.
    assert (Hf : (1 <= Qfloor x)%Z).
    { rewrite <- (Qfloor_Z 1). apply Qfloor_resp_le. exact E. }
    destruct (Z.log2_spec (Qfloor x)) as [Hlo Hhi]; [lia|].
    pose proof (Z.log2_nonneg (Qfloor x)) as Hnn.
    pose proof (Qfloor_le x) as Hfl. pose proof (Qlt_floor x) as Hfu.
    split.
    + rewrite pow2_inject by exact Hnn.
      eapply Qle_trans; [|exact Hfl]. rewrite <- Zle_Qle. exact Hlo.
    + rewrite pow2_inject by lia.
      eapply Qlt_le_trans; [exact Hfu|]. rewrite <- Zle_Qle. lia.
  - assert (Hx1 : x < 1).
    { apply Qnot_le_lt. intros H. apply Qle_bool_iff in H. congruence. }
    set (y := / x). set (c := Qceiling y). set (u := Z.log2_up c).
    assert (Hxy : x * y == 1) by (apply Qmult_inv_r; intros H0; rewrite H0 in Hx; discriminate Hx).
    assert (Hy : 1 < y).
    { apply Qnot_le_lt. intros H.
      assert (0 < y) by (apply Qinv_lt_0_compat; exact Hx). nra. }
    pose proof (Qle_ceiling y) as Hcu. pose proof (Qceiling_lt y) as Hcl.
    fold c in Hcu, Hcl.
    assert (Hc : (1 < c)%Z).
    { rewrite Zlt_Qlt. change (inject_Z 1) with 1. lra. }
    destruct (Z.log2_up_spec c Hc) as [Hlo Hhi]. fold u in Hlo, Hhi.
    assert (Hu : (0 < u)%Z) by (apply Z.log2_up_pos; exact Hc).
    assert (Hlo' : inject_Z (2 ^ (u - 1)) <= inject_Z (c - 1)).
    { rewrite <- Zle_Qle. replace (Z.pred u) with (u - 1)%Z in Hlo by lia. lia. }
    assert (Hhi' : inject_Z c <= inject_Z (2 ^ u)) by (rewrite <- Zle_Qle; exact Hhi).
    rewrite <- pow2_inject in Hlo', Hhi' by lia.
    pose proof (pow2_pos u) as Hpu. pose proof (pow2_pos (u - 1)) as Hpu1.
    split.
    + rewrite Qpower_opp. apply Qle_shift_inv_r; [exact Hpu|]. nra.
    + replace (- u + 1)%Z with (- (u - 1))%Z by lia.
      rewrite Qpower_opp. apply Qlt_shift_inv_l; [exact Hpu1|]. nra.
Qed.

Lemma ilog2_upper (x : Q) (k : Z) : 0 < x -> x < 2 ^ (k + 1) -> (ilog2 x <= k)%Z.
Proof.
  intros Hx Hk. destruct (ilog2_spec x Hx) as [Hlo _].
  assert (H : 2 ^ ilog2 x < 2 ^ (k + 1)) by (eapply Qle_lt_trans; eauto).
  apply pow2_lt_inv in H. lia.
Qed.

Lemma ilog2_mono (x y : Q) : 0 < x -> x <= y -> (ilog2 x <= ilog2 y)%Z.
Proof.
  intros Hx Hxy. apply ilog2_upper; [exact Hx|].
  destruct (ilog2_spec y) as [_ Hhi]; [lra|]. lra.
Qed.

Lemma ulp_exponent_mono (x y : Q) :
  0 < x -> x <= y -> (ulp_exponent x <= ulp_exponent y)%Z.
Proof.
  intros Hx Hxy. unfold ulp_exponent. pose proof (ilog2_mono x y Hx Hxy). lia.
Qed.

Lemma ulp_exponent_upper (x : Q) (c : Z) :
  0 < x -> x < 2 ^ (c + 53) -> (-1074 <= c)%Z -> (ulp_exponent x <= c)%Z.
Proof.
  intros Hx Hc Hmin. unfold ulp_exponent.
  assert (ilog2 x <= c + 52)%Z.
  { apply ilog2_upper; [exact Hx|]. replace (c + 52 + 1)%Z with (c + 53)%Z by lia.
    exact Hc. }
  lia.
Qed.

(** ** The nearest double *)

Lemma nearest_pos_eq (x : Q) :
  nearest_pos x ==
  inject_Z (round_half_even (x / 2 ^ ulp_exponent x)) * 2 ^ ulp_exponent x.
Proof. unfold nearest_pos. apply Qred_correct. Qed.

Lemma nearest_pos_nonneg (x : Q) : 0 < x -> 0 <= nearest_pos x.
Proof.
  intros Hx. rewrite nearest_pos_eq.
  pose proof (pow2_pos (ulp_exponent x)) as Hp.
  assert (Hm : (0 <= round_half_even (x / 2 ^ ulp_exponent x))%Z).
  { apply (round_half_even_lower _ 0). change (inject_Z 0) with 0.
    apply Qle_shift_div_l; [exact Hp | lra]. }
  rewrite Zle_Qle in Hm. change (inject_Z 0) with 0 in Hm. nra.
Qed.

(** Rounding does not cross an integer below [2 ^ 53]: such an integer is
    a double. *)
Lemma nearest_pos_le_int (x : Q) (N : Z) :
  0 < x -> x <= inject_Z N -> x < 2 ^ 53 -> nearest_pos x <= inject_Z N.
Proof.
  intros Hx HN H53. rewrite nearest_pos_eq.
  assert (He : (ulp_exponent x <= 0)%Z) by (apply ulp_exponent_upper; [| |lia]; assumption).
  set (e := ulp_exponent x) in *.
  pose proof (pow2_pos e) as Hp. pose proof (pow2_pos (- e)) as Hq.
  assert (Hinv : 2 ^ e * 2 ^ (- e) == 1).
  { rewrite <- pow2_plus. replace (e + - e)%Z with 0%Z by lia. reflexivity. }
  assert (Hm : (round_half_even (x / 2 ^ e) <= N * 2 ^ (- e))%Z).
  { apply round_half_even_upper. rewrite inject_Z_mult, <- pow2_inject by lia.
    apply Qle_shift_div_r; [exact Hp|].
    rewrite <- Qmult_assoc, (Qmult_comm (2 ^ (- e))), Hinv. lra. }
  rewrite Zle_Qle, inject_Z_mult, <- pow2_inject in Hm by lia.
  apply Qmult_le_r with (z := 2 ^ (- e)); [exact Hq|].
  rewrite <- Qmult_assoc, Hinv. lra.
Qed.

(** The rounding error is at most half the last mantissa bit. *)
Lemma nearest_pos_error (x : Q) (c : Z) :
  0 < x -> x < 2 ^ (c + 53) -> (-1074 <= c)%Z ->
  x - 2 ^ c / 2 <= nearest_pos x /\ nearest_pos x <= x + 2 ^ c / 2.
Proof.
  intros Hx Hc Hmin. rewrite nearest_pos_eq.
  assert (He : (ulp_exponent x <= c)%Z) by (apply ulp_exponent_upper; assumption).
  set (e := ulp_exponent x) in *.
  pose proof (pow2_pos e) as Hp. pose proof (pow2_le e c He) as Hle.
  destruct (round_half_even_error (x / 2 ^ e)) as [Hlo Hhi].
  set (m := inject_Z (round_half_even (x / 2 ^ e))) in *.
  assert (Hx' : x / 2 ^ e * 2 ^ e == x).
  { unfold Qdiv. rewrite <- Qmult_assoc, (Qmult_comm (/ 2 ^ e)), Qmult_inv_r.
    - apply Qmult_1_r.
    - intros H0. rewrite H0 in Hp. discriminate Hp. }
  set (y := x / 2 ^ e) in *. set (P := 2 ^ e) in *.
  assert (H1 : y * P - P / 2 <= m * P).
  { setoid_replace (y * P - P / 2) with ((y - (1 # 2)) * P) by field.
    apply Qmult_le_compat_r; lra. }
  assert (H2 : m * P <= y * P + P / 2).
  { setoid_replace (y * P + P / 2) with ((y + (1 # 2)) * P) by field.
    apply Qmult_le_compat_r; lra. }
  set (C := 2 ^ c) in *. clearbody m y P C.
  unfold Qdiv in *. change (/ 2) with (1 # 2) in *. split; lra.
Qed.

Lemma binary64_cases (x : Q) :
  (x == 0 /\ binary64 x = 0) \/
  (0 < x /\ binary64 x = nearest_pos x) \/
  (x < 0 /\ binary64 x = - nearest_pos (- x)).
Proof.
  unfold binary64. destruct (x ?= 0) eqn:E.
  - left. split; [apply Qeq_alt; exact E | reflexivity].
  - right. right. split; [apply Qlt_alt; exact E | reflexivity].
  - right. left. split; [apply Qgt_alt; exact E | reflexivity].
Qed.

Lemma binary64_nonneg (x : Q) : 0 <= x -> 0 <= binary64 x.
Proof.
  intros Hx. destruct (binary64_cases x) as [[_ ->] | [[Hp ->] | [Hn _]]].
  - lra.
  - apply nearest_pos_nonneg. exact Hp.
  - lra.
Qed.

Lemma binary64_bounds (x : Q) (N : Z) :
  (N < 2 ^ 53)%Z -> - inject_Z N <= x -> x <= inject_Z N ->
  - inject_Z N <= binary64 x /\ binary64 x <= inject_Z N.
Proof.
  intros HN Hlo Hhi.
  assert (H53 : inject_Z N < 2 ^ 53).
  { rewrite (pow2_inject 53) by lia. rewrite <- Zlt_Qlt. exact HN. }
  destruct (binary64_cases x) as [[_ ->] | [[Hp ->] | [Hn ->]]].
  - lra.
  - pose proof (nearest_pos_nonneg x Hp).
    pose proof (nearest_pos_le_int x N Hp Hhi ltac:(lra)). lra.
  - assert (Hp : 0 < - x) by lra.
    pose proof (nearest_pos_nonneg (- x) Hp).
    pose proof (nearest_pos_le_int (- x) N Hp ltac:(lra) ltac:(lra)). lra.
Qed.

Lemma binary64_error (x : Q) (c : Z) :
  - 2 ^ (c + 53) < x -> x < 2 ^ (c + 53) -> (-1074 <= c)%Z ->
  x - 2 ^ c / 2 <= binary64 x /\ binary64 x <= x + 2 ^ c / 2.
Proof.
  intros Hlo Hhi Hmin. pose proof (pow2_pos c) as Hc.
  destruct (binary64_cases x) as [[H0 ->] | [[Hp ->] | [Hn ->]]].
  - set (C := 2 ^ c) in *. clearbody C.
    unfold Qdiv. change (/ 2) with (1 # 2). lra.
  - apply nearest_pos_error; assumption.
  - destruct (nearest_pos_error (- x) c) as [H1 H2]; [| |exact Hmin|].
    + set (B := 2 ^ (c + 53)) in *. clearbody B. lra.
    + set (B := 2 ^ (c + 53)) in *. clearbody B. lra.
    + set (C := 2 ^ c) in *. clearbody C.
      unfold Qdiv in *. change (/ 2) with (1 # 2) in *. lra.
Qed.

(** Numbers with two decimals below 128 in size keep their order when they
    are replaced by the nearest doubles: comparing the decimals that stand
    for rounded floats is comparing the floats. *)
Lemma binary64_decimals_ordered (m n : Z) :
  (-12800 < m)%Z -> (m < n)%Z -> (n < 12800)%Z ->
  binary64 (inject_Z m / 100) < binary64 (inject_Z n / 100).
Proof.
  intros Hlo Hmn Hhi.
  rewrite Zlt_Qlt in Hlo, Hmn, Hhi.
  assert (Hstep : inject_Z m + 1 <= inject_Z n).
  { change 1 with (inject_Z 1). rewrite <- inject_Z_plus, <- Zle_Qle.
    rewrite <- Zlt_Qlt in Hmn. lia. }
  change (inject_Z (-12800)) with (-12800) in Hlo.
  change (inject_Z 12800) with 12800 in Hhi.
  unfold Qdiv. change (/ 100) with (1 # 100).
  set (a := inject_Z m) in *. set (b := inject_Z n) in *. clearbody a b.
  destruct (binary64_error (a * (1 # 100)) (-46)) as [_ Ha]; [| |lia|].
  { change (2 ^ (-46 + 53)) with 128. lra. }
  { change (2 ^ (-46 + 53)) with 128. lra. }
  destruct (binary64_error (b * (1 # 100)) (-46)) as [Hb _]; [| |lia|].
  { change (2 ^ (-46 + 53)) with 128. lra. }
  { change (2 ^ (-46 + 53)) with 128. lra. }
  change (2 ^ (-46) / 2) with (1 # 140737488355328) in Ha, Hb.
  set (x := binary64 (a * (1 # 100))) in *.
  set (y := binary64 (b * (1 # 100))) in *. clearbody x y. lra.
Qed.

(** ** [round(x, 2)] *)

Lemma round2_eq (x : Q) : round2 x == inject_Z (round_half_even (x * 100)) / 100.
Proof. unfold round2. apply Qred_correct. Qed.

Lemma round2_error (x : Q) :
  x - (1 # 200) <= round2 x /\ round2 x <= x + (1 # 200).
Proof.
  rewrite round2_eq. destruct (round_half_even_error (x * 100)) as [Hlo Hhi].
  set (m := inject_Z (round_half_even (x * 100))) in *.
  split.
  - apply Qle_shift_div_l; [reflexivity | lra].
  - apply Qle_shift_div_r; [reflexivity | lra].
Qed.

Lemma round2_bounds (x : Q) (a b : Z) :
  inject_Z a <= x -> x <= inject_Z b ->
  inject_Z a <= round2 x /\ round2 x <= inject_Z b.
Proof.
  intros Ha Hb. rewrite round2_eq.
  destruct (round_half_even_bounds (x * 100) (a * 100) (b * 100)) as [Hlo Hhi].
  - rewrite inject_Z_mult. change (inject_Z 100) with 100. lra.
  - rewrite inject_Z_mult. change (inject_Z 100) with 100. lra.
  - rewrite Zle_Qle, inject_Z_mult in Hlo, Hhi. change (inject_Z 100) with 100 in *.
    set (m := inject_Z (round_half_even (x * 100))) in *.
    split.
    + apply Qle_shift_div_l; [reflexivity | lra].
    + apply Qle_shift_div_r; [reflexivity | lra].
Qed.

End FloatFacts.

(** ** [duplicated] and [drop_duplicates] *)

Module FrameFacts.
Import Py.

Section Frames.
Context {R : Type} (row_eqb : R -> R -> bool).

Lemma drop_from_again (df seen1 seen2 : list R) :
  (forall r, existsb (row_eqb r) seen1 = true -> existsb (row_eqb r) seen2 = true) ->
  drop_from row_eqb seen1 (drop_from row_eqb seen2 df) = drop_from row_eqb seen2 df.
Proof.
  revert seen1 seen2.
  induction df as [|r df IH]; intros seen1 seen2 Hsub; simpl; [reflexivity|].
  destruct (existsb (row_eqb r) seen2) eqn:E2.
  - apply IH. intros x Hx. simpl. rewrite (Hsub x Hx). apply orb_true_r.
  - simpl. destruct (existsb (row_eqb r) seen1) eqn:E1.
    + rewrite (Hsub r E1) in E2. discriminate.
    + f_equal. apply IH. intros x. simpl.
      destruct (row_eqb x r); simpl; [reflexivity | apply Hsub].
Qed.

Lemma duplicated_from_drop_from (df seen1 seen2 : list R) :
  (forall r, existsb (row_eqb r) seen1 = true -> existsb (row_eqb r) seen2 = true) ->
  mask_sum (duplicated_from row_eqb seen1 (drop_from row_eqb seen2 df)) = 0%nat.
Proof.
  revert seen1 seen2.
  induction df as [|r df IH]; intros seen1 seen2 Hsub; simpl; [reflexivity|].
  destruct (existsb (row_eqb r) seen2) eqn:E2.
  - apply IH. intros x Hx. simpl. rewrite (Hsub x Hx). apply orb_true_r.
  - simpl. destruct (existsb (row_eqb r) seen1) eqn:E1.
    + rewrite (Hsub r E1) in E2. discriminate.
    + unfold mask_sum in *. simpl. apply IH. intros x. simpl.
      destruct (row_eqb x r); simpl; [reflexivity | apply Hsub].
Qed.

(** Dropping duplicates twice is dropping them once. *)
Lemma drop_duplicates_idem (df : list R) :
  drop_duplicates row_eqb (drop_duplicates row_eqb df) = drop_duplicates row_eqb df.
Proof. apply drop_from_again. auto. Qed.

(** After [drop_duplicates] the mask flags nothing. *)
Lemma duplicated_drop_duplicates (df : list R) :
  mask_sum (duplicated row_eqb (drop_duplicates row_eqb df)) = 0%nat.
Proof. apply duplicated_from_drop_from. auto. Qed.

Lemma drop_from_In (df seen : list R) (r : R) :
  In r (drop_from row_eqb seen df) -> In r df.
Proof.
  revert seen. induction df as [|x df IH]; intros seen; simpl; [tauto|].
  destruct (existsb (row_eqb x) seen); simpl; intros H.
  - right. eapply IH, H.
  - destruct H as [H|H]; [now left | right; eapply IH, H].
Qed.

Lemma drop_duplicates_Forall (P : R -> Prop) (df : list R) :
  Forall P df -> Forall P (drop_duplicates row_eqb df).
Proof.
  rewrite !Forall_forall. intros H r Hr. apply H.
  eapply drop_from_In, Hr.
Qed.

(** A table without flagged rows is left alone. *)
Lemma drop_from_clean (df seen : list R) :
  mask_sum (duplicated_from row_eqb seen df) = 0%nat -> drop_from row_eqb seen df = df.
Proof.
  revert seen. induction df as [|x df IH]; intros seen; simpl; [reflexivity|].
  unfold mask_sum. simpl. destruct (existsb (row_eqb x) seen); simpl.
  - discriminate.
  - intros H. f_equal. apply IH, H.
Qed.

End Frames.
End FrameFacts.

(* ===================================================================== *)
(** * The Cleaner run on its own output *)
(* ===================================================================== *)

Module CleanerFacts.
Import Py Cleaner PyFacts FrameFacts.

Lemma map_fixed {A : Type} (f : A -> A) (l : list A) :
  (forall a, In a l -> f a = a) -> map f l = l.
Proof.
  induction l as [|a l IH]; simpl; intros H; [reflexivity|].
  rewrite H by now left. f_equal. apply IH. intros b Hb. apply H. now right.
Qed.

Section Runs.
Context `{DateParser}.

(** The two loops of "Handle missing values" act row by row, with the
    medians of the table they start from. *)
Lemma deals_fill_missing_rows (df : list deal) :
  deals_fill_missing df =
  map (fill_deal (median (map average_stock df))
                 (median (map declared_product_catalog_size df))
                 (median (map declared_monthly_revenue df))) df.
Proof.
  unfold deals_fill_missing, fill_numerical, fill_categorical. cbn.
  rewrite !map_map. cbn.
  apply map_ext. intros r. destruct r. reflexivity.
Qed.

Lemma deals_convert_rows (df : list deal) :
  deals_convert df = map convert_deal df.
Proof.
  unfold deals_convert, deals_standardize, deals_to_datetime. rewrite !map_map.
  apply map_ext. intros r. destruct r. reflexivity.
Qed.

Lemma mql_fill_missing_rows (df : list lead) : mql_fill_missing df = map fill_lead df.
Proof.
  unfold mql_fill_missing. rewrite map_map.
  apply map_ext. intros r. destruct r. reflexivity.
Qed.

Lemma mql_convert_rows (df : list lead) : mql_convert df = map convert_lead df.
Proof.
  unfold mql_convert, mql_standardize, mql_to_datetime. rewrite map_map.
  apply map_ext. intros r. destruct r. reflexivity.
Qed.

(** *** Cells after the first run *)

Lemma standardize_fillna_standard (v : string) (c : option string) :
  text_standard (standardize (fillna v c)).
Proof.
  destruct c as [s|]; simpl; eexists; (split; [reflexivity|]);
    apply standardize_text_idem.
Qed.

Lemma astype_fillna_settled (c : option Q) :
  flag_settled (option_map astype_int (fillna 0%Q c)).
Proof.
  destruct c as [q|]; simpl; eexists; (split; [reflexivity|]);
    apply astype_int_idem.
Qed.

Lemma clip_settled (c : option Q) : amount_settled (option_map clip_lower0 c).
Proof.
  intros q. destruct c as [x|]; simpl; [|discriminate].
  intros [= <-]. apply clip_lower0_idem.
Qed.

Lemma to_datetime_coerce_parsed (c : date_cell) : date_parsed (to_datetime_coerce c).
Proof.
  intros s. destruct c as [t| |]; simpl; [destruct (to_timestamp t)| |]; discriminate.
Qed.

Lemma fillna_filled {A : Type} (v : A) (c : option A) : fillna v c <> None.
Proof. destruct c; discriminate. Qed.

Lemma convert_fill_deal_settled (m1 m2 m3 : option Q) (r : deal) :
  deal_settled (convert_deal (fill_deal m1 m2 m3 r)).
Proof.
  unfold deal_settled; simpl.
  repeat split;
    auto using standardize_fillna_standard, astype_fillna_settled, clip_settled,
               to_datetime_coerce_parsed, fillna_filled.
Qed.

Lemma convert_fill_lead_settled (r : lead) : lead_settled (convert_lead (fill_lead r)).
Proof.
  unfold lead_settled; simpl.
  repeat split;
    auto using standardize_fillna_standard, to_datetime_coerce_parsed, fillna_filled.
Qed.

(** *** Cells a second run leaves alone *)

Lemma fillna_same {A : Type} (v : A) (c : option A) : c <> None -> fillna v c = c.
Proof. destruct c; [reflexivity | congruence]. Qed.

Lemma standardize_same (c : option string) : text_standard c -> standardize c = c.
Proof. intros (s & -> & Hs). simpl. now rewrite Hs. Qed.

Lemma text_standard_filled (c : option string) : text_standard c -> c <> None.
Proof. intros (s & -> & _). discriminate. Qed.

Lemma flag_fillna_same (c : option Q) : flag_settled c -> fillna 0%Q c = c.
Proof. intros (q & -> & _). reflexivity. Qed.

Lemma flag_astype_same (c : option Q) : flag_settled c -> option_map astype_int c = c.
Proof. intros (q & -> & Hq). simpl. now rewrite Hq. Qed.

Lemma amount_clip_same (c : option Q) : amount_settled c -> option_map clip_lower0 c = c.
Proof.
  destruct c as [q|]; simpl; intros Hq; [|reflexivity].
  now rewrite (Hq q eq_refl).
Qed.

Lemma date_coerce_same (c : date_cell) : date_parsed c -> to_datetime_coerce c = c.
Proof. destruct c as [s| |]; intros Hc; [now destruct (Hc s) | reflexivity | reflexivity]. Qed.

(** A uniform column is not changed by a fill with its own median. *)
Lemma uniform_median_fill {R : Type} (col : R -> option Q) (df : list R) (r : R) :
  uniform col df -> In r df -> fillna_opt (median (map col df)) (col r) = col r.
Proof.
  intros [Hnone | Hsome] Hr.
  - assert (Hm : median (map col df) = None).
    { apply median_None_iff, dropna_nil_iff.
      rewrite Forall_map. exact Hnone. }
    rewrite Hm. rewrite Forall_forall in Hnone. now rewrite (Hnone r Hr).
  - rewrite Forall_forall in Hsome. specialize (Hsome r Hr).
    destruct (col r); [reflexivity | congruence].
Qed.

(** After a fill with its median, a column is uniform, whatever is done to
    its values afterwards. *)
Lemma uniform_after_fill {R R' : Type} (col : R -> option Q) (col' : R' -> option Q)
    (h : R -> R') (df : list R) :
  (forall r, col' (h r) = None <-> fillna_opt (median (map col df)) (col r) = None) ->
  uniform col' (map h df).
Proof.
  intros Hh. unfold uniform. rewrite !Forall_map.
  destruct (median (map col df)) as [m|] eqn:Hm.
  - right. rewrite Forall_forall. intros r _. rewrite Hh.
    destruct (col r); discriminate.
  - left. apply median_None_iff, dropna_nil_iff in Hm.
    rewrite Forall_map in Hm.
    eapply Forall_impl; [|exact Hm]. intros r Hr. simpl in Hr.
    apply Hh. now rewrite Hr.
Qed.

Lemma option_map_None {A B : Type} (g : A -> B) (c : option A) :
  option_map g c = None <-> c = None.
Proof. destruct c; simpl; split; congruence. Qed.

(** *** Tables *)

Lemma clean_deals_rows (deals_df : list deal) :
  let df := drop_duplicates deal_eqb deals_df in
  cleaned (clean_deals deals_df) =
  map (fun r => convert_deal
                  (fill_deal (median (map average_stock df))
                             (median (map declared_product_catalog_size df))
                             (median (map declared_monthly_revenue df)) r)) df.
Proof.
  intros df.
  change (cleaned (clean_deals deals_df)) with (deals_convert (deals_fill_missing df)).
  now rewrite deals_convert_rows, deals_fill_missing_rows, map_map.
Qed.

Lemma clean_mql_rows (mql_df : list lead) :
  cleaned (clean_mql mql_df) =
  map (fun r => convert_lead (fill_lead r)) (drop_duplicates lead_eqb mql_df).
Proof.
  change (cleaned (clean_mql mql_df))
    with (mql_convert (mql_fill_missing (drop_duplicates lead_eqb mql_df))).
  now rewrite mql_convert_rows, mql_fill_missing_rows, map_map.
Qed.

(** Every table the Cleaner returns is settled. *)
Lemma clean_deals_settled (deals_df : list deal) :
  deals_settled (cleaned (clean_deals deals_df)).
Proof.
  rewrite clean_deals_rows. cbv zeta.
  set (df := drop_duplicates deal_eqb deals_df).
  repeat split.
  - rewrite Forall_map, Forall_forall. intros r _. apply convert_fill_deal_settled.
  - apply uniform_after_fill with (col := average_stock).
    intros r. simpl. apply option_map_None.
  - apply uniform_after_fill with (col := declared_product_catalog_size).
    intros r. simpl. reflexivity.
  - apply uniform_after_fill with (col := declared_monthly_revenue).
    intros r. simpl. apply option_map_None.
Qed.

Lemma clean_mql_settled (mql_df : list lead) :
  Forall lead_settled (cleaned (clean_mql mql_df)).
Proof.
  rewrite clean_mql_rows, Forall_map, Forall_forall.
  intros r _. apply convert_fill_lead_settled.
Qed.

Lemma uniform_drop_duplicates {R : Type} (eqb : R -> R -> bool)
    (col : R -> option Q) (df : list R) :
  uniform col df -> uniform col (drop_duplicates eqb df).
Proof.
  intros [Hc | Hc]; [left | right]; now apply drop_duplicates_Forall.
Qed.

Lemma deals_settled_drop_duplicates (df : list deal) :
  deals_settled df -> deals_settled (drop_duplicates deal_eqb df).
Proof.
  intros (Hrows & H1 & H2 & H3).
  repeat split;
    auto using drop_duplicates_Forall, uniform_drop_duplicates.
Qed.

(** On a settled table the fills and the conversions change nothing. *)
Lemma deals_fill_missing_settled (df : list deal) :
  deals_settled df -> deals_fill_missing df = df.
Proof.
  intros (Hrows & H1 & H2 & H3).
  rewrite deals_fill_missing_rows. apply map_fixed. intros r Hr.
  rewrite Forall_forall in Hrows.
  destruct (Hrows r Hr) as (Hbs & Hlt & Hlb & Hbt & Hsdr & Hsr & Hhc & Hhg & _).
  unfold fill_deal.
  rewrite (uniform_median_fill _ _ _ H1 Hr), (uniform_median_fill _ _ _ H2 Hr),
          (uniform_median_fill _ _ _ H3 Hr).
  rewrite (fillna_same _ (sdr_id r)), (fillna_same _ (sr_id r)),
          (fillna_same _ (business_type r)), (fillna_same _ (business_segment r)),
          (fillna_same _ (lead_type r)), (fillna_same _ (lead_behaviour_profile r))
    by auto using text_standard_filled.
  rewrite !flag_fillna_same by assumption.
  destruct r; reflexivity.
Qed.

Lemma deals_convert_settled (df : list deal) :
  Forall deal_settled df -> deals_convert df = df.
Proof.
  intros Hrows. rewrite deals_convert_rows. apply map_fixed. intros r Hr.
  rewrite Forall_forall in Hrows.
  destruct (Hrows r Hr)
    as (Hbs & Hlt & Hlb & _ & _ & _ & Hhc & Hhg & Hst & Hrev & Hdate).
  unfold convert_deal.
  rewrite !standardize_same, !flag_astype_same, !amount_clip_same,
          date_coerce_same by assumption.
  destruct r; reflexivity.
Qed.

Lemma mql_fill_missing_settled (df : list lead) :
  Forall lead_settled df -> mql_fill_missing df = df.
Proof.
  intros Hrows. rewrite mql_fill_missing_rows. apply map_fixed. intros r Hr.
  rewrite Forall_forall in Hrows. destruct (Hrows r Hr) as (Ho & Hl & _).
  unfold fill_lead. rewrite !fillna_same by auto using text_standard_filled.
  destruct r; reflexivity.
Qed.

Lemma mql_convert_settled (df : list lead) :
  Forall lead_settled df -> mql_convert df = df.
Proof.
  intros Hrows. rewrite mql_convert_rows. apply map_fixed. intros r Hr.
  rewrite Forall_forall in Hrows. destruct (Hrows r Hr) as (Ho & _ & Hd).
  unfold convert_lead. rewrite standardize_same, date_coerce_same by assumption.
  destruct r; reflexivity.
Qed.

(** A run on a settled table only drops duplicate rows. *)
Lemma clean_deals_on_settled (df : list deal) :
  deals_settled df ->
  cleaned (clean_deals df) = drop_duplicates deal_eqb df /\
  fills_performed (clean_deals df) = 0.
Proof.
  intros Hs. apply deals_settled_drop_duplicates in Hs.
  change (cleaned (clean_deals df))
    with (deals_convert (deals_fill_missing (drop_duplicates deal_eqb df))).
  unfold clean_deals, fills_performed. cbn [missing_before missing_after].
  rewrite (deals_fill_missing_settled _ Hs).
  split; [apply deals_convert_settled, Hs | lia].
Qed.

Lemma clean_mql_on_settled (df : list lead) :
  Forall lead_settled df ->
  cleaned (clean_mql df) = drop_duplicates lead_eqb df /\
  fills_performed (clean_mql df) = 0.
Proof.
  intros Hs. apply (drop_duplicates_Forall lead_eqb) in Hs.
  change (cleaned (clean_mql df))
    with (mql_convert (mql_fill_missing (drop_duplicates lead_eqb df))).
  unfold clean_mql, fills_performed. cbn [missing_before missing_after].
  rewrite (mql_fill_missing_settled _ Hs).
  split; [apply mql_convert_settled, Hs | lia].
Qed.

(** The rows a run reports as removed: the flagged rows of its input. *)
Lemma clean_deals_duplicates_removed (df : list deal) :
  duplicates_removed (clean_deals df) = Z.of_nat (mask_sum (duplicated deal_eqb df)).
Proof.
  unfold clean_deals. simpl. rewrite duplicated_drop_duplicates. lia.
Qed.

Lemma clean_mql_duplicates_removed (df : list lead) :
  duplicates_removed (clean_mql df) = Z.of_nat (mask_sum (duplicated lead_eqb df)).
Proof.
  unfold clean_mql. simpl. rewrite duplicated_drop_duplicates. lia.
Qed.

(** C7 (amended).  Running the Cleaner again on its own output fills no
    cell, and its only effect is to drop the rows that the first run's
    fills and standardisation made equal: when it drops none, its output
    is the table it was given.  The output of that second run is a fixed
    point: a third run drops no row, fills no cell and returns it as it is. *)
Theorem cleaner_rerun_settles (raw_leads : list lead) (raw_deals : list deal) :
  let leads1 := cleaned (clean_mql raw_leads) in
  let deals1 := cleaned (clean_deals raw_deals) in
  let leads2 := cleaned (clean_mql leads1) in
  let deals2 := cleaned (clean_deals deals1) in
  (fills_performed (clean_mql leads1) = 0 /\
   fills_performed (clean_deals deals1) = 0) /\
  (leads2 = drop_duplicates lead_eqb leads1 /\
   deals2 = drop_duplicates deal_eqb deals1) /\
  ((duplicates_removed (clean_mql leads1) = 0 -> leads2 = leads1) /\
   (duplicates_removed (clean_deals deals1) = 0 -> deals2 = deals1)) /\
  (duplicates_removed (clean_mql leads2) = 0 /\
   duplicates_removed (clean_deals deals2) = 0 /\
   fills_performed (clean_mql leads2) = 0 /\
   fills_performed (clean_deals deals2) = 0 /\
   clean leads2 deals2 = (leads2, deals2)).
Proof.
  intros leads1 deals1 leads2 deals2.
  pose proof (clean_mql_settled raw_leads) as Hl1. fold leads1 in Hl1.
  pose proof (clean_deals_settled raw_deals) as Hd1. fold deals1 in Hd1.
  destruct (clean_mql_on_settled leads1 Hl1) as [El2 Fl2].
  destruct (clean_deals_on_settled deals1 Hd1) as [Ed2 Fd2].
  fold leads2 in El2. fold deals2 in Ed2.
  assert (Hl2 : Forall lead_settled leads2)
    by (rewrite El2; now apply drop_duplicates_Forall).
  assert (Hd2 : deals_settled deals2)
    by (rewrite Ed2; now apply deals_settled_drop_duplicates).
  destruct (clean_mql_on_settled leads2 Hl2) as [El3 Fl3].
  destruct (clean_deals_on_settled deals2 Hd2) as [Ed3 Fd3].
  assert (Dl2 : mask_sum (duplicated lead_eqb leads2) = 0%nat)
    by (rewrite El2; apply duplicated_drop_duplicates).
  assert (Dd2 : mask_sum (duplicated deal_eqb deals2) = 0%nat)
    by (rewrite Ed2; apply duplicated_drop_duplicates).
  repeat split; try assumption.
  - rewrite clean_mql_duplicates_removed. intros Hz. rewrite El2.
    apply drop_from_clean. unfold duplicated in Hz. lia.
  - rewrite clean_deals_duplicates_removed. intros Hz. rewrite Ed2.
    apply drop_from_clean. unfold duplicated in Hz. lia.
  - rewrite clean_mql_duplicates_removed, Dl2. reflexivity.
  - rewrite clean_deals_duplicates_removed, Dd2. reflexivity.
  - unfold clean. rewrite El3, Ed3. f_equal.
    + rewrite El2. apply drop_duplicates_idem.
    + rewrite Ed2. apply drop_duplicates_idem.
Qed.

End Runs.
(** C7, as stated, fails on two deal rows that differ only in [lead_type],
    missing in one and ["unknown"] in the other: they are not duplicates of
    each other, the first run makes them equal, and the second run removes
    one of them. *)
Lemma cleaner_rerun_counterexample :
  ~ rerun_changes_nothing (H := IsoDates.iso_parser) []
      [ mk_deal (Some "m1") (Some "s1") (Some "sdr1") (Some "sr1")
          (DateText "2018-03-01") (Some "pet") None (Some "cat")
          (Some 1%Q) (Some 0%Q) (Some 10%Q) (Some "reseller")
          (Some 5%Q) (Some 1000%Q);
        mk_deal (Some "m1") (Some "s1") (Some "sdr1") (Some "sr1")
          (DateText "2018-03-01") (Some "pet") (Some "unknown") (Some "cat")
          (Some 1%Q) (Some 0%Q) (Some 10%Q) (Some "reseller")
          (Some 5%Q) (Some 1000%Q) ]%string.
Proof.
  unfold rerun_changes_nothing. intros (_ & Hdup & _).
  vm_compute in Hdup. discriminate Hdup.
Qed.

(** The amended statement at the same two rows: the second run drops one
    row and fills nothing, and what it returns is a fixed point. *)
Lemma cleaner_rerun_example :
  let raw_deals :=
    [ mk_deal (Some "m1") (Some "s1") (Some "sdr1") (Some "sr1")
        (DateText "2018-03-01") (Some "pet") None (Some "cat")
        (Some 1%Q) (Some 0%Q) (Some 10%Q) (Some "reseller")
        (Some 5%Q) (Some 1000%Q);
      mk_deal (Some "m1") (Some "s1") (Some "sdr1") (Some "sr1")
        (DateText "2018-03-01") (Some "pet") (Some "unknown") (Some "cat")
        (Some 1%Q) (Some 0%Q) (Some 10%Q) (Some "reseller")
        (Some 5%Q) (Some 1000%Q) ]%string in
  let deals1 := cleaned (clean_deals (H := IsoDates.iso_parser) raw_deals) in
  let run2 := clean_deals (H := IsoDates.iso_parser) deals1 in
  List.length deals1 = 2%nat /\
  duplicates_removed run2 = 1 /\
  fills_performed run2 = 0 /\
  List.length (cleaned run2) = 1%nat.
Proof. vm_compute. repeat split. Qed.

(** C7 (amended) at raw tables with an exact duplicate row, a missing
    [lead_type] and text to standardise: the first run leaves no two equal
    rows, so the second run returns its input. *)
Lemma cleaner_rerun_settles_witness :
  let raw_leads :=
    [ mk_lead (Some "L1") (DateText "2018-01-05") None (Some " Organic_Search ");
      mk_lead (Some "L2") (DateText "not a date") (Some "page2") None ]%string in
  let raw_deals :=
    [ mk_deal (Some "L1") (Some "s1") None (Some "sr1")
        (DateText "2018-03-01") (Some " Pet ") None (Some "Cat")
        None (Some 0%Q) None (Some "reseller") (Some 5%Q) (Some (-3)%Q);
      mk_deal (Some "L1") (Some "s1") None (Some "sr1")
        (DateText "2018-03-01") (Some " Pet ") None (Some "Cat")
        None (Some 0%Q) None (Some "reseller") (Some 5%Q) (Some (-3)%Q);
      mk_deal (Some "L2") (Some "s2") (Some "sdr2") None
        (DateText "2018-04-01") (Some "toys") (Some "online_big") None
        (Some 1%Q) None (Some 12%Q) None (Some 7%Q) (Some 100%Q) ]%string in
  let leads1 := cleaned (clean_mql (H := IsoDates.iso_parser) raw_leads) in
  let deals1 := cleaned (clean_deals (H := IsoDates.iso_parser) raw_deals) in
  duplicates_removed (clean_mql (H := IsoDates.iso_parser) leads1) = 0 /\
  duplicates_removed (clean_deals (H := IsoDates.iso_parser) deals1) = 0 /\
  cleaned (clean_mql (H := IsoDates.iso_parser) leads1) = leads1 /\
  cleaned (clean_deals (H := IsoDates.iso_parser) deals1) = deals1.
Proof.
  intros raw_leads raw_deals leads1 deals1.
  destruct (cleaner_rerun_settles (H := IsoDates.iso_parser) raw_leads raw_deals)
    as (_ & _ & (Hl & Hd) & _).
  assert (Dl : duplicates_removed (clean_mql (H := IsoDates.iso_parser) leads1) = 0)
    by (vm_compute; reflexivity).
  assert (Dd : duplicates_removed (clean_deals (H := IsoDates.iso_parser) deals1) = 0)
    by (vm_compute; reflexivity).
  split; [exact Dl|]. split; [exact Dd|].
  split; [exact (Hl Dl) | exact (Hd Dd)].
Defined.

End CleanerFacts.

(* ===================================================================== *)
(** * The Merger's stage flags *)
(* ===================================================================== *)

Module MergerFacts.
Import Py Merger PyFacts CleanerFacts.

(** ** Loading *)

Lemma mapM_Forall2 {A B : Type} (f : A -> option B) (l : list A) (l' : list B) :
  mapM f l = Some l' -> Forall2 (fun a b => f a = Some b) l l'.
Proof.
  revert l'. induction l as [|a l IH]; simpl; intros l' E.
  - injection E as <-. constructor.
  - destruct (f a) as [b|] eqn:Ea; [|discriminate].
    destruct (mapM f l) as [bs|]; [|discriminate].
    injection E as <-. constructor; auto.
Qed.

Lemma mapM_fixed {A : Type} (f : A -> option A) (l : list A) :
  Forall (fun a => f a = Some a) l -> mapM f l = Some l.
Proof.
  induction 1 as [|a l Ha _ IH]; simpl; [reflexivity|].
  now rewrite Ha, IH.
Qed.

Lemma Forall2_In_r {A B : Type} (P : A -> B -> Prop) (l : list A) (l' : list B) (b : B) :
  Forall2 P l l' -> In b l' -> exists a, In a l /\ P a b.
Proof.
  induction 1 as [|a b' l l' Hab _ IH]; simpl; [tauto|].
  intros [<- | Hb].
  - exists a. auto.
  - destruct (IH Hb) as (a' & Ha' & HP). exists a'. auto.
Qed.

Lemma Forall2_In_l {A B : Type} (P : A -> B -> Prop) (l : list A) (l' : list B) (a : A) :
  Forall2 P l l' -> In a l -> exists b, In b l' /\ P a b.
Proof.
  induction 1 as [|a' b l l' Hab _ IH]; simpl; [tauto|].
  intros [<- | Ha].
  - exists b. auto.
  - destruct (IH Ha) as (b' & Hb' & HP). exists b'. auto.
Qed.

Section Loading.
Context `{DateParser}.

Lemma to_datetime_strict_parsed (c : date_cell) :
  Cleaner.date_parsed c -> to_datetime_strict c = Some c.
Proof.
  destruct c as [s| |]; intros Hc; [now destruct (Hc s) | reflexivity | reflexivity].
Qed.

(** Tables whose dates are parsed already load as they are. *)
Lemma load_deals_parsed (deals_df : list deal) :
  Forall (fun d => Cleaner.date_parsed (won_date d)) deals_df ->
  load_deals deals_df = Some deals_df.
Proof.
  intros Hp. apply mapM_fixed. eapply Forall_impl; [|exact Hp].
  intros d Hd. simpl in Hd. rewrite (to_datetime_strict_parsed _ Hd). simpl.
  destruct d; reflexivity.
Qed.

Lemma load_mql_parsed (mql_df : list lead) :
  Forall (fun l => Cleaner.date_parsed (first_contact_date l)) mql_df ->
  load_mql mql_df = Some mql_df.
Proof.
  intros Hp. apply mapM_fixed. eapply Forall_impl; [|exact Hp].
  intros l Hl. simpl in Hl. rewrite (to_datetime_strict_parsed _ Hl). simpl.
  destruct l; reflexivity.
Qed.

(** Loading touches the date column only. *)
Lemma load_deals_rows (deals_df loaded : list deal) :
  load_deals deals_df = Some loaded ->
  Forall2 (fun d d' => d_mql_id d' = d_mql_id d /\ sdr_id d' = sdr_id d /\
                       sr_id d' = sr_id d) deals_df loaded.
Proof.
  intros E. apply mapM_Forall2 in E.
  eapply Forall2_impl; [|exact E]. intros d d' Hd. simpl in Hd.
  destruct (to_datetime_strict (won_date d)); [|discriminate].
  simpl in Hd. injection Hd as <-. auto.
Qed.

End Loading.

(** ** The left join *)

Lemma merge_left_In (mql_df : list lead) (deals_df : list deal) (m : merged) :
  In m (merge_left mql_df deals_df) ->
  In (lead_cols m) mql_df /\
  match deal_cols m with
  | Some d => In d deals_df /\ key_match (lead_cols m) d = true
  | None => forall d, In d deals_df -> key_match (lead_cols m) d = false
  end.
Proof.
  unfold merge_left. rewrite in_flat_map. intros (l & Hl & Hm).
  destruct (filter (key_match l) deals_df) as [|d0 ds] eqn:Ef.
  - destruct Hm as [<- | []]. simpl. split; [assumption|].
    intros d Hd. destruct (key_match l d) eqn:Ek; [|reflexivity].
    assert (Hin : In d (filter (key_match l) deals_df)) by (apply filter_In; auto).
    rewrite Ef in Hin. destruct Hin.
  - apply in_map_iff in Hm. destruct Hm as (d & <- & Hd). simpl.
    rewrite <- Ef in Hd. apply filter_In in Hd. tauto.
Qed.

Lemma build_master_In (mql_df : list lead) (deals_df : list deal) (r : master) :
  In r (build_master mql_df deals_df) ->
  exists m, r = add_funnel_columns m /\ In m (merge_left mql_df deals_df).
Proof.
  unfold build_master. rewrite in_map_iff. intros (m & <- & Hm). eauto.
Qed.

(** ** Rows of the master table *)

Section Rows.
Context `{DateParser}.

(** A row of the master table comes from a merged row whose deal, if any,
    is a matching deal of the input (with its date column loaded). *)
Lemma merge_row_cases (mql_df : list lead) (deals_df : list deal)
    (master_df : list master) (r : master) :
  merge mql_df deals_df = Some master_df -> In r master_df ->
  exists m, r = add_funnel_columns m /\
    match deal_cols m with
    | Some d' =>
        exists d, In d deals_df /\ key_match (lead_cols m) d = true /\
                  sdr_id d' = sdr_id d /\ sr_id d' = sr_id d
    | None => forall d, In d deals_df -> key_match (lead_cols m) d = false
    end.
Proof.
  unfold merge. intros E Hr.
  destruct (load_deals deals_df) as [loaded|] eqn:Ed; [|discriminate].
  destruct (load_mql mql_df) as [leads|]; [|discriminate].
  simpl in E. injection E as <-.
  apply build_master_In in Hr. destruct Hr as (m & -> & Hm).
  exists m. split; [reflexivity|].
  apply merge_left_In in Hm. destruct Hm as [_ Hm].
  apply load_deals_rows in Ed.
  destruct (deal_cols m) as [d'|].
  - destruct Hm as [Hd' Hk].
    destruct (Forall2_In_r _ _ _ _ Ed Hd') as (d & Hd & Hid & Hsdr & Hsr).
    exists d. repeat split; try assumption.
    unfold key_match in *. now rewrite <- Hid.
  - intros d Hd.
    destruct (Forall2_In_l _ _ _ _ Ed Hd) as (d' & Hd' & Hid & _).
    specialize (Hm d' Hd'). unfold key_match in *. now rewrite <- Hid.
Qed.

(** C10.  When every deal row carries an [sdr_id] and an [sr_id] (the
    Cleaner's "unknown" fill sees to it), every row of the master table has
    stage 3 equal to stage 4, both telling whether the lead matched a deal,
    and [dropout_after_qualification] is 0 on every row. *)
Theorem qualified_iff_consulted (mql_df : list lead) (deals_df : list deal)
    (master_df : list master) :
  merge mql_df deals_df = Some master_df ->
  (forall d, In d deals_df -> sdr_id d <> None /\ sr_id d <> None) ->
  forall r, In r master_df ->
    let matched := b2z (existsb (key_match (lead_cols (source r))) deals_df) in
    stage_3_sales_qualified r = matched /\
    stage_4_consultation r = matched /\
    stage_3_sales_qualified r = stage_4_consultation r /\
    dropout_after_qualification r = 0.
Proof.
  intros E Hids r Hr matched.
  destruct (merge_row_cases _ _ _ _ E Hr) as (m & -> & Hm).
  subst matched. simpl. unfold deal_text.
  destruct (deal_cols m) as [d'|].
  - destruct Hm as (d & Hd & Hk & Hsdr & Hsr).
    destruct (Hids d Hd) as [Hs1 Hs2].
    assert (Hex : existsb (key_match (lead_cols m)) deals_df = true)
      by (apply existsb_exists; eauto).
    rewrite Hex, Hsdr, Hsr.
    destruct (sdr_id d); [|congruence]. destruct (sr_id d); [|congruence].
    simpl. auto.
  - assert (Hex : existsb (key_match (lead_cols m)) deals_df = false).
    { destruct (existsb (key_match (lead_cols m)) deals_df) eqn:Ex; [|reflexivity].
      apply existsb_exists in Ex. destruct Ex as (d & Hd & Hk).
      rewrite (Hm d Hd) in Hk. discriminate. }
    rewrite Hex. simpl. auto.
Qed.

(** C2 (amended).  A row of the master table whose lead matches no deal has
    the stage flags (1, s, 0, 0, 0), where s is 1 exactly when the lead's
    first-contact date is present, and [is_converted] = 0; a row with every
    flag-source field present has the flags (1, 1, 1, 1, 1). *)
Theorem unmatched_lead_flags (mql_df : list lead) (deals_df : list deal)
    (master_df : list master) :
  merge mql_df deals_df = Some master_df ->
  forall r, In r master_df ->
    (unmatched deals_df r ->
     stage_flags r =
       (1, b2z (negb (date_isna (first_contact_date (lead_cols (source r))))), 0, 0, 0) /\
     (stage_2_first_contact r = 1 <->
      first_contact_date (lead_cols (source r)) <> DateMissing) /\
     is_converted r = 0) /\
    (fully_completed r -> stage_flags r = (1, 1, 1, 1, 1)).
Proof.
  intros E r Hr.
  destruct (merge_row_cases _ _ _ _ E Hr) as (m & -> & Hm).
  unfold unmatched, fully_completed, stage_flags. simpl. split.
  - intros Hun. unfold deal_text, deal_date.
    destruct (deal_cols m) as [d'|].
    + destruct Hm as (d & Hd & Hk & _). rewrite (Hun d Hd) in Hk. discriminate.
    + simpl. repeat split.
      * destruct (first_contact_date (lead_cols m)); simpl; congruence.
      * destruct (first_contact_date (lead_cols m)); simpl; congruence.
  - intros (H1 & H2 & H3 & H4).
    destruct (first_contact_date (lead_cols m)); [| |congruence];
      (destruct (deal_text sdr_id m); [|congruence]);
      (destruct (deal_text sr_id m); [|congruence]);
      (destruct (deal_date won_date m); [| |congruence]); reflexivity.
Qed.

End Rows.

(** ** Stage counts *)

Lemma col_sum_le (f g : master -> Z) (df : list master) :
  (forall r, In r df -> f r <= g r) -> col_sum f df <= col_sum g df.
Proof.
  induction df as [|r df IH]; simpl; intros Hfg; [lia|].
  assert (f r <= g r) by (apply Hfg; now left).
  assert (col_sum f df <= col_sum g df) by (apply IH; intros; apply Hfg; now right).
  unfold col_sum in *. lia.
Qed.

(** The validation of STEP 8 reports nothing exactly on a monotonic funnel. *)
Lemma logic_errors_nil_iff (master_df : list master) :
  logic_errors master_df = [] <-> monotonic_funnel master_df.
Proof.
  unfold logic_errors, monotonic_funnel.
  destruct (Z.gtb_spec (col_sum stage_2_first_contact master_df)
                       (col_sum stage_1_lead_generated master_df));
  destruct (Z.gtb_spec (col_sum stage_3_sales_qualified master_df)
                       (col_sum stage_2_first_contact master_df));
  destruct (Z.gtb_spec (col_sum stage_4_consultation master_df)
                       (col_sum stage_3_sales_qualified master_df));
  destruct (Z.gtb_spec (col_sum stage_5_deal_closed master_df)
                       (col_sum stage_4_consultation master_df));
  simpl; split; intros Hm; try discriminate Hm; try reflexivity; lia.
Qed.

Section Counts.
Context `{DateParser}.

(** The Cleaner's tables load as they are. *)
Lemma merge_cleaned (raw_leads : list lead) (raw_deals : list deal) :
  merge (fst (clean raw_leads raw_deals)) (snd (clean raw_leads raw_deals)) =
  Some (build_master (fst (clean raw_leads raw_deals)) (snd (clean raw_leads raw_deals))).
Proof.
  unfold merge, clean. cbn [fst snd].
  rewrite load_deals_parsed, load_mql_parsed; [reflexivity | |].
  - eapply Forall_impl; [|apply clean_mql_settled]. intros l Hl. apply Hl.
  - eapply Forall_impl; [|apply clean_deals_settled]. intros d Hd. apply Hd.
Qed.

(** Cleaned deals carry both sales-rep ids. *)
Lemma cleaned_deals_ids (raw_deals : list deal) (d : deal) :
  In d (cleaned (clean_deals raw_deals)) -> sdr_id d <> None /\ sr_id d <> None.
Proof.
  intros Hd. destruct (clean_deals_settled raw_deals) as [Hrows _].
  rewrite Forall_forall in Hrows. specialize (Hrows d Hd).
  split; apply Hrows.
Qed.

(** C1 (amended).  On the Cleaner's tables the Merger returns a master
    table whose stage counts satisfy stage5 <= stage4 <= stage3 <= stage1
    and stage2 <= stage1.  The step stage3 <= stage2 is not guaranteed;
    the validation's list of logic errors is empty exactly when the whole
    chain stage5 <= stage4 <= stage3 <= stage2 <= stage1 holds. *)
Theorem cleaned_funnel_counts (raw_leads : list lead) (raw_deals : list deal) :
  exists master_df,
    merge (fst (clean raw_leads raw_deals)) (snd (clean raw_leads raw_deals))
      = Some master_df /\
    col_sum stage_5_deal_closed master_df <= col_sum stage_4_consultation master_df /\
    col_sum stage_4_consultation master_df <= col_sum stage_3_sales_qualified master_df /\
    col_sum stage_3_sales_qualified master_df <= col_sum stage_1_lead_generated master_df /\
    col_sum stage_2_first_contact master_df <= col_sum stage_1_lead_generated master_df /\
    (logic_errors master_df = [] <-> monotonic_funnel master_df).
Proof.
  eexists. split; [apply merge_cleaned|].
  set (master_df := build_master _ _).
  assert (Hrow : forall r, In r master_df ->
            stage_5_deal_closed r <= stage_4_consultation r /\
            stage_4_consultation r <= stage_3_sales_qualified r /\
            stage_3_sales_qualified r <= stage_1_lead_generated r /\
            stage_2_first_contact r <= stage_1_lead_generated r).
  { intros r Hr. apply build_master_In in Hr. destruct Hr as (m & -> & Hm).
    apply merge_left_In in Hm. destruct Hm as [_ Hm].
    simpl. unfold deal_text, deal_date.
    destruct (deal_cols m) as [d|].
    - destruct Hm as [Hd _]. apply cleaned_deals_ids in Hd. destruct Hd as [H1 H2].
      destruct (sdr_id d); [|congruence]. destruct (sr_id d); [|congruence].
      destruct (won_date d), (first_contact_date (lead_cols m)); simpl; lia.
    - destruct (first_contact_date (lead_cols m)); simpl; lia. }
  refine (conj _ (conj _ (conj _ (conj _ (logic_errors_nil_iff master_df)))));
    apply col_sum_le; intros r Hr; apply (Hrow r Hr).
Qed.

End Counts.

(** ** Concrete runs *)

(** C1, as stated, fails on one lead without a first-contact date whose
    [mql_id] a deal matches: the counts are 1, 0, 1, 1, 1. *)
Lemma funnel_not_monotonic_counterexample :
  ~ cleaned_funnel_is_monotonic (H := IsoDates.iso_parser)
      [ mk_lead (Some "L1") DateMissing (Some "page1") (Some "organic_search") ]%string
      [ mk_deal (Some "L1") (Some "s1") (Some "sdr1") (Some "sr1")
          (DateText "2018-03-01") (Some "pet") (Some "online_big") (Some "cat")
          (Some 1%Q) (Some 0%Q) (Some 10%Q) (Some "reseller")
          (Some 5%Q) (Some 1000%Q) ]%string.
Proof.
  intros Hc. specialize (Hc _ (merge_cleaned _ _)).
  destruct Hc as (_ & _ & H32 & _).
  vm_compute in H32. apply H32. reflexivity.
Qed.

(** C2, as stated, fails on a lead with a first-contact date and no deal:
    its flags are (1, 1, 0, 0, 0). *)
Lemma unmatched_lead_counterexample :
  ~ unmatched_rows_stop_at_stage_1 (H := IsoDates.iso_parser)
      [ mk_lead (Some "L1") (DateText "2018-01-05") (Some "page1")
          (Some "organic_search") ]%string
      [].
Proof.
  intros Hc.
  assert (Hflags :
    stage_flags
      (add_funnel_columns
         (mk_merged
            (mk_lead (Some "L1") (DateStamp 1515110400000000000) (Some "page1")
               (Some "organic_search"))%string None)) = (1, 0, 0, 0, 0)).
  { eapply Hc.
    - vm_compute. reflexivity.
    - left. reflexivity.
    - intros d []. }
  vm_compute in Hflags. discriminate Hflags.
Qed.

(** The amended C2 at that lead, and at a lead with a matching deal. *)
Lemma unmatched_lead_flags_witness :
  let mql_df :=
    [ mk_lead (Some "L1") (DateText "2018-01-05") (Some "page1") (Some "organic_search");
      mk_lead (Some "L2") (DateText "2018-02-01") (Some "page2") (Some "paid_search")
    ]%string in
  let deals_df :=
    [ mk_deal (Some "L2") (Some "s1") (Some "sdr1") (Some "sr1")
        (DateText "2018-03-01") (Some "pet") (Some "online_big") (Some "cat")
        (Some 1%Q) (Some 0%Q) (Some 10%Q) (Some "reseller")
        (Some 5%Q) (Some 1000%Q) ]%string in
  exists r1 r2,
    merge (H := IsoDates.iso_parser) mql_df deals_df = Some [r1; r2] /\
    (stage_flags r1 = (1, 1, 0, 0, 0) /\ is_converted r1 = 0) /\
    stage_flags r2 = (1, 1, 1, 1, 1).
Proof.
  intros mql_df deals_df.
  destruct (merge (H := IsoDates.iso_parser) mql_df deals_df) as [[|r1 [|r2 [|r3 t]]]|] eqn:E;
    try (vm_compute in E; discriminate E).
  exists r1, r2. split; [reflexivity|].
  pose proof (unmatched_lead_flags (H := IsoDates.iso_parser) mql_df deals_df _ E) as Hthm.
  assert (E' := E). vm_compute in E'. injection E' as <- <-.
  split.
  - destruct (Hthm _ (or_introl eq_refl)) as [Hun _].
    destruct Hun as (Hf & _ & Hc).
    + intros d [<- | []]. reflexivity.
    + split; [exact Hf | exact Hc].
  - destruct (Hthm _ (or_intror (or_introl eq_refl))) as [_ Hfull].
    apply Hfull. repeat split; discriminate.
Defined.

(** C10 at two leads, one of them matched by a deal. *)
Lemma qualified_iff_consulted_witness :
  let mql_df :=
    [ mk_lead (Some "L1") (DateText "2018-01-05") (Some "page1") (Some "organic_search");
      mk_lead (Some "L2") (DateText "2018-02-01") (Some "page2") (Some "paid_search")
    ]%string in
  let deals_df :=
    [ mk_deal (Some "L2") (Some "s1") (Some "sdr1") (Some "unknown")
        (DateText "2018-03-01") (Some "pet") (Some "online_big") (Some "cat")
        (Some 1%Q) (Some 0%Q) (Some 10%Q) (Some "reseller")
        (Some 5%Q) (Some 1000%Q) ]%string in
  exists r1 r2,
    merge (H := IsoDates.iso_parser) mql_df deals_df = Some [r1; r2] /\
    (forall d, In d deals_df -> sdr_id d <> None /\ sr_id d <> None) /\
    (stage_3_sales_qualified r1 = 0 /\ stage_4_consultation r1 = 0 /\
     dropout_after_qualification r1 = 0) /\
    (stage_3_sales_qualified r2 = 1 /\ stage_4_consultation r2 = 1 /\
     dropout_after_qualification r2 = 0).
Proof.
  intros mql_df deals_df.
  destruct (merge (H := IsoDates.iso_parser) mql_df deals_df) as [[|r1 [|r2 [|r3 t]]]|] eqn:E;
    try (vm_compute in E; discriminate E).
  exists r1, r2. split; [reflexivity|].
  assert (Hids : forall d, In d deals_df -> sdr_id d <> None /\ sr_id d <> None).
  { intros d [<- | []]. split; discriminate. }
  split; [exact Hids|].
  pose proof (qualified_iff_consulted (H := IsoDates.iso_parser) mql_df deals_df _ E Hids)
    as Hthm.
  assert (E' := E). vm_compute in E'. injection E' as <- <-.
  split.
  - destruct (Hthm _ (or_introl eq_refl)) as (H3 & H4 & _ & Hd). auto.
  - destruct (Hthm _ (or_intror (or_introl eq_refl))) as (H3 & H4 & _ & Hd). auto.
Defined.

End MergerFacts.

(* ===================================================================== *)
(** * The delivery delay features *)
(* ===================================================================== *)

Module FeatureFacts.
Import Py FeatureEngine.

Lemma days_between_floor (x y : Z) :
  ns_per_day * ((x - y) / ns_per_day) <= x - y < ns_per_day * ((x - y) / ns_per_day + 1).
Proof.
  assert (Hpos : 0 < ns_per_day) by reflexivity.
  pose proof (Z.mul_div_le (x - y) ns_per_day Hpos).
  pose proof (Z.mul_succ_div_gt (x - y) ns_per_day Hpos).
  lia.
Qed.

Lemma categorize_delay_buckets (days : Z) :
  (days <= 0 -> categorize_delay days = "On Time/Early"%string) /\
  (1 <= days <= 7 -> categorize_delay days = "Minor Delay (1-7 days)"%string) /\
  (8 <= days <= 30 -> categorize_delay days = "Major Delay (8-30 days)"%string) /\
  (30 < days -> categorize_delay days = "Severe Delay (30+ days)"%string).
Proof.
  unfold categorize_delay.
  destruct (Z.leb_spec days 0), (Z.leb_spec days 7), (Z.leb_spec days 30);
    repeat split; intros; try reflexivity; lia.
Qed.

Section Delay.
Context `{DateParser}.

(** C9.  For every order row, [delivery_delay_days] is the whole number of
    days from the estimated to the actual delivery date (rounded down), or 0
    when either date is missing; [is_delayed] is 1 exactly when that number
    is positive, and 0 otherwise; [delay_category] follows the thresholds
    <= 0, 1..7, 8..30, > 30.  A delay of 10 days is a
    "Major Delay (8-30 days)", a delay of -2 days is "On Time/Early". *)
Theorem delivery_delay_features (df : list order) :
  List.length (create_delivery_delay_feature df) = List.length df /\
  (forall i r, nth_error df i = Some r ->
     exists o, nth_error (create_delivery_delay_feature df) i = Some o /\
       match to_datetime_coerce (order_delivered_customer_date r),
             to_datetime_coerce (order_estimated_delivery_date r) with
       | DateStamp delivered, DateStamp estimated =>
           ns_per_day * delivery_delay_days o <= delivered - estimated
             < ns_per_day * (delivery_delay_days o + 1)
       | _, _ => delivery_delay_days o = 0
       end /\
       (is_delayed o = 1 <-> delivery_delay_days o > 0) /\
       (is_delayed o = 0 <-> delivery_delay_days o <= 0) /\
       (delivery_delay_days o <= 0 -> delay_category o = "On Time/Early"%string) /\
       (1 <= delivery_delay_days o <= 7 ->
        delay_category o = "Minor Delay (1-7 days)"%string) /\
       (8 <= delivery_delay_days o <= 30 ->
        delay_category o = "Major Delay (8-30 days)"%string) /\
       (30 < delivery_delay_days o ->
        delay_category o = "Severe Delay (30+ days)"%string)) /\
  categorize_delay 10 = "Major Delay (8-30 days)"%string /\
  categorize_delay (-2) = "On Time/Early"%string.
Proof.
  unfold create_delivery_delay_feature.
  split; [apply length_map|]. split; [|split; reflexivity].
  intros i r Hr. exists (delay_row r). split.
  { rewrite nth_error_map, Hr. reflexivity. }
  unfold delay_row. cbn [delivery_delay_days is_delayed delay_category
    order_delivered_customer_date order_estimated_delivery_date].
  set (delay := match days_between _ _ with Some d => d | None => 0 end).
  split.
  { subst delay.
    destruct (to_datetime_coerce (order_delivered_customer_date r)) as [s|x|];
      try reflexivity;
      destruct (to_datetime_coerce (order_estimated_delivery_date r)) as [s'|y|];
      try reflexivity.
    cbn [days_between]. apply days_between_floor. }
  split; [|split].
  - unfold b2z. destruct (Z.gtb_spec delay 0); split; intros; try lia; discriminate.
  - unfold b2z. destruct (Z.gtb_spec delay 0); split; intros; try lia; discriminate.
  - apply categorize_delay_buckets.
Qed.

End Delay.

(** C9 on an order delivered ten days after the estimated date. *)
Lemma delivery_delay_features_witness :
  let df :=
    [ mk_order (DateText "2018-01-02") (DateText "2018-01-20") (DateText "2018-01-10");
      mk_order (DateText "2018-01-02") (DateText "2018-01-08") (DateText "2018-01-10")
    ]%string in
  exists o,
    nth_error (create_delivery_delay_feature (H := IsoDates.iso_parser) df) 0 = Some o /\
    delivery_delay_days o = 10 /\
    is_delayed o = 1 /\
    delay_category o = "Major Delay (8-30 days)"%string.
Proof.
  intros df.
  destruct (delivery_delay_features (H := IsoDates.iso_parser) df) as (_ & Hrows & _).
  destruct (Hrows 0%nat _ eq_refl) as (o & Ho & _ & Hdel & _ & _ & _ & Hmajor & _).
  exists o. split; [exact Ho|].
  assert (Hd : delivery_delay_days o = 10).
  { vm_compute in Ho. injection Ho as <-. reflexivity. }
  rewrite Hd in *.
  split; [reflexivity|]. split; [apply Hdel; lia | apply Hmajor; lia].
Defined.

(** The three kinds of rows: late, early, not delivered. *)
Example delivery_delay_rows :
  map (fun o => (delivery_delay_days o, is_delayed o, delay_category o))
    (create_delivery_delay_feature (H := IsoDates.iso_parser)
       [ mk_order (DateText "2018-01-02") (DateText "2018-01-20") (DateText "2018-01-10");
         mk_order (DateText "2018-01-02") (DateText "2018-01-08") (DateText "2018-01-10");
         mk_order (DateText "2018-01-02") DateMissing (DateText "2018-01-10") ]%string)
  = [ (10, 1, "Major Delay (8-30 days)"%string);
      (-2, 0, "On Time/Early"%string);
      (0, 0, "On Time/Early"%string) ].
Proof. vm_compute. reflexivity. Qed.

End FeatureFacts.

(* ===================================================================== *)
(** * The funnel metrics *)
(* ===================================================================== *)

Module FunnelFacts.
Import Py FunnelMetrics PyFacts FloatFacts.

(** ** Counting *)

Lemma len_nonneg {A : Type} (l : list A) : 0 <= len l.
Proof. unfold len. lia. Qed.

Lemma filter_filter_length {A : Type} (p q : A -> bool) (l : list A) :
  List.length (filter p (filter q l)) =
  List.length (filter (fun a => q a && p a) l).
Proof.
  induction l as [|a l IH]; simpl; [reflexivity|].
  destruct (q a); simpl; [destruct (p a); simpl; now rewrite IH | exact IH].
Qed.

Lemma filter_length_perm {A : Type} (p : A -> bool) (l l' : list A) :
  Permutation l l' -> List.length (filter p l) = List.length (filter p l').
Proof.
  induction 1 as [|a l l' _ IH|a b l|l l' l'' _ IH1 _ IH2]; simpl.
  - reflexivity.
  - destruct (p a); simpl; now rewrite IH.
  - destruct (p a), (p b); reflexivity.
  - now rewrite IH1.
Qed.

Lemma filter_map_length {A B : Type} (f : A -> B) (p : B -> bool) (l : list A) :
  List.length (filter (fun a => p (f a)) l) = List.length (filter p (map f l)).
Proof.
  induction l as [|a l IH]; simpl; [reflexivity|].
  destruct (p (f a)); simpl; now rewrite IH.
Qed.

Lemma filter_all {A : Type} (p : A -> bool) (l : list A) :
  (forall a, In a l -> p a = true) -> filter p l = l.
Proof.
  induction l as [|a l IH]; simpl; intros Hp; [reflexivity|].
  rewrite Hp by now left. f_equal. apply IH. intros b Hb. apply Hp. now right.
Qed.

(** ** The guarded percentage *)

Lemma guarded_percent_pos (num den : Z) :
  0 < den ->
  guarded_percent num den =
  Some (float_mul (binary64 (inject_Z num / inject_Z den)) 100).
Proof.
  intros Hden. unfold guarded_percent, int_truediv, truediv.
  destruct (Z.gtb_spec den 0); [|lia].
  rewrite inject_Z_nonzero by lia. reflexivity.
Qed.

Lemma guarded_percent_zero (num : Z) : guarded_percent num 0 = Some 0%Q.
Proof. reflexivity. Qed.

(** The guard never lets the division raise on a row count. *)
Lemma guarded_percent_total (num den : Z) :
  0 <= den -> exists q, guarded_percent num den = Some q /\ (den = 0 -> q = 0%Q).
Proof.
  intros Hden. destruct (Z.eq_dec den 0) as [-> | Hnz].
  - exists 0%Q. split; reflexivity.
  - eexists. split; [apply guarded_percent_pos; lia | intros; contradiction].
Qed.

(** The percentage of a group as the code computes it is the group's
    retention rate. *)
Lemma group_percent (s : signal) (v : Z) (cs : list customer) :
  guarded_percent
    (len (filter (fun c => total_orders c >=? 2)
            (filter (fun c => signal_col s c =? v) cs)))
    (len (filter (fun c => signal_col s c =? v) cs))
  = Some (float_retention_rate s v cs).
Proof.
  unfold float_retention_rate, group_size, group_retained, len.
  rewrite filter_filter_length.
  destruct (List.length (filter (fun c => signal_col s c =? v) cs)) as [|n] eqn:En.
  - reflexivity.
  - rewrite guarded_percent_pos by lia. reflexivity.
Qed.

(** ** Retention impact *)

Lemma retention_impact_value (cs : list customer) (s : signal) :
  calculate_retention_impact cs s =
  Some {| retention_without_negative_percent := round2 (float_retention_rate s 0 cs);
          retention_with_negative_percent := round2 (float_retention_rate s 1 cs);
          retention_impact_percent :=
            round2 (float_sub (float_retention_rate s 0 cs)
                              (float_retention_rate s 1 cs)) |}.
Proof.
  unfold calculate_retention_impact.
  rewrite (group_percent s 0 cs). cbn [bind].
  rewrite (group_percent s 1 cs). reflexivity.
Qed.

(** A share of the rows as a percentage: the double computed lies between
    0 and 100 and within [2 / 10 ^ 14] of the exact percentage. *)
Lemma float_percent_accuracy (num den : Z) :
  0 <= num <= den -> 0 < den ->
  let exact := (inject_Z num / inject_Z den * 100)%Q in
  let p := float_mul (binary64 (inject_Z num / inject_Z den)) 100 in
  (0 <= p)%Q /\ (p <= 100)%Q /\
  (exact - (1 # 50000000000000) <= p)%Q /\ (p <= exact + (1 # 50000000000000))%Q.
Proof.
  intros Hn Hd exact p.
  assert (Hx : (0 <= inject_Z num / inject_Z den)%Q /\
               (inject_Z num / inject_Z den <= 1)%Q).
  { assert (Hdq : (0 < inject_Z den)%Q) by (rewrite <- (Zlt_Qlt 0); exact Hd).
    split.
    - apply Qle_shift_div_l; [exact Hdq|]. rewrite Qmult_0_l, <- (Zle_Qle 0). lia.
    - apply Qle_shift_div_r; [exact Hdq|]. rewrite Qmult_1_l, <- Zle_Qle. lia. }
  subst exact p. unfold float_mul.
  set (x := (inject_Z num / inject_Z den)%Q) in *. clearbody x.
  destruct Hx as [Hx0 Hx1].
  destruct (binary64_bounds x 1) as [_ Hq1]; [reflexivity | | |];
    try (change (inject_Z 1) with 1%Q; lra).
  pose proof (binary64_nonneg x Hx0) as Hq0.
  destruct (binary64_error x (-52)) as [Hel Heh]; [| |lia|].
  { change (2 ^ (-52 + 53))%Q with 2%Q. lra. }
  { change (2 ^ (-52 + 53))%Q with 2%Q. lra. }
  change (2 ^ (-52) / 2)%Q with (1 # 9007199254740992)%Q in Hel, Heh.
  change (inject_Z 1) with 1%Q in Hq1.
  set (q := binary64 x) in *. clearbody q.
  destruct (binary64_bounds (q * 100) 100) as [_ Hp1]; [reflexivity | | |];
    try (change (inject_Z 100) with 100%Q; lra).
  assert (Hp0 : (0 <= binary64 (q * 100))%Q) by (apply binary64_nonneg; lra).
  destruct (binary64_error (q * 100) (-46)) as [Hpl Hph]; [| |lia|].
  { change (2 ^ (-46 + 53))%Q with 128%Q. lra. }
  { change (2 ^ (-46 + 53))%Q with 128%Q. lra. }
  change (2 ^ (-46) / 2)%Q with (1 # 140737488355328)%Q in Hpl, Hph.
  change (inject_Z 100) with 100%Q in Hp1.
  set (p := binary64 (q * 100)) in *. clearbody p.
  refine (conj Hp0 (conj Hp1 (conj _ _))); lra.
Qed.

(** The float rate of a group is a percentage, close to the exact rate. *)
Lemma float_retention_rate_accuracy (s : signal) (v : Z) (cs : list customer) :
  (0 <= float_retention_rate s v cs)%Q /\
  (float_retention_rate s v cs <= 100)%Q /\
  (retention_rate s v cs - (1 # 50000000000000) <= float_retention_rate s v cs)%Q /\
  (float_retention_rate s v cs <= retention_rate s v cs + (1 # 50000000000000))%Q.
Proof.
  unfold float_retention_rate, retention_rate.
  destruct (Nat.eqb_spec (group_size s v cs) 0) as [E | E].
  - repeat split; lra.
  - apply float_percent_accuracy; [|lia].
    split; [lia|]. apply inj_le. unfold group_retained, group_size. clear E.
    induction cs as [|c cs IH]; [apply Nat.le_refl|].
    cbn [filter]. destruct (signal_col s c =? v); cbn [andb].
    + destruct (total_orders c >=? 2); cbn [List.length]; lia.
    + exact IH.
Qed.

(** C3 (amended).  For every customer summary and each negative-signal
    column, [calculate_retention_impact] returns three numbers rounded to
    two decimals: the retention rate of the customers without the signal
    and that of the customers with it, each computed in float arithmetic
    as [(retained / size) * 100] (0 for an empty group), and the float
    difference of the two unrounded rates.  The impact returned is
    therefore not the difference of the rates itself, but lies within
    [0.005 + 5 / 10 ^ 14] of the difference of the exact rates.  For two
    customers A (signal 0, two orders) and B (signal 1, one order) the
    impact is 100. *)
Theorem retention_impact_rounded (cs : list customer) (s : signal) :
  (exists r,
     calculate_retention_impact cs s = Some r /\
     retention_without_negative_percent r = round2 (float_retention_rate s 0 cs) /\
     retention_with_negative_percent r = round2 (float_retention_rate s 1 cs) /\
     retention_impact_percent r =
       round2 (float_sub (float_retention_rate s 0 cs)
                         (float_retention_rate s 1 cs)) /\
     (Qabs (retention_impact_percent r -
            (retention_rate s 0 cs - retention_rate s 1 cs))
      <= (1 # 200) + (1 # 20000000000000))%Q) /\
  (forall a b,
     signal_col s a = 0 -> total_orders a = 2 ->
     signal_col s b = 1 -> total_orders b = 1 ->
     exists r,
       calculate_retention_impact [a; b] s = Some r /\
       retention_impact_percent r = 100%Q).
Proof.
  split.
  - eexists. split; [apply retention_impact_value|].
    cbn [retention_without_negative_percent retention_with_negative_percent
         retention_impact_percent].
    refine (conj eq_refl (conj eq_refl (conj eq_refl _))).
    destruct (float_retention_rate_accuracy s 0 cs) as (H0l & H0u & E0l & E0u).
    destruct (float_retention_rate_accuracy s 1 cs) as (H1l & H1u & E1l & E1u).
    set (p0 := float_retention_rate s 0 cs) in *.
    set (p1 := float_retention_rate s 1 cs) in *.
    set (e0 := retention_rate s 0 cs) in *. set (e1 := retention_rate s 1 cs) in *.
    clearbody p0 p1 e0 e1. unfold float_sub.
    destruct (binary64_error (p0 - p1) (-46)) as [Hdl Hdu]; [| |lia|].
    { change (2 ^ (-46 + 53))%Q with 128%Q. lra. }
    { change (2 ^ (-46 + 53))%Q with 128%Q. lra. }
    change (2 ^ (-46) / 2)%Q with (1 # 140737488355328)%Q in Hdl, Hdu.
    set (d := binary64 (p0 - p1)) in *. clearbody d.
    destruct (round2_error d) as [Hrl Hru].
    set (i := round2 d) in *. clearbody i.
    apply Qabs_Qle_condition. split; lra.
  - intros a b Ha Hoa Hb Hob. eexists. split; [apply retention_impact_value|].
    cbn [retention_impact_percent].
    unfold float_retention_rate, group_size, group_retained.
    cbn [filter]. rewrite Ha, Hoa, Hb, Hob. vm_compute. reflexivity.
Qed.

(** The core metrics are always returned, with the counts as computed. *)
Lemma zero_denominators_total (cs : list customer) :
  exists m,
    calculate_core_funnel_metrics cs = Some m /\
    acquisition_customers m = len cs /\
    activation_customers m = len (filter (fun c => total_orders c >=? 1) cs).
Proof.
  unfold calculate_core_funnel_metrics.
  set (acquisition := len cs).
  set (activation := len (filter (fun c => total_orders c >=? 1) cs)).
  set (retention := len (filter (fun c => total_orders c >=? 2) cs)).
  assert (Hacq : 0 <= acquisition) by apply len_nonneg.
  assert (Hact : 0 <= activation) by apply len_nonneg.
  destruct (guarded_percent_total activation acquisition Hacq) as (q1 & E1 & _).
  destruct (guarded_percent_total retention activation Hact) as (q2 & E2 & _).
  destruct (guarded_percent_total (acquisition - activation) acquisition Hacq)
    as (q3 & E3 & _).
  destruct (guarded_percent_total (activation - retention) activation Hact)
    as (q4 & E4 & _).
  rewrite E1, E2, E3, E4. simpl.
  eexists. split; [reflexivity|]. simpl. auto.
Qed.

(** C6.  The funnel-metric computations never raise on a zero denominator:
    [calculate_core_funnel_metrics] always returns, with an activation rate
    of 0 when there is no customer and a retention rate of 0 when no
    customer is activated; [calculate_retention_impact] always returns, and
    the rate of an empty group is 0. *)
Theorem zero_denominators_yield_zero (cs : list customer) :
  (exists m,
     calculate_core_funnel_metrics cs = Some m /\
     (acquisition_customers m = 0 -> activation_rate_percent m = 0%Q) /\
     (activation_customers m = 0 -> retention_rate_percent m = 0%Q)) /\
  (forall s, exists r,
     calculate_retention_impact cs s = Some r /\
     (group_size s 0 cs = 0%nat -> retention_without_negative_percent r = 0%Q) /\
     (group_size s 1 cs = 0%nat -> retention_with_negative_percent r = 0%Q)).
Proof.
  split.
  - unfold calculate_core_funnel_metrics.
    set (acquisition := len cs).
    set (activation := len (filter (fun c => total_orders c >=? 1) cs)).
    set (retention := len (filter (fun c => total_orders c >=? 2) cs)).
    assert (Hacq : 0 <= acquisition) by apply len_nonneg.
    assert (Hact : 0 <= activation) by apply len_nonneg.
    destruct (guarded_percent_total activation acquisition Hacq) as (q1 & E1 & Z1).
    destruct (guarded_percent_total retention activation Hact) as (q2 & E2 & Z2).
    destruct (guarded_percent_total (acquisition - activation) acquisition Hacq)
      as (q3 & E3 & _).
    destruct (guarded_percent_total (activation - retention) activation Hact)
      as (q4 & E4 & _).
    rewrite E1, E2, E3, E4. simpl.
    eexists. split; [reflexivity|]. simpl. split; intros Hz.
    + now rewrite (Z1 Hz).
    + now rewrite (Z2 Hz).
  - intros s. eexists. split; [apply retention_impact_value|]. simpl.
    unfold float_retention_rate. split; intros ->; reflexivity.
Qed.

(** ** Core funnel metrics *)

(** C4.  For three customers with order counts 1, 1 and 3 (in any order),
    [calculate_core_funnel_metrics] returns acquisition 3, activation 3,
    retention 1 and a retention rate of 33.33. *)
Theorem core_metrics_three_customers (cs : list customer) :
  Permutation (map total_orders cs) [1; 1; 3] ->
  exists m,
    calculate_core_funnel_metrics cs = Some m /\
    acquisition_customers m = 3 /\
    activation_customers m = 3 /\
    retention_customers m = 1 /\
    retention_rate_percent m = (3333 # 100)%Q.
Proof.
  intros Hperm.
  assert (Hacq : len cs = 3).
  { unfold len. rewrite <- (length_map total_orders), (Permutation_length Hperm).
    reflexivity. }
  assert (Hact : len (filter (fun c => total_orders c >=? 1) cs) = 3).
  { unfold len.
    rewrite (filter_map_length total_orders (fun n => n >=? 1)),
            (filter_length_perm _ _ _ Hperm).
    reflexivity. }
  assert (Hret : len (filter (fun c => total_orders c >=? 2) cs) = 1).
  { unfold len.
    rewrite (filter_map_length total_orders (fun n => n >=? 2)),
            (filter_length_perm _ _ _ Hperm).
    reflexivity. }
  unfold calculate_core_funnel_metrics. rewrite Hacq, Hact, Hret.
  eexists. split; [reflexivity|]. repeat split.
Qed.

(** ** The biggest retention killer *)

Lemma py_max3_upper (d c r : Q) :
  (d <= py_max3 d c r /\ c <= py_max3 d c r /\ r <= py_max3 d c r)%Q.
Proof.
  unfold py_max3.
  destruct (Qle_bool c d) eqn:Ecd.
  - apply Qle_bool_iff in Ecd.
    destruct (Qle_bool r d) eqn:Erd.
    + apply Qle_bool_iff in Erd. repeat split; auto using Qle_refl.
    + assert (d < r)%Q.
      { apply Qnot_le_lt. intros Hle. apply Qle_bool_iff in Hle. congruence. }
      repeat split; auto using Qle_refl, Qlt_le_weak.
      eapply Qle_trans; [exact Ecd | now apply Qlt_le_weak].
  - assert (Hdc : (d < c)%Q).
    { apply Qnot_le_lt. intros Hle. apply Qle_bool_iff in Hle. congruence. }
    destruct (Qle_bool r c) eqn:Erc.
    + apply Qle_bool_iff in Erc. repeat split; auto using Qle_refl, Qlt_le_weak.
    + assert (c < r)%Q.
      { apply Qnot_le_lt. intros Hle. apply Qle_bool_iff in Hle. congruence. }
      repeat split; auto using Qle_refl, Qlt_le_weak.
      apply Qlt_le_weak. eapply Qlt_trans; eassumption.
Qed.

Lemma py_max3_attained (d c r : Q) :
  py_max3 d c r = d \/ py_max3 d c r = c \/ py_max3 d c r = r.
Proof.
  unfold py_max3. destruct (Qle_bool c d).
  - destruct (Qle_bool r d); auto.
  - destruct (Qle_bool r c); auto.
Qed.

(** An impact equals the maximum exactly when it is at least the other two. *)
Lemma eq_max3_iff (x d c r : Q) :
  (d <= x /\ c <= x /\ r <= x)%Q -> (x == d \/ x == c \/ x == r)%Q ->
  Qeq_bool x (py_max3 d c r) = true.
Proof.
  intros (Hd & Hc & Hr) Hx. apply Qeq_bool_iff.
  destruct (py_max3_upper d c r) as (Ud & Uc & Ur).
  apply Qle_antisym.
  - destruct Hx as [E | [E | E]]; rewrite E; assumption.
  - destruct (py_max3_attained d c r) as [E | [E | E]]; rewrite E; assumption.
Qed.

Lemma eq_max3_upper (x d c r : Q) :
  Qeq_bool x (py_max3 d c r) = true -> (d <= x /\ c <= x /\ r <= x)%Q.
Proof.
  intros E. apply Qeq_bool_iff in E.
  destruct (py_max3_upper d c r) as (Ud & Uc & Ur).
  rewrite E. auto.
Qed.

(** C8.  The report's "biggest retention killer" is the arg max of the three
    impact scores, ties going to the earlier of delay, cancellation, review:
    "Delivery delays" whenever the delay impact attains the maximum;
    otherwise "Cancellations" whenever the cancellation impact attains it;
    otherwise "Negative reviews", and the review impact is then the
    maximum. *)
Theorem biggest_retention_killer_argmax (m : dropoff_metrics) :
  let d := retention_impact_percent (delay_retention_impact m) in
  let c := retention_impact_percent (cancellation_retention_impact m) in
  let r := retention_impact_percent (review_retention_impact m) in
  ((c <= d /\ r <= d)%Q ->
   biggest_retention_killer m = "Delivery delays"%string) /\
  (~ (c <= d /\ r <= d)%Q -> (d <= c /\ r <= c)%Q ->
   biggest_retention_killer m = "Cancellations"%string) /\
  (~ (c <= d /\ r <= d)%Q -> ~ (d <= c /\ r <= c)%Q ->
   biggest_retention_killer m = "Negative reviews"%string /\
   (d <= r /\ c <= r)%Q).
Proof.
  intros d c r. unfold biggest_retention_killer. fold d c r.
  destruct (Qeq_bool d (py_max3 d c r)) eqn:Ed.
  - apply eq_max3_upper in Ed. destruct Ed as (_ & Hc & Hr).
    split; [reflexivity|]. split; intros Hn; exfalso; apply Hn; auto.
  - assert (Hnd : ~ (c <= d /\ r <= d)%Q).
    { intros [Hc Hr].
      rewrite eq_max3_iff in Ed; [discriminate | | left; reflexivity].
      repeat split; auto using Qle_refl. }
    split; [intros Hd; contradiction|].
    destruct (Qeq_bool c (py_max3 d c r)) eqn:Ec.
    + apply eq_max3_upper in Ec. destruct Ec as (Hd & _ & Hr).
      split; [reflexivity|]. intros _ Hn. exfalso. apply Hn. auto.
    + assert (Hnc : ~ (d <= c /\ r <= c)%Q).
      { intros [Hd Hr].
        rewrite eq_max3_iff in Ec; [discriminate | | right; left; reflexivity].
        repeat split; auto using Qle_refl. }
      split; [intros _ Hc; contradiction|].
      intros _ _. split; [reflexivity|].
      destruct (py_max3_upper d c r) as (Ud & Uc & Ur).
      destruct (py_max3_attained d c r) as [E | [E | E]].
      * rewrite E in Ed. rewrite Qeq_bool_refl in Ed. discriminate.
      * rewrite E in Ec. rewrite Qeq_bool_refl in Ec. discriminate.
      * rewrite E in Ud, Uc. auto.
Qed.

(** ** Customers of an orders table *)

Lemma insert_key_In (k x : string) (ks : list string) :
  In k (insert_key x ks) -> k = x \/ In k ks.
Proof.
  induction ks as [|h t IH]; simpl.
  - intros [<- | []]. now left.
  - destruct (String.compare x h); simpl.
    + auto.
    + intros [<- | [<- | Hk]]; auto.
    + intros [<- | Hk]; [auto|]. destruct (IH Hk); auto.
Qed.

Lemma dropna_In {A : Type} (col : list (option A)) (a : A) :
  In a (dropna col) -> In (Some a) col.
Proof.
  induction col as [|[x|] col IH]; simpl; [tauto | |auto].
  intros [<- | Ha]; auto.
Qed.

Lemma group_keys_In (df : list order_row) (k : string) :
  In k (group_keys df) -> exists r, In r df /\ customer_unique_id r = Some k.
Proof.
  unfold group_keys. intros Hk.
  assert (Hin : In k (dropna (map customer_unique_id df))).
  { induction (dropna (map customer_unique_id df)) as [|x l IH]; simpl in *; [tauto|].
    destruct (insert_key_In _ _ _ Hk); auto. }
  apply dropna_In, in_map_iff in Hin. destruct Hin as (r & Hr & Hin). eauto.
Qed.

Lemma dropna_all_present {A : Type} (col : list (option A)) :
  Forall (fun c => c <> None) col -> List.length (dropna col) = List.length col.
Proof.
  induction 1 as [|c col Hc _ IH]; simpl; [reflexivity|].
  destruct c; [simpl; now rewrite IH | congruence].
Qed.

(** With an order id on every row, every customer has at least one order. *)
Lemma customers_have_orders (df : list order_row) :
  (forall r, In r df -> order_id r <> None) ->
  forall c, In c (calculate_customer_level_metrics df) -> 1 <= total_orders c.
Proof.
  intros Hids c Hc. unfold calculate_customer_level_metrics in Hc.
  apply in_map_iff in Hc. destruct Hc as (k & <- & Hk).
  apply group_keys_In in Hk. destruct Hk as (r & Hr & Hid).
  simpl. unfold agg_count, len.
  rewrite dropna_all_present, length_map.
  - assert (Hin : In r (group_rows k df)).
    { apply filter_In. split; [assumption|]. rewrite Hid. simpl. apply String.eqb_refl. }
    destruct (group_rows k df); [destruct Hin | simpl; lia].
  - rewrite Forall_map, Forall_forall. intros x Hx. apply Hids.
    unfold group_rows in Hx. apply filter_In in Hx. tauto.
Qed.

(** C5 (amended).  For every engineered-orders table in which every row has
    an order id, [calculate_core_funnel_metrics] on the customer summary of
    the table returns an activation count equal to the acquisition count. *)
Theorem activation_equals_acquisition (df : list order_row) :
  (forall r, In r df -> order_id r <> None) ->
  exists m,
    calculate_core_funnel_metrics (calculate_customer_level_metrics df) = Some m /\
    acquisition_customers m = len (calculate_customer_level_metrics df) /\
    activation_customers m = acquisition_customers m.
Proof.
  intros Hids.
  destruct (zero_denominators_total (calculate_customer_level_metrics df))
    as (m & Em & Hacq & Hact).
  exists m. split; [assumption|]. split; [assumption|].
  rewrite Hact, Hacq. f_equal. apply filter_all.
  intros c Hc. pose proof (customers_have_orders df Hids c Hc).
  apply Z.geb_le. assumption.
Qed.

(** ** Concrete runs *)

(** C3, as stated, fails on three customers without delay, one of them with
    two orders: the rates are 100/3 and 0, the impact returned is 33.33. *)
Lemma retention_impact_counterexample :
  ~ impact_is_rate_difference
      [ mk_customer "c1" 1 0 0 0 0 10 None None "One-time";
        mk_customer "c2" 1 0 0 0 0 20 None None "One-time";
        mk_customer "c3" 2 0 0 0 0 30 None None "Repeat" ]%string
      Delay.
Proof.
  intros (r & E & Hq).
  vm_compute in E. injection E as <-.
  vm_compute in Hq. discriminate Hq.
Qed.

(** Float and exact arithmetic part ways on 52 customers: of the 20
    without a delay 11 are retained, of the 32 with one 3.  The float rates
    are 55.00000000000001 and 9.375; their difference 45.62500000000001 is
    rounded to 45.63, where the exact difference 45.625 would give 45.62. *)
Example retention_impact_in_doubles :
  let cs :=
    repeat (mk_customer "a" 2 0 0 0 0 50 None None "Repeat")%string 11 ++
    repeat (mk_customer "b" 1 0 0 0 0 20 None None "One-time")%string 9 ++
    repeat (mk_customer "c" 2 1 0 0 1 50 None None "Repeat")%string 3 ++
    repeat (mk_customer "d" 1 1 0 0 1 20 None None "One-time")%string 29 in
  float_retention_rate Delay 0 cs = (7740561859543041 # 140737488355328)%Q /\
  float_retention_rate Delay 1 cs = (75 # 8)%Q /\
  (exists r,
     calculate_retention_impact cs Delay = Some r /\
     retention_impact_percent r = (4563 # 100)%Q) /\
  round2 (retention_rate Delay 0 cs - retention_rate Delay 1 cs) = (2281 # 50)%Q.
Proof.
  intros cs. split; [vm_compute; reflexivity|]. split; [vm_compute; reflexivity|].
  split; [|vm_compute; reflexivity].
  eexists. split; [apply retention_impact_value|]. vm_compute. reflexivity.
Qed.

(** C3 (amended) at the customers A (no delay, two orders) and B (delayed,
    one order). *)
Lemma retention_impact_rounded_witness :
  exists r,
    calculate_retention_impact
      [ mk_customer "A" 2 0 0 0 0 50 None None "Repeat";
        mk_customer "B" 1 1 0 0 1 20 None None "One-time" ]%string
      Delay = Some r /\
    retention_impact_percent r = 100%Q.
Proof.
  exact (proj2 (retention_impact_rounded [] Delay)
           (mk_customer "A" 2 0 0 0 0 50 None None "Repeat")
           (mk_customer "B" 1 1 0 0 1 20 None None "One-time")
           eq_refl eq_refl eq_refl eq_refl).
Defined.

(** C4 at the order counts 1, 3, 1. *)
Lemma core_metrics_three_customers_witness :
  let cs :=
    [ mk_customer "c1" 1 0 0 0 0 10 None None "One-time";
      mk_customer "c2" 3 1 0 0 1 90 None None "Repeat";
      mk_customer "c3" 1 0 0 1 1 15 None None "One-time" ]%string in
  Permutation (map total_orders cs) [1; 1; 3] /\
  exists m,
    calculate_core_funnel_metrics cs = Some m /\
    acquisition_customers m = 3 /\
    activation_customers m = 3 /\
    retention_customers m = 1 /\
    retention_rate_percent m = (3333 # 100)%Q.
Proof.
  intros cs.
  assert (Hperm : Permutation (map total_orders cs) [1; 1; 3]).
  { simpl. apply perm_skip, perm_swap. }
  split; [exact Hperm|].
  exact (core_metrics_three_customers cs Hperm).
Defined.

(** C5, as stated, fails on an orders table whose only row has no order
    id: the customer is counted with zero orders. *)
Lemma activation_counterexample :
  ~ activation_is_acquisition
      [ mk_order_row (Some "c1") None 0 0 0 0 (Some 10%Q) (Some "SP")
          (Some "2018-01-02 10:00:00") ]%string.
Proof.
  intros (m & E & Hm).
  vm_compute in E. injection E as <-.
  vm_compute in Hm. discriminate Hm.
Qed.

(** C5 (amended) at three order rows of two customers. *)
Lemma activation_equals_acquisition_witness :
  let df :=
    [ mk_order_row (Some "c2") (Some "o1") 0 0 0 0 (Some 10%Q) (Some "SP")
        (Some "2018-01-02 10:00:00");
      mk_order_row (Some "c1") (Some "o2") 1 0 0 1 (Some 25%Q) (Some "RJ")
        (Some "2018-02-03 11:00:00");
      mk_order_row (Some "c2") (Some "o3") 0 0 1 1 (Some 40%Q) (Some "SP")
        (Some "2018-03-04 12:00:00") ]%string in
  (forall r, In r df -> order_id r <> None) /\
  exists m,
    calculate_core_funnel_metrics (calculate_customer_level_metrics df) = Some m /\
    acquisition_customers m = 2 /\
    activation_customers m = 2.
Proof.
  intros df.
  assert (Hids : forall r, In r df -> order_id r <> None).
  { intros r [<- | [<- | [<- | []]]]; discriminate. }
  split; [exact Hids|].
  destruct (activation_equals_acquisition df Hids) as (m & E & Hacq & Hact).
  exists m. split; [exact E|].
  rewrite Hact, Hacq. split; reflexivity.
Defined.

(** C6 at the empty customer summary. *)
Lemma zero_denominators_yield_zero_witness :
  exists m,
    calculate_core_funnel_metrics [] = Some m /\
    activation_rate_percent m = 0%Q /\
    retention_rate_percent m = 0%Q /\
    exists r,
      calculate_retention_impact [] Delay = Some r /\
      retention_without_negative_percent r = 0%Q /\
      retention_with_negative_percent r = 0%Q.
Proof.
  destruct (zero_denominators_yield_zero []) as [(m & E & Hacq & Hact) Himpact].
  destruct (Himpact Delay) as (r & Er & H0 & H1).
  exists m. split; [exact E|].
  assert (Hm : acquisition_customers m = 0 /\ activation_customers m = 0).
  { vm_compute in E. injection E as <-. split; reflexivity. }
  split; [apply Hacq, Hm|]. split; [apply Hact, Hm|].
  exists r. split; [exact Er|].
  split; [apply H0 | apply H1]; reflexivity.
Defined.

(** C8 at a tie between delay and cancellation: the pick is the delay. *)
Lemma biggest_retention_killer_argmax_witness :
  biggest_retention_killer
    (mk_dropoff_metrics 4 2 3 6 40 20 30 60
       (mk_retention_impact 50 45 5)
       (mk_retention_impact 48 43 5)
       (mk_retention_impact 47 44 3)) = "Delivery delays"%string.
Proof.
  apply (proj1 (biggest_retention_killer_argmax
                  (mk_dropoff_metrics 4 2 3 6 40 20 30 60
                     (mk_retention_impact 50 45 5)
                     (mk_retention_impact 48 43 5)
                     (mk_retention_impact 47 44 3)))).
  split; unfold Qle; simpl; lia.
Defined.

(** The other two picks. *)
Example biggest_retention_killer_others :
  biggest_retention_killer
    (mk_dropoff_metrics 4 2 3 6 40 20 30 60
       (mk_retention_impact 50 45 5)
       (mk_retention_impact 48 41 7)
       (mk_retention_impact 47 40 7)) = "Cancellations"%string /\
  biggest_retention_killer
    (mk_dropoff_metrics 4 2 3 6 40 20 30 60
       (mk_retention_impact 50 45 5)
       (mk_retention_impact 48 41 7)
       (mk_retention_impact 47 39 8)) = "Negative reviews"%string.
Proof. split; reflexivity. Qed.

End FunnelFacts.

(* ===================================================================== *)
(** * More on the Cleaner: what a cleaned table looks like *)
(* ===================================================================== *)

Module CleanerMore.
Import Py Cleaner Validation PyFacts FrameFacts CleanerFacts.

Lemma filter_none {A : Type} (p : A -> bool) (l : list A) :
  (forall a, In a l -> p a = false) -> filter p l = [].
Proof.
  induction l as [|a l IH]; simpl; intros Hp; [reflexivity|].
  rewrite (Hp a) by now left. apply IH. intros b Hb. apply Hp. now right.
Qed.

Lemma text_standard_forms (c : option string) :
  text_standard c -> exists s, c = Some s /\ lower s = s /\ strip s = s.
Proof.
  intros (s & -> & Hs). exists s. split; [reflexivity|]. split.
  - rewrite <- Hs at 1. rewrite <- strip_lower, lower_idem. exact Hs.
  - rewrite <- Hs at 1. rewrite strip_idem. exact Hs.
Qed.

Lemma clip_fixed_nonneg (q : Q) : clip_lower0 q = q -> (0 <= q)%Q.
Proof.
  unfold clip_lower0. destruct (Qle_bool 0 q) eqn:E.
  - intros _. now apply Qle_bool_iff.
  - intros <-. apply Qle_refl.
Qed.

Lemma drop_from_accounting {R : Type} (eqb : R -> R -> bool) (seen df : list R) :
  (List.length (drop_from eqb seen df) + mask_sum (duplicated_from eqb seen df))%nat
  = List.length df.
Proof.
  revert seen. induction df as [|r df IH]; intros seen; simpl; [reflexivity|].
  unfold mask_sum in *. simpl.
  destruct (existsb (eqb r) seen); simpl; rewrite <- (IH (r :: seen)); lia.
Qed.

Lemma fillna_nulls {A : Type} (v : A) (c : option A) :
  (b2n (isna (fillna v c)) <= b2n (isna c))%nat.
Proof. destruct c; simpl; lia. Qed.

Lemma fillna_opt_nulls {A : Type} (m c : option A) :
  (b2n (isna (fillna_opt m c)) <= b2n (isna c))%nat.
Proof. destruct c, m; simpl; lia. Qed.

Lemma fill_deal_nulls (m1 m2 m3 : option Q) (r : deal) :
  (deal_nulls (fill_deal m1 m2 m3 r) <= deal_nulls r)%nat.
Proof.
  unfold deal_nulls, fill_deal. cbn [d_mql_id seller_id sdr_id sr_id won_date
    business_segment lead_type lead_behaviour_profile has_company has_gtin
    average_stock business_type declared_product_catalog_size
    declared_monthly_revenue].
  pose proof (fillna_nulls "unknown"%string (sdr_id r)).
  pose proof (fillna_nulls "unknown"%string (sr_id r)).
  pose proof (fillna_nulls "unknown"%string (business_segment r)).
  pose proof (fillna_nulls "unknown"%string (lead_type r)).
  pose proof (fillna_nulls "unknown"%string (lead_behaviour_profile r)).
  pose proof (fillna_nulls "unknown"%string (business_type r)).
  pose proof (fillna_nulls 0%Q (has_company r)).
  pose proof (fillna_nulls 0%Q (has_gtin r)).
  pose proof (fillna_opt_nulls m1 (average_stock r)).
  pose proof (fillna_opt_nulls m2 (declared_product_catalog_size r)).
  pose proof (fillna_opt_nulls m3 (declared_monthly_revenue r)).
  lia.
Qed.

Lemma isnull_sum_map_le (f : deal -> deal) (df : list deal) :
  (forall r, (deal_nulls (f r) <= deal_nulls r)%nat) ->
  (deals_isnull_sum (map f df) <= deals_isnull_sum df)%nat.
Proof.
  intros Hf. induction df as [|r df IH]; simpl; [lia|].
  specialize (Hf r). lia.
Qed.

(** Dropping duplicates keeps a row with a value in a column when the
    table has one. *)
Lemma drop_from_keeps_value {R A : Type} (eqb : R -> R -> bool) (col : R -> option A)
    (seen df : list R) :
  (forall a b, eqb a b = true -> col b = None -> col a = None) ->
  Forall (fun r => col r = None) seen ->
  (exists r, In r df /\ col r <> None) ->
  exists r, In r (drop_from eqb seen df) /\ col r <> None.
Proof.
  intros Heq. revert seen.
  induction df as [|x df IH]; intros seen Hseen (r & Hr & Hv); [destruct Hr|].
  simpl. destruct (col x) as [v|] eqn:Ex.
  - destruct (existsb (eqb x) seen) eqn:Edup.
    + apply existsb_exists in Edup. destruct Edup as (y & Hy & Hxy).
      rewrite Forall_forall in Hseen.
      rewrite (Heq x y Hxy (Hseen y Hy)) in Ex. discriminate.
    + exists x. split; [now left | congruence].
  - assert (Htail : exists r', In r' df /\ col r' <> None).
    { destruct Hr as [<- | Hr]; [congruence | eauto]. }
    destruct (IH (x :: seen)) as (r' & Hr' & Hv'); [constructor; auto | exact Htail |].
    exists r'. split; [|exact Hv'].
    destruct (existsb (eqb x) seen); [exact Hr' | now right].
Qed.

Lemma deal_eqb_average_stock (a b : deal) :
  deal_eqb a b = true -> average_stock b = None -> average_stock a = None.
Proof.
  unfold deal_eqb. rewrite !andb_true_iff.
  intros ((((_ & Hs) & _) & _) & _) Hb. rewrite Hb in Hs.
  destruct (average_stock a); [discriminate | reflexivity].
Qed.

Lemma negative_warning_none {R : Type} (name : string) (col : R -> option Q)
    (df : list R) :
  (forall r, In r df -> forall q, col r = Some q -> (0 <= q)%Q) ->
  negative_warning name col df = [].
Proof.
  intros Hcol. unfold negative_warning, negative_count.
  rewrite filter_none; [reflexivity|].
  intros r Hr. destruct (col r) as [q|] eqn:Eq; [|reflexivity].
  apply negb_false_iff, Qle_bool_iff. exact (Hcol r Hr q Eq).
Qed.

Lemma negative_warning_name {R : Type} (name : string) (col : R -> option Q)
    (df : list R) (w : string * nat) :
  In w (negative_warning name col df) -> fst w = name.
Proof.
  unfold negative_warning.
  destruct (0 <? negative_count col df)%nat; [|intros []].
  intros [<- | []]. reflexivity.
Qed.

Section Output.
Context `{DateParser}.

Lemma cleaned_amounts_nonneg (raw_deals : list deal) (r : deal) :
  In r (cleaned (clean_deals raw_deals)) ->
  (forall q, average_stock r = Some q -> (0 <= q)%Q) /\
  (forall q, declared_monthly_revenue r = Some q -> (0 <= q)%Q).
Proof.
  intros Hr. destruct (clean_deals_settled raw_deals) as [Hrows _].
  rewrite Forall_forall in Hrows.
  destruct (Hrows r Hr) as (_ & _ & _ & _ & _ & _ & _ & _ & Hst & Hrev & _).
  split; intros q Hq; apply clip_fixed_nonneg; [apply Hst | apply Hrev]; exact Hq.
Qed.

(** X1.  What every row of the cleaned deals table looks like. *)
Theorem clean_deals_postcondition (raw_deals : list deal) (r : deal) :
  In r (cleaned (clean_deals raw_deals)) ->
  (sdr_id r <> None /\ sr_id r <> None /\ business_type r <> None) /\
  ((exists s, business_segment r = Some s /\ lower s = s /\ strip s = s) /\
   (exists s, lead_type r = Some s /\ lower s = s /\ strip s = s) /\
   (exists s, lead_behaviour_profile r = Some s /\ lower s = s /\ strip s = s)) /\
  ((exists z, has_company r = Some (inject_Z z)) /\
   (exists z, has_gtin r = Some (inject_Z z))) /\
  ((forall q, average_stock r = Some q -> (0 <= q)%Q) /\
   (forall q, declared_monthly_revenue r = Some q -> (0 <= q)%Q)) /\
  (won_date r = DateMissing \/ exists ns, won_date r = DateStamp ns).
Proof.
  intros Hr. destruct (clean_deals_settled raw_deals) as [Hrows _].
  rewrite Forall_forall in Hrows.
  destruct (Hrows r Hr)
    as (Hbs & Hlt & Hlb & Hbt & Hsdr & Hsr & Hhc & Hhg & Hst & Hrev & Hdate).
  split; [exact (conj Hsdr (conj Hsr Hbt))|].
  split.
  { split; [|split]; apply text_standard_forms; assumption. }
  split; [|split].
  - split.
    + destruct Hhc as (q & -> & Hq). rewrite <- Hq. unfold astype_int.
      eexists. reflexivity.
    + destruct Hhg as (q & -> & Hq). rewrite <- Hq. unfold astype_int.
      eexists. reflexivity.
  - split; intros q Hq; apply clip_fixed_nonneg; [apply Hst | apply Hrev]; exact Hq.
  - destruct (won_date r) as [s|ns|].
    + elim (Hdate s). reflexivity.
    + right. exists ns. reflexivity.
    + left. reflexivity.
Qed.

(** X2.  The median-filled columns of the cleaned deals table are missing
    in every row or in none; [average_stock] is filled everywhere as soon as
    one raw row has a value, and a column with no value at all stays empty. *)
Theorem clean_deals_median_columns (raw_deals : list deal) :
  let df := cleaned (clean_deals raw_deals) in
  (Forall (fun r => average_stock r = None) df \/
   Forall (fun r => average_stock r <> None) df) /\
  (Forall (fun r => declared_product_catalog_size r = None) df \/
   Forall (fun r => declared_product_catalog_size r <> None) df) /\
  (Forall (fun r => declared_monthly_revenue r = None) df \/
   Forall (fun r => declared_monthly_revenue r <> None) df) /\
  ((exists r, In r raw_deals /\ average_stock r <> None) ->
   Forall (fun r => average_stock r <> None) df) /\
  (Forall (fun r => average_stock r = None) raw_deals ->
   Forall (fun r => average_stock r = None) df).
Proof.
  intros df. destruct (clean_deals_settled raw_deals) as (_ & H1 & H2 & H3).
  fold df in H1, H2, H3.
  split; [exact H1|]. split; [exact H2|]. split; [exact H3|].
  subst df. rewrite clean_deals_rows. cbv zeta.
  rewrite !Forall_map, !Forall_forall. split.
  - intros Hex x _. simpl.
    destruct (median (map average_stock (drop_duplicates deal_eqb raw_deals)))
      as [m|] eqn:Hm.
    + destruct (average_stock x); discriminate.
    + apply median_None_iff, dropna_nil_iff in Hm.
      rewrite Forall_map, Forall_forall in Hm.
      destruct (drop_from_keeps_value deal_eqb average_stock [] raw_deals
                  deal_eqb_average_stock (Forall_nil _) Hex) as (r & Hr & Hq).
      elim Hq. apply Hm, Hr.
  - intros Hnone x Hx. simpl.
    assert (Hm : median (map average_stock (drop_duplicates deal_eqb raw_deals)) = None).
    { apply median_None_iff, dropna_nil_iff. rewrite Forall_map.
      apply drop_duplicates_Forall. rewrite Forall_forall. exact Hnone. }
    rewrite Hm. rewrite (Hnone x); [reflexivity|].
    eapply drop_from_In, Hx.
Qed.

(** X3.  The accounting of a run: the rows returned and the rows reported
    as removed add up to the rows given, and the fills never add a missing
    cell. *)
Theorem clean_deals_accounting (raw_deals : list deal) :
  Z.of_nat (List.length (cleaned (clean_deals raw_deals))) +
    duplicates_removed (clean_deals raw_deals) = Z.of_nat (List.length raw_deals) /\
  0 <= duplicates_removed (clean_deals raw_deals) /\
  (missing_after (clean_deals raw_deals) <= missing_before (clean_deals raw_deals))%nat /\
  0 <= fills_performed (clean_deals raw_deals).
Proof.
  assert (Hmiss : (missing_after (clean_deals raw_deals)
                   <= missing_before (clean_deals raw_deals))%nat).
  { unfold clean_deals. cbn [missing_after missing_before].
    rewrite deals_fill_missing_rows. apply isnull_sum_map_le.
    intros r. apply fill_deal_nulls. }
  rewrite clean_deals_duplicates_removed, clean_deals_rows. cbv zeta.
  rewrite length_map.
  pose proof (drop_from_accounting deal_eqb [] raw_deals) as Hacc.
  unfold drop_duplicates, duplicated, fills_performed.
  repeat split; try lia.
Qed.

(** X4.  On a cleaned deals table the validation can warn about negative
    values in [declared_product_catalog_size] only: stock and revenue were
    clipped, the catalog size was not. *)
Theorem validate_cleaned_deals (raw_deals : list deal) :
  forall w, In w (negative_values (validate_deals (cleaned (clean_deals raw_deals)))) ->
    fst w = "declared_product_catalog_size"%string.
Proof.
  intros w Hw.
  assert (Hpost : forall r, In r (cleaned (clean_deals raw_deals)) ->
            (forall q, average_stock r = Some q -> (0 <= q)%Q) /\
            (forall q, declared_monthly_revenue r = Some q -> (0 <= q)%Q)).
  { intros r Hr. exact (cleaned_amounts_nonneg raw_deals r Hr). }
  remember (cleaned (clean_deals raw_deals)) as df eqn:Edf. clear Edf.
  unfold validate_deals in Hw. cbn [negative_values] in Hw.
  rewrite (negative_warning_none "average_stock" average_stock df) in Hw
    by (intros r Hr; exact (proj1 (Hpost r Hr))).
  rewrite (negative_warning_none "declared_monthly_revenue" declared_monthly_revenue df)
    in Hw by (intros r Hr; exact (proj2 (Hpost r Hr))).
  rewrite app_nil_r in Hw. cbn [app] in Hw.
  eapply negative_warning_name, Hw.
Qed.

End Output.

Lemma fill_lead_nulls (r : lead) : (lead_nulls (fill_lead r) <= lead_nulls r)%nat.
Proof.
  unfold lead_nulls, fill_lead. cbn [mql_id first_contact_date landing_page_id origin].
  pose proof (fillna_nulls "unknown"%string (landing_page_id r)).
  pose proof (fillna_nulls "unknown"%string (origin r)).
  lia.
Qed.

Lemma leads_isnull_sum_map_le (f : lead -> lead) (df : list lead) :
  (forall r, (lead_nulls (f r) <= lead_nulls r)%nat) ->
  (leads_isnull_sum (map f df) <= leads_isnull_sum df)%nat.
Proof.
  intros Hf. induction df as [|r df IH]; [simpl; lia|].
  cbn [map leads_isnull_sum fold_right]. fold (leads_isnull_sum (map f df)).
  fold (leads_isnull_sum df). specialize (Hf r). lia.
Qed.

Section Leads.
Context `{DateParser}.

(** X20.  The cleaned leads table: every row has a landing page and a
    lower-case, trimmed origin, and a first-contact date that is a timestamp
    or missing; the rows returned and the rows reported as removed add up to
    the rows given, and the fills never add a missing cell. *)
Theorem clean_mql_postcondition (raw_leads : list lead) :
  (forall r, In r (cleaned (clean_mql raw_leads)) ->
     landing_page_id r <> None /\
     (exists s, origin r = Some s /\ lower s = s /\ strip s = s) /\
     (first_contact_date r = DateMissing \/
      exists ns, first_contact_date r = DateStamp ns)) /\
  Z.of_nat (List.length (cleaned (clean_mql raw_leads))) +
    duplicates_removed (clean_mql raw_leads) = Z.of_nat (List.length raw_leads) /\
  (missing_after (clean_mql raw_leads) <= missing_before (clean_mql raw_leads))%nat.
Proof.
  split; [|split].
  - intros r Hr. pose proof (clean_mql_settled raw_leads) as Hrows.
    rewrite Forall_forall in Hrows. destruct (Hrows r Hr) as (Ho & Hl & Hd).
    split; [exact Hl|]. split; [apply text_standard_forms, Ho|].
    destruct (first_contact_date r) as [s|ns|].
    + elim (Hd s). reflexivity.
    + right. exists ns. reflexivity.
    + left. reflexivity.
  - rewrite clean_mql_duplicates_removed, clean_mql_rows, length_map.
    pose proof (drop_from_accounting lead_eqb [] raw_leads) as Hacc.
    unfold drop_duplicates, duplicated. lia.
  - unfold clean_mql. cbn [missing_after missing_before].
    rewrite mql_fill_missing_rows. apply leads_isnull_sum_map_le.
    intros r. apply fill_lead_nulls.
Qed.

End Leads.

End CleanerMore.

(* ===================================================================== *)
(** * More on the Merger: row counts, flag accounting, derived features *)
(* ===================================================================== *)

Module MergerMore.
Import Py Merger MergerFeatures PyFacts CleanerFacts MergerFacts.

(** ** Lists *)

Lemma Forall2_filter_length {A B : Type} (p : A -> bool) (q : B -> bool)
    (l : list A) (l' : list B) :
  Forall2 (fun a b => p a = q b) l l' ->
  List.length (filter p l) = List.length (filter q l').
Proof.
  induction 1 as [|a b l l' Hab _ IH]; simpl; [reflexivity|].
  rewrite <- Hab. destruct (p a); simpl; now rewrite IH.
Qed.

Lemma col_sum_add (f g h : master -> Z) (df : list master) :
  (forall r, In r df -> f r = g r + h r) -> col_sum f df = col_sum g df + col_sum h df.
Proof.
  induction df as [|r df IH]; simpl; intros Hr; [reflexivity|].
  rewrite (Hr r) by now left. rewrite IH by (intros; apply Hr; now right). lia.
Qed.

Lemma col_sum_const (f : master -> Z) (c : Z) (df : list master) :
  (forall r, In r df -> f r = c) -> col_sum f df = c * Z.of_nat (List.length df).
Proof.
  induction df as [|r df IH]; intros Hr; [simpl; lia|].
  cbn [col_sum fold_right List.length]. fold (col_sum f df).
  rewrite (Hr r) by now left. rewrite IH by (intros; apply Hr; now right). lia.
Qed.

(** ** The left join counts rows *)

Lemma merge_left_length_ge (mql_df : list lead) (deals_df : list deal) :
  (List.length mql_df <= List.length (merge_left mql_df deals_df))%nat.
Proof.
  unfold merge_left. induction mql_df as [|l t IH]; [simpl; lia|].
  cbn [flat_map List.length]. rewrite length_app.
  set (rest := flat_map _ t) in *.
  destruct (filter (key_match l) deals_df); cbn [List.length map]; lia.
Qed.

Lemma merge_left_length_unique (mql_df : list lead) (deals_df : list deal) :
  (forall l, In l mql_df -> (List.length (filter (key_match l) deals_df) <= 1)%nat) ->
  List.length (merge_left mql_df deals_df) = List.length mql_df.
Proof.
  unfold merge_left. induction mql_df as [|l t IH]; intros Hu; [reflexivity|].
  cbn [flat_map List.length]. rewrite length_app.
  rewrite IH by (intros l' Hl'; apply Hu; right; exact Hl').
  specialize (Hu l (or_introl eq_refl)).
  destruct (filter (key_match l) deals_df) as [|d [|d' ds]];
    cbn [List.length map] in *; lia.
Qed.

Section Rows.
Context `{DateParser}.

Lemma to_datetime_strict_result (c c' : date_cell) :
  to_datetime_strict c = Some c' -> Cleaner.date_parsed c'.
Proof.
  destruct c as [s| |]; simpl.
  - destruct (to_timestamp s); [|discriminate]. intros [= <-] t. discriminate.
  - intros [= <-] t. discriminate.
  - intros [= <-] t. discriminate.
Qed.

Lemma load_mql_rows (mql_df loaded : list lead) :
  load_mql mql_df = Some loaded ->
  Forall2 (fun l l' => mql_id l' = mql_id l /\ origin l' = origin l /\
                       Cleaner.date_parsed (first_contact_date l')) mql_df loaded.
Proof.
  intros E. apply mapM_Forall2 in E.
  eapply Forall2_impl; [|exact E]. intros l l' Hl. simpl in Hl.
  destruct (to_datetime_strict (first_contact_date l)) as [c|] eqn:Ec; [|discriminate].
  simpl in Hl. injection Hl as <-. simpl.
  split; [reflexivity|]. split; [reflexivity|].
  eapply to_datetime_strict_result, Ec.
Qed.

Lemma load_deals_dates (deals_df loaded : list deal) :
  load_deals deals_df = Some loaded ->
  Forall (fun d => Cleaner.date_parsed (won_date d)) loaded.
Proof.
  intros E. apply mapM_Forall2 in E.
  induction E as [|d d' l l' Hd _ IH]; constructor; [|exact IH].
  simpl in Hd.
  destruct (to_datetime_strict (won_date d)) as [c|] eqn:Ec; [|discriminate].
  simpl in Hd. injection Hd as <-. simpl. eapply to_datetime_strict_result, Ec.
Qed.

(** X5.  The left join keeps every lead: the master table has at least as
    many rows as the leads table, stage 1 counts all of them, and when no
    lead matches two deals it has exactly one row per lead. *)
Theorem merge_row_count (mql_df : list lead) (deals_df : list deal)
    (master_df : list master) :
  merge mql_df deals_df = Some master_df ->
  (List.length mql_df <= List.length master_df)%nat /\
  col_sum stage_1_lead_generated master_df = Z.of_nat (List.length master_df) /\
  ((forall l, In l mql_df ->
      (List.length (filter (key_match l) deals_df) <= 1)%nat) ->
   List.length master_df = List.length mql_df).
Proof.
  unfold merge. intros E.
  destruct (load_deals deals_df) as [deals|] eqn:Ed; [|discriminate].
  destruct (load_mql mql_df) as [leads|] eqn:El; [|discriminate].
  simpl in E. injection E as <-.
  apply load_deals_rows in Ed. apply load_mql_rows in El.
  assert (Hlen : List.length leads = List.length mql_df)
    by (symmetry; eapply Forall2_length, El).
  unfold build_master. rewrite length_map. split; [|split].
  - rewrite <- Hlen. apply merge_left_length_ge.
  - rewrite (col_sum_const _ 1); [rewrite length_map; lia|].
    intros r Hr. apply in_map_iff in Hr. destruct Hr as (m & <- & _). reflexivity.
  - intros Hu. rewrite <- Hlen. apply merge_left_length_unique.
    intros l' Hl'.
    destruct (Forall2_In_r _ _ _ _ El Hl') as (l & Hl & Hid & _).
    rewrite <- (Forall2_filter_length (key_match l) (key_match l') deals_df deals).
    + apply Hu, Hl.
    + eapply Forall2_impl; [|exact Ed]. intros d d' (Hd & _).
      unfold key_match. now rewrite Hid, Hd.
Qed.

(** X6.  The flags account for every row: the leads split into contacted
    ones and drop-outs after the lead stage; and when every deal row has
    both sales-rep ids, the consulted rows split into converted ones and
    drop-outs after consultation. *)
Theorem merge_flag_accounting (mql_df : list lead) (deals_df : list deal)
    (master_df : list master) :
  merge mql_df deals_df = Some master_df ->
  col_sum stage_1_lead_generated master_df =
    col_sum stage_2_first_contact master_df + col_sum dropout_after_lead master_df /\
  ((forall d, In d deals_df -> sdr_id d <> None /\ sr_id d <> None) ->
   col_sum stage_4_consultation master_df =
     col_sum is_converted master_df + col_sum dropout_after_consultation master_df).
Proof.
  intros E. split.
  - apply col_sum_add. intros r Hr.
    destruct (merge_row_cases _ _ _ _ E Hr) as (m & -> & _).
    unfold add_funnel_columns.
    cbn [stage_1_lead_generated stage_2_first_contact dropout_after_lead]. lia.
  - intros Hids. apply col_sum_add. intros r Hr.
    destruct (merge_row_cases _ _ _ _ E Hr) as (m & -> & Hm). simpl.
    unfold deal_text, deal_date in *.
    destruct (deal_cols m) as [d'|]; [|reflexivity].
    destruct Hm as (d & Hd & _ & _ & Hsr). destruct (Hids d Hd) as [_ Hs].
    rewrite Hsr. destruct (sr_id d); [|congruence].
    destruct (won_date d'); reflexivity.
Qed.

(** X7.  [days_to_close] is present on exactly the rows that were contacted
    and closed. *)
Theorem days_to_close_present (mql_df : list lead) (deals_df : list deal)
    (master_df : list master) :
  merge mql_df deals_df = Some master_df ->
  forall r, In r master_df ->
    (days_to_close (source r) <> None <->
     stage_2_first_contact r = 1 /\ stage_5_deal_closed r = 1).
Proof.
  unfold merge. intros E r Hr.
  destruct (load_deals deals_df) as [deals|] eqn:Ed; [|discriminate].
  destruct (load_mql mql_df) as [leads|] eqn:El; [|discriminate].
  simpl in E. injection E as <-.
  apply load_deals_dates in Ed. apply load_mql_rows in El.
  apply build_master_In in Hr. destruct Hr as (m & -> & Hm).
  apply merge_left_In in Hm. destruct Hm as [Hl Hm].
  destruct (Forall2_In_r _ _ _ _ El Hl) as (l & _ & _ & _ & Hc).
  assert (Hw : Cleaner.date_parsed (deal_date won_date m)).
  { unfold deal_date. destruct (deal_cols m) as [d|]; [|intros s; discriminate].
    destruct Hm as [Hd _]. rewrite Forall_forall in Ed. apply Ed, Hd. }
  unfold days_to_close, FeatureEngine.days_between. simpl.
  destruct (deal_date won_date m) as [s| |]; [now destruct (Hw s) | |];
    (destruct (first_contact_date (lead_cols m)) as [s'| |];
       [now destruct (Hc s') | |]); simpl;
    (split; [intros Hn; try (now elim Hn); split; reflexivity
            | intros [H2 H5]; try discriminate; discriminate]).
Qed.

End Rows.
(** ** The lead source bucket and the Cleaner's standardisation *)

Lemma space_not_eqb (a c : ascii) :
  is_space a = false -> is_space c = true -> Ascii.eqb a c = false.
Proof.
  intros Ha Hc. destruct (Ascii.eqb a c) eqn:E; [|reflexivity].
  apply Ascii.eqb_eq in E. subst. congruence.
Qed.

Lemma is_prefix_rstrip (n s : string) :
  no_space n = true -> is_prefix n (rstrip s) = is_prefix n s.
Proof.
  revert n. induction s as [|c t IH]; intros n Hn; [reflexivity|].
  destruct n as [|a n']; [reflexivity|].
  simpl in Hn. apply andb_true_iff in Hn. destruct Hn as [Ha Hn'].
  apply negb_true_iff in Ha.
  specialize (IH n' Hn'). simpl.
  destruct (rstrip t) as [|c' t'] eqn:Er.
  - destruct (is_space c) eqn:Ec; simpl.
    + now rewrite (space_not_eqb a c Ha Ec).
    + now rewrite IH.
  - simpl. now rewrite <- IH.
Qed.

Lemma contains_rstrip (a : ascii) (n' s : string) :
  no_space (String a n') = true ->
  contains (String a n') (rstrip s) = contains (String a n') s.
Proof.
  intros Hn. induction s as [|c t IH]; [reflexivity|].
  pose proof (is_prefix_rstrip (String a n') (String c t) Hn) as Hp.
  cbn [rstrip] in *.
  destruct (rstrip t) as [|c' t'] eqn:Er.
  - destruct (is_space c) eqn:Ec.
    + cbn [contains]. rewrite <- IH, <- Hp. reflexivity.
    + cbn [contains]. rewrite <- IH, <- Hp. reflexivity.
  - cbn [contains]. rewrite <- IH, <- Hp. reflexivity.
Qed.

Lemma contains_lstrip (a : ascii) (n' s : string) :
  is_space a = false ->
  contains (String a n') (lstrip s) = contains (String a n') s.
Proof.
  intros Ha. induction s as [|c t IH]; [reflexivity|].
  cbn [lstrip]. destruct (is_space c) eqn:Ec; [|reflexivity].
  rewrite IH. cbn [contains is_prefix].
  now rewrite (space_not_eqb a c Ha Ec).
Qed.

Lemma contains_strip (a : ascii) (n' s : string) :
  no_space (String a n') = true ->
  contains (String a n') (strip s) = contains (String a n') s.
Proof.
  intros Hn. unfold strip. rewrite contains_rstrip by exact Hn.
  apply contains_lstrip. simpl in Hn. apply andb_true_iff in Hn.
  now apply negb_true_iff.
Qed.

Lemma lead_source_category_standardize (c : option string) :
  lead_source_category (Cleaner.standardize (fillna "unknown"%string c)) =
  lead_source_category c.
Proof.
  destruct c as [s|]; [|reflexivity].
  unfold lead_source_category, Cleaner.standardize. simpl.
  rewrite <- strip_lower, lower_idem.
  now rewrite !contains_strip by reflexivity.
Qed.

(** X8.  The Cleaner's fill and standardisation of [origin] do not change
    the lead source bucket: the cleaned leads get the buckets the raw leads
    (after duplicate removal) would get. *)
Theorem lead_source_survives_cleaning `{DateParser} (raw_leads : list lead) :
  map (fun l => lead_source_category (origin l)) (cleaned (clean_mql raw_leads)) =
  map (fun l => lead_source_category (origin l))
      (drop_duplicates lead_eqb raw_leads).
Proof.
  rewrite clean_mql_rows, map_map. apply map_ext. intros l. simpl.
  apply lead_source_category_standardize.
Qed.

(** ** The size buckets *)

Lemma Qle_bool_false (x y : Q) : Qle_bool x y = false <-> (y < x)%Q.
Proof.
  split.
  - intros E. apply Qnot_le_lt. intros Hle. apply Qle_bool_iff in Hle. congruence.
  - intros Hlt. destruct (Qle_bool x y) eqn:E; [|reflexivity].
    apply Qle_bool_iff in E. exfalso. eapply Qlt_not_le; eassumption.
Qed.

(** X9.  The business-size and catalog-size buckets as intervals:
    "startup" is a revenue of exactly 0, "micro" every other revenue up to
    1000 (negative ones included), then (1000, 10000], (10000, 100000] and
    above; the catalog buckets are (.., 10], (10, 100], (100, 1000] and
    above; a missing value is "unknown" and nothing else is. *)
Theorem size_buckets (x : option Q) :
  (x = None <-> categorize_business_size x = "unknown"%string) /\
  (x = None <-> categorize_catalog_size x = "unknown"%string) /\
  (forall q, x = Some q ->
     ((q == 0)%Q -> categorize_business_size x = "startup"%string) /\
     (~ (q == 0)%Q -> (q <= 1000)%Q -> categorize_business_size x = "micro"%string) /\
     ((1000 < q)%Q -> (q <= 10000)%Q -> categorize_business_size x = "small"%string) /\
     ((10000 < q)%Q -> (q <= 100000)%Q ->
      categorize_business_size x = "medium"%string) /\
     ((100000 < q)%Q -> categorize_business_size x = "large"%string) /\
     ((q <= 10)%Q -> categorize_catalog_size x = "small"%string) /\
     ((10 < q)%Q -> (q <= 100)%Q -> categorize_catalog_size x = "medium"%string) /\
     ((100 < q)%Q -> (q <= 1000)%Q -> categorize_catalog_size x = "large"%string) /\
     ((1000 < q)%Q -> categorize_catalog_size x = "enterprise"%string)).
Proof.
  split; [|split].
  - destruct x as [q|]; simpl; [|tauto]. split; [discriminate|].
    destruct (Qeq_bool q 0), (Qle_bool q 1000), (Qle_bool q 10000),
      (Qle_bool q 100000); discriminate.
  - destruct x as [q|]; simpl; [|tauto]. split; [discriminate|].
    destruct (Qle_bool q 10), (Qle_bool q 100), (Qle_bool q 1000); discriminate.
  - intros q ->. simpl.
    destruct (Qeq_bool q 0) eqn:E0;
      [apply Qeq_bool_iff in E0 | apply Qeq_bool_neq in E0];
    destruct (Qle_bool q 1000) eqn:E1;
      try apply Qle_bool_iff in E1; try apply Qle_bool_false in E1;
    destruct (Qle_bool q 10000) eqn:E2;
      try apply Qle_bool_iff in E2; try apply Qle_bool_false in E2;
    destruct (Qle_bool q 100000) eqn:E3;
      try apply Qle_bool_iff in E3; try apply Qle_bool_false in E3;
    destruct (Qle_bool q 10) eqn:E4;
      try apply Qle_bool_iff in E4; try apply Qle_bool_false in E4;
    destruct (Qle_bool q 100) eqn:E5;
      try apply Qle_bool_iff in E5; try apply Qle_bool_false in E5;
    repeat split; intros; try reflexivity; exfalso;
      try contradiction; lra.
Qed.

End MergerMore.

(* ===================================================================== *)
(** * Group keys: sorted, distinct, complete *)
(* ===================================================================== *)

Module KeyFacts.
Import Py FunnelMetrics.

Lemma ascii_compare_lt_trans (a b c : ascii) :
  Ascii.compare a b = Lt -> Ascii.compare b c = Lt -> Ascii.compare a c = Lt.
Proof.
  unfold Ascii.compare. rewrite !N.compare_lt_iff. apply N.lt_trans.
Qed.

Lemma compare_lt_trans (a b c : string) :
  String.compare a b = Lt -> String.compare b c = Lt -> String.compare a c = Lt.
Proof.
  revert b c. induction a as [|x a IH]; intros [|y b] [|z c]; simpl;
    try discriminate; try reflexivity.
  destruct (Ascii.compare x y) eqn:Exy; try discriminate.
  - apply Ascii.compare_eq_iff in Exy. subst y.
    destruct (Ascii.compare x z); try discriminate; [apply IH | reflexivity].
  - intros _. destruct (Ascii.compare y z) eqn:Eyz; try discriminate.
    + apply Ascii.compare_eq_iff in Eyz. subst z. now rewrite Exy.
    + intros _. now rewrite (ascii_compare_lt_trans x y z Exy Eyz).
Qed.

Lemma compare_refl (a : string) : String.compare a a = Eq.
Proof.
  pose proof (String.compare_antisym a a) as E.
  destruct (String.compare a a); simpl in E; congruence.
Qed.

(** A list of keys in strictly increasing order. *)
Lemma insert_key_increasing (k : string) (ks : list string) :
  StronglySorted (fun a b => String.compare a b = Lt) ks ->
  StronglySorted (fun a b => String.compare a b = Lt) (insert_key k ks).
Proof.
  induction 1 as [|h t Ht IH Hh]; simpl.
  - repeat constructor.
  - destruct (String.compare k h) eqn:E.
    + constructor; assumption.
    + constructor; [constructor; assumption|].
      constructor; [exact E|].
      eapply Forall_impl; [|exact Hh]. intros x Hx. eapply compare_lt_trans; eassumption.
    + constructor; [exact IH|].
      assert (Hhk : String.compare h k = Lt).
      { rewrite String.compare_antisym, E. reflexivity. }
      clear IH. induction t as [|y t IHt]; simpl.
      * repeat constructor. exact Hhk.
      * inversion Hh; subst. inversion Ht; subst.
        destruct (String.compare k y); constructor; auto.
Qed.

Lemma keys_increasing (ids : list string) :
  StronglySorted (fun a b => String.compare a b = Lt) (fold_right insert_key [] ids).
Proof.
  induction ids as [|k ids IH]; simpl; [constructor | now apply insert_key_increasing].
Qed.

Lemma increasing_NoDup (ks : list string) :
  StronglySorted (fun a b => String.compare a b = Lt) ks -> NoDup ks.
Proof.
  induction 1 as [|h t _ IH Hh]; constructor; [|exact IH].
  intros Hin. rewrite Forall_forall in Hh. specialize (Hh h Hin).
  rewrite compare_refl in Hh. discriminate.
Qed.

Lemma keys_NoDup (ids : list string) : NoDup (fold_right insert_key [] ids).
Proof. apply increasing_NoDup, keys_increasing. Qed.

Lemma insert_key_In_iff (x k : string) (ks : list string) :
  In x (insert_key k ks) <-> x = k \/ In x ks.
Proof.
  induction ks as [|h t IH]; simpl.
  - intuition congruence.
  - destruct (String.compare k h) eqn:E; simpl.
    + apply String.compare_eq_iff in E. subst h. intuition congruence.
    + intuition congruence.
    + rewrite IH. intuition congruence.
Qed.

Lemma keys_In_iff (ids : list string) (k : string) :
  In k (fold_right insert_key [] ids) <-> In k ids.
Proof.
  induction ids as [|x ids IH]; simpl; [tauto|].
  rewrite insert_key_In_iff, IH. intuition congruence.
Qed.

Lemma dropna_In_iff {A : Type} (col : list (option A)) (a : A) :
  In a (dropna col) <-> In (Some a) col.
Proof.
  induction col as [|[x|] col IH]; simpl.
  - tauto.
  - rewrite IH. split; intros [E | Hin]; auto; left; congruence.
  - rewrite IH. split; [auto|]. intros [E | Hin]; [discriminate | assumption].
Qed.

(** Among distinct keys exactly one equals a given member. *)
Lemma filter_unique_key {V : Type} (f : string -> V) (ks : list string) (k : string) :
  NoDup ks -> In k ks ->
  filter (fun kv => String.eqb k (fst kv)) (map (fun x => (x, f x)) ks) = [(k, f k)].
Proof.
  induction 1 as [|h t Hh Ht IH]; simpl; [tauto|].
  intros [-> | Hin].
  - rewrite String.eqb_refl. f_equal.
    apply CleanerMore.filter_none. intros kv Hkv.
    apply in_map_iff in Hkv. destruct Hkv as (x & <- & Hx). simpl.
    apply String.eqb_neq. intros ->. contradiction.
  - destruct (String.eqb k h) eqn:E; [|now apply IH].
    apply String.eqb_eq in E. subst h. contradiction.
Qed.

End KeyFacts.

(* ===================================================================== *)
(** * The other order features *)
(* ===================================================================== *)

Module OrderFeatureFacts.
Import Py OrderFeatures PyFacts KeyFacts MergerMore.

(** ** Review score *)

(** X10.  [has_no_review] is 1 exactly on the rows labelled "No Review".
    [has_negative_review] is 1 exactly for scores from 1 to 2, and such a
    row is labelled "Negative (1-2)"; the label, however, is given to every
    score below 4 other than 3, so the two agree on the whole scores 1..5
    and differ on scores below 1 or between the whole numbers. *)
Theorem review_features_agree {R : Type} (review_score : R -> option Q)
    (df : list R) (r : R) (f : review_features) :
  In (r, f) (create_review_score_features review_score df) ->
  (has_no_review f = 1 <-> review_score_label f = "No Review"%string) /\
  (has_negative_review f = 1 <->
   exists q, review_score r = Some q /\ (1 <= q <= 2)%Q) /\
  (review_score_label f = "Negative (1-2)"%string <->
   exists q, review_score r = Some q /\ (q < 4)%Q /\ ~ (q == 3)%Q) /\
  (has_negative_review f = 1 -> review_score_label f = "Negative (1-2)"%string) /\
  (forall n, review_score r = Some (inject_Z n) -> 1 <= n <= 5 ->
     (review_score_label f = "Negative (1-2)"%string <-> has_negative_review f = 1)).
Proof.
  unfold create_review_score_features. rewrite in_map_iff.
  intros (r' & [= -> <-] & _). simpl.
  assert (Hflag : b2z (negative_review_mask (review_score r)) = 1 <->
                  exists q, review_score r = Some q /\ (1 <= q <= 2)%Q).
  { destruct (review_score r) as [q|]; simpl.
    - destruct (Qle_bool 1 q) eqn:E1, (Qle_bool q 2) eqn:E2; simpl;
        try apply Qle_bool_iff in E1; try apply Qle_bool_iff in E2;
        try apply Qle_bool_false in E1; try apply Qle_bool_false in E2;
        (split; [intros Hb; try discriminate Hb; eauto
                | intros (q' & [= <-] & H1 & H2); try reflexivity; exfalso; lra]).
    - split; [discriminate | intros (q & Hq & _); discriminate]. }
  assert (Hlabel : categorize_review_score (review_score r) = "Negative (1-2)"%string <->
                   exists q, review_score r = Some q /\ (q < 4)%Q /\ ~ (q == 3)%Q).
  { destruct (review_score r) as [q|]; simpl.
    - destruct (Qle_bool 4 q) eqn:E4;
        [apply Qle_bool_iff in E4 | apply Qle_bool_false in E4].
      + split; [discriminate | intros (q' & [= <-] & H1 & _); exfalso; lra].
      + destruct (Qeq_bool q 3) eqn:E3;
          [apply Qeq_bool_iff in E3 | apply Qeq_bool_neq in E3].
        * split; [discriminate | intros (q' & [= <-] & _ & H3); contradiction].
        * split; [intros _; eauto | reflexivity].
    - split; [discriminate | intros (q & Hq & _); discriminate]. }
  split; [|split; [exact Hflag | split; [exact Hlabel | split]]].
  - destruct (review_score r) as [q|]; simpl.
    + split; [discriminate|].
      destruct (Qle_bool 4 q), (Qeq_bool q 3); discriminate.
    + tauto.
  - rewrite Hflag, Hlabel. intros (q & Hq & H1 & H2). exists q.
    split; [exact Hq|]. split; [lra|]. intros E. rewrite E in H2. lra.
  - intros n Hn Hrange. rewrite Hflag, Hlabel.
    split; intros (q & Hq & Hr); rewrite Hn in Hq; injection Hq as <-;
      exists (inject_Z n); (split; [exact Hn|]).
    + unfold Qle, Qlt, Qeq in *. simpl in *. lia.
    + unfold Qle, Qlt, Qeq in *. simpl in *. lia.
Qed.

(** ** Cancellation *)

(** X11.  The cancellation flag and the status bucket agree: [is_canceled]
    is 1 exactly on the rows whose status is the text [canceled], which are
    exactly the rows bucketed "Canceled"; a missing status is "Other". *)
Theorem cancellation_features_agree {R : Type} (order_status : R -> option string)
    (df : list R) (r : R) (f : cancellation_features) :
  In (r, f) (create_cancellation_features order_status df) ->
  (is_canceled f = 1 <-> order_status r = Some "canceled"%string) /\
  (is_canceled f = 1 <-> order_status_category f = "Canceled"%string) /\
  (is_canceled f = 0 \/ is_canceled f = 1) /\
  (order_status r = None -> order_status_category f = "Other"%string).
Proof.
  unfold create_cancellation_features. rewrite in_map_iff.
  intros (r' & [= -> <-] & _).
  cbn [is_canceled order_status_category].
  unfold categorize_order_status.
  destruct (order_status r) as [s|].
  - cbn [existsb status_in text_eqb]. rewrite !orb_false_r.
    destruct (String.eqb_spec s "canceled") as [-> | Hne].
    + unfold b2z. cbn. repeat split; auto; intros E; discriminate E.
    + assert (Hs : Some s = Some "canceled"%string -> False) by congruence.
      unfold b2z.
      destruct (String.eqb s "delivered");
        [|destruct (String.eqb s "shipped" ||
                    (String.eqb s "processing" || String.eqb s "approved"))%bool];
        (split; [split; [intros E; discriminate E | intros E; elim (Hs E)]|]);
        (split; [split; intros E; discriminate E|]);
        (split; [left; reflexivity | intros E; discriminate E]).
  - unfold b2z. cbn [status_in text_eqb].
    split; [split; intros E; discriminate E|].
    split; [split; intros E; discriminate E|].
    split; [left; reflexivity | reflexivity].
Qed.

(** ** Order value *)

(** X12.  The high-value flag and the value bucket agree: a row has
    [is_high_value_order] = 1 exactly when its price is at least 200, which
    is exactly when it is bucketed "High Value ($200+)"; a missing price is
    "Unknown" with the flag 0. *)
Theorem value_features_agree {R : Type} (price : R -> option Q)
    (df : list R) (r : R) (f : value_features) :
  In (r, f) (create_order_value_features price df) ->
  (is_high_value_order f = 1 <-> exists p, price r = Some p /\ (200 <= p)%Q) /\
  (is_high_value_order f = 1 <-> order_value_category f = "High Value ($200+)"%string) /\
  (price r = None <-> order_value_category f = "Unknown"%string) /\
  (forall p, price r = Some p -> (p < 50)%Q ->
     order_value_category f = "Low Value (<$50)"%string) /\
  (forall p, price r = Some p -> (50 <= p)%Q -> (p < 200)%Q ->
     order_value_category f = "Medium Value ($50-200)"%string).
Proof.
  unfold create_order_value_features. rewrite in_map_iff.
  intros (r' & [= -> <-] & _). simpl.
  destruct (price r) as [p|]; simpl.
  - destruct (Qle_bool 50 p) eqn:E50;
      [apply Qle_bool_iff in E50 | apply Qle_bool_false in E50];
    (destruct (Qle_bool 200 p) eqn:E200;
      [apply Qle_bool_iff in E200 | apply Qle_bool_false in E200]); simpl;
    repeat split; intros; try discriminate; try reflexivity; eauto;
    try (match goal with
         | H : exists _, _ |- _ => destruct H as (p' & [= <-] & Hp)
         | H : Some _ = Some _ |- _ => injection H as <-
         end); try (exfalso; lra).
  - repeat split; intros; try discriminate; try reflexivity.
    destruct H as (p & Hp & _). discriminate.
Qed.

(** ** Drop-off flags *)

(** X13.  With the three signals coded 0/1 (as the feature functions code
    them), [has_negative_experience] is 1 exactly when some signal is 1 and
    0 exactly when all are 0; [has_severe_issues] is 1 exactly when at least
    two signals are 1, and then [has_negative_experience] is 1 too. *)
Theorem drop_off_flags_consistent {R : Type}
    (is_delayed is_canceled has_negative_review : R -> Z)
    (df : list R) (r : R) (f : drop_off_flags) :
  In (r, f) (create_drop_off_flags is_delayed is_canceled has_negative_review df) ->
  (is_delayed r = 0 \/ is_delayed r = 1) ->
  (is_canceled r = 0 \/ is_canceled r = 1) ->
  (has_negative_review r = 0 \/ has_negative_review r = 1) ->
  (has_negative_experience f = 1 <->
   is_delayed r = 1 \/ is_canceled r = 1 \/ has_negative_review r = 1) /\
  (has_negative_experience f = 0 <->
   is_delayed r = 0 /\ is_canceled r = 0 /\ has_negative_review r = 0) /\
  (has_negative_experience f = Z.max (is_delayed r)
                                 (Z.max (is_canceled r) (has_negative_review r))) /\
  (has_severe_issues f = 1 <->
   2 <= is_delayed r + is_canceled r + has_negative_review r) /\
  (has_severe_issues f = 1 -> has_negative_experience f = 1).
Proof.
  unfold create_drop_off_flags. rewrite in_map_iff.
  intros (r' & [= -> <-] & _) Hd Hc Hn. simpl.
  destruct Hd as [-> | ->], Hc as [-> | ->], Hn as [-> | ->]; simpl;
    repeat split; intros; try reflexivity; try discriminate; try lia; auto;
    try (match goal with H : _ \/ _ |- _ => destruct H as [H | [H | H]] end;
         discriminate).
Qed.

(** ** Repeat customers *)

(** The join with the counts gives every row the size of its group, and
    nothing to a row without a customer id. *)
Lemma merge_counts_rows {R : Type} (customer_unique_id : R -> option string)
    (all df : list R) :
  (forall r, In r df -> In r all) ->
  merge_counts customer_unique_id df (customer_order_counts customer_unique_id all) =
  map (fun r =>
         (r, option_map
               (fun k => len (filter (fun x => text_eqb (customer_unique_id x) (Some k)) all))
               (customer_unique_id r))) df.
Proof.
  unfold merge_counts, customer_order_counts.
  induction df as [|r df IH]; intros Hall; [reflexivity|].
  cbn [flat_map]. rewrite map_cons.
  rewrite IH by (intros x Hx; apply Hall; right; exact Hx).
  clear IH.
  destruct (customer_unique_id r) as [k|] eqn:Ek.
  - cbn [text_eqb option_map].
    rewrite (filter_unique_key
               (fun k => len (filter (fun x => text_eqb (customer_unique_id x) (Some k)) all))
               _ k).
    + reflexivity.
    + apply keys_NoDup.
    + apply keys_In_iff, dropna_In_iff, in_map_iff.
      exists r. split; [exact Ek | apply Hall; now left].
  - cbn [text_eqb option_map].
    rewrite CleanerMore.filter_none by reflexivity. reflexivity.
Qed.

(** X14.  [create_repeat_customer_feature] keeps the rows as they are, in
    their order.  A row with a customer id gets as [total_orders] the number
    of rows of the table with that id (at least 1); it is a repeat customer
    exactly when that number is at least 2, and a "One-time Customer"
    exactly when it is 1.  A row without a customer id gets no
    [total_orders], the flag 0, and the label "Frequent Customer (4+
    orders)". *)
Theorem repeat_customer_rows {R : Type} (customer_unique_id : R -> option string)
    (df : list R) :
  map fst (create_repeat_customer_feature customer_unique_id df) = df /\
  (forall r f, In (r, f) (create_repeat_customer_feature customer_unique_id df) ->
     match customer_unique_id r with
     | Some k =>
         let n := len (filter (fun x => text_eqb (customer_unique_id x) (Some k)) df) in
         total_orders f = Some n /\ 1 <= n /\
         (is_repeat_customer f = 1 <-> 2 <= n) /\
         (is_repeat_customer f = 0 <-> n = 1) /\
         (customer_category f = "One-time Customer"%string <-> n = 1) /\
         (customer_category f = "Occasional Customer (2-3 orders)"%string <->
          2 <= n <= 3) /\
         (customer_category f = "Frequent Customer (4+ orders)"%string <-> 4 <= n)
     | None =>
         total_orders f = None /\ is_repeat_customer f = 0 /\
         customer_category f = "Frequent Customer (4+ orders)"%string
     end).
Proof.
  unfold create_repeat_customer_feature.
  rewrite merge_counts_rows by auto. rewrite !map_map. split.
  - simpl. apply map_id.
  - intros r f Hin. apply in_map_iff in Hin. destruct Hin as (r' & [= <- <-] & Hr).
    simpl. destruct (customer_unique_id r') as [k|] eqn:Ek; simpl; [|auto].
    set (n := len _).
    assert (Hn : 1 <= n).
    { subst n. unfold len.
      assert (Hin : In r' (filter (fun x => text_eqb (customer_unique_id x) (Some k)) df)).
      { apply filter_In. split; [exact Hr|]. rewrite Ek. simpl. apply String.eqb_refl. }
      destruct (filter _ df); [destruct Hin | simpl; lia]. }
    split; [reflexivity|]. split; [exact Hn|].
    unfold categorize_customer.
    destruct (Z.geb_spec n 2), (Z.eqb_spec n 1), (Z.leb_spec n 3); simpl;
      repeat split; intros; try reflexivity; try discriminate; try lia.
Qed.

End OrderFeatureFacts.

(* ===================================================================== *)
(** * More on the funnel metrics *)
(* ===================================================================== *)

Module FunnelMore.
Import Py FunnelMetrics PyFacts FloatFacts KeyFacts FunnelFacts.

(** ** The customer summary *)

(** X15.  The customer summary has one row per customer id of the orders
    table: its ids are in strictly increasing order, hence distinct, and
    they are exactly the ids some order row carries; rows without a
    customer id contribute no customer. *)
Theorem customer_summary_keys (df : list order_row) :
  let ids := map cs_customer_unique_id (calculate_customer_level_metrics df) in
  StronglySorted (fun a b => String.compare a b = Lt) ids /\
  NoDup ids /\
  (forall k, In k ids <-> exists r, In r df /\ customer_unique_id r = Some k) /\
  (List.length (calculate_customer_level_metrics df) <= List.length df)%nat.
Proof.
  intros ids.
  assert (Hids : ids = group_keys df).
  { subst ids. unfold calculate_customer_level_metrics. rewrite map_map. simpl.
    apply map_id. }
  rewrite Hids. unfold group_keys.
  split; [apply keys_increasing|]. split; [apply keys_NoDup|]. split.
  - intros k. rewrite keys_In_iff, dropna_In_iff, in_map_iff.
    split; intros (r & H1 & H2); exists r; auto.
  - unfold calculate_customer_level_metrics, group_keys. rewrite length_map.
    transitivity (List.length (dropna (map customer_unique_id df))).
    + apply NoDup_incl_length; [apply keys_NoDup|].
      intros k Hk. now apply keys_In_iff.
    + clear. induction df as [|r df IH]; simpl; [lia|].
      destruct (customer_unique_id r); simpl; lia.
Qed.

(** [sum(total_orders)] over the summary. *)
Lemma sum_indicator (ks : list string) (k0 : string) (v : Z) :
  NoDup ks ->
  fold_right (fun k acc => (if String.eqb k0 k then v else 0) + acc) 0 ks =
  if existsb (String.eqb k0) ks then v else 0.
Proof.
  induction 1 as [|h t Hh _ IH]; simpl; [reflexivity|].
  rewrite IH. destruct (String.eqb k0 h) eqn:E; simpl; [|reflexivity].
  apply String.eqb_eq in E. subst h.
  destruct (existsb (String.eqb k0) t) eqn:Ex; [|lia].
  apply existsb_exists in Ex. destruct Ex as (x & Hx & Ex).
  apply String.eqb_eq in Ex. subst x. contradiction.
Qed.

Lemma orders_conserved (ks : list string) (df : list order_row) :
  NoDup ks ->
  (forall r k, In r df -> customer_unique_id r = Some k -> In k ks) ->
  fold_right (fun k acc => agg_count (map order_id (group_rows k df)) + acc) 0 ks =
  len (filter (fun r => negb (isna (customer_unique_id r)) && negb (isna (order_id r))) df).
Proof.
  intros Hnd. induction df as [|r df IH]; intros Hin.
  - simpl. clear. induction ks as [|k ks IH]; simpl; [reflexivity|].
    rewrite IH. reflexivity.
  - specialize (IH (fun r' k Hr' => Hin r' k (or_intror Hr'))).
    assert (Hstep : forall k,
      agg_count (map order_id (group_rows k (r :: df))) =
      (if text_eqb (customer_unique_id r) (Some k)
       then (if isna (order_id r) then 0 else 1) else 0) +
      agg_count (map order_id (group_rows k df))).
    { intros k. unfold group_rows, agg_count, len. simpl.
      destruct (text_eqb (customer_unique_id r) (Some k)); simpl; [|lia].
      destruct (order_id r); cbn [isna List.length]; lia. }
    transitivity
      (fold_right (fun k acc =>
         (if text_eqb (customer_unique_id r) (Some k)
          then (if isna (order_id r) then 0 else 1) else 0) + acc) 0 ks +
       fold_right (fun k acc => agg_count (map order_id (group_rows k df)) + acc) 0 ks).
    { clear - Hstep. induction ks as [|k ks IHk]; cbn [fold_right]; [reflexivity|].
      rewrite Hstep, IHk. lia. }
    rewrite IH. unfold len. cbn [filter].
    destruct (customer_unique_id r) as [k0|] eqn:Ek; cbn [text_eqb isna negb andb].
    + rewrite (sum_indicator ks k0 _ Hnd).
      assert (Hex : existsb (String.eqb k0) ks = true).
      { apply existsb_exists. exists k0. split; [|apply String.eqb_refl].
        eapply Hin; [now left | exact Ek]. }
      rewrite Hex. destruct (order_id r); cbn [isna negb List.length]; lia.
    + replace (fold_right (fun (k : string) (acc : Z) => 0 + acc) 0 ks) with 0;
        [reflexivity|].
      clear. induction ks as [|k ks IHk]; cbn [fold_right]; [reflexivity | lia].
Qed.

(** X16.  No order is lost or counted twice: the [total_orders] of the
    customers add up to the number of order rows that have both a customer
    id and an order id. *)
Theorem total_orders_conserved (df : list order_row) :
  fold_right (fun c acc => total_orders c + acc) 0 (calculate_customer_level_metrics df) =
  len (filter (fun r => negb (isna (customer_unique_id r)) && negb (isna (order_id r))) df).
Proof.
  rewrite <- (orders_conserved (group_keys df) df).
  - unfold calculate_customer_level_metrics.
    induction (group_keys df) as [|k ks IH]; simpl; [reflexivity | now rewrite IH].
  - apply keys_NoDup.
  - intros r k Hr Hk. apply keys_In_iff, dropna_In_iff, in_map_iff. eauto.
Qed.

(** ** Negative experience of a customer *)

Lemma fold_max_max {A : Type} (f g : A -> Z) (l : list A) (a b : Z) :
  fold_left Z.max (map (fun x => Z.max (f x) (g x)) l) (Z.max a b) =
  Z.max (fold_left Z.max (map f l) a) (fold_left Z.max (map g l) b).
Proof.
  revert a b. induction l as [|x l IH]; intros a b; simpl; [reflexivity|].
  rewrite <- IH. f_equal. lia.
Qed.

Lemma agg_max_max {A : Type} (f g : A -> Z) (l : list A) :
  agg_max (map (fun x => Z.max (f x) (g x)) l) =
  Z.max (agg_max (map f l)) (agg_max (map g l)).
Proof. destruct l as [|x l]; simpl; [reflexivity | apply fold_max_max]. Qed.

Lemma agg_max_binary {A : Type} (f : A -> Z) (l : list A) :
  (forall x, In x l -> f x = 0 \/ f x = 1) ->
  agg_max (map f l) = 0 \/ agg_max (map f l) = 1.
Proof.
  destruct l as [|x l]; simpl; [auto|]. intros Hb.
  assert (Hx : f x = 0 \/ f x = 1) by (apply Hb; now left).
  assert (Hl : forall y, In y l -> f y = 0 \/ f y = 1) by (intros; apply Hb; now right).
  clear Hb. revert Hx. generalize (f x) as a.
  induction l as [|y l IH]; intros a Ha; simpl; [exact Ha|].
  apply IH; [intros; apply Hl; now right|].
  destruct (Hl y (or_introl eq_refl)); lia.
Qed.

(** X17.  When on every order row [has_negative_experience] is the largest
    of the three signals (as [create_drop_off_flags] makes it for 0/1
    signals), the same holds for every customer: [had_negative_experience]
    is the largest of [experienced_delay], [experienced_cancellation] and
    [gave_negative_review]; with 0/1 signals it is 1 exactly when one of
    them is. *)
Theorem customer_negative_experience (df : list order_row) :
  (forall r, In r df ->
     has_negative_experience r =
       Z.max (is_delayed r) (Z.max (is_canceled r) (has_negative_review r))) ->
  forall c, In c (calculate_customer_level_metrics df) ->
    had_negative_experience c =
      Z.max (experienced_delay c)
            (Z.max (experienced_cancellation c) (gave_negative_review c)) /\
    ((forall r, In r df ->
        (is_delayed r = 0 \/ is_delayed r = 1) /\
        (is_canceled r = 0 \/ is_canceled r = 1) /\
        (has_negative_review r = 0 \/ has_negative_review r = 1)) ->
     (had_negative_experience c = 1 <->
      experienced_delay c = 1 \/ experienced_cancellation c = 1 \/
      gave_negative_review c = 1)).
Proof.
  intros Hmax c Hc. unfold calculate_customer_level_metrics in Hc.
  apply in_map_iff in Hc. destruct Hc as (k & <- & _). simpl.
  set (g := group_rows k df).
  assert (Hg : forall r, In r g -> In r df).
  { intros r Hr. unfold g, group_rows in Hr. apply filter_In in Hr. tauto. }
  assert (E : map has_negative_experience g =
              map (fun r => Z.max (is_delayed r)
                              (Z.max (is_canceled r) (has_negative_review r))) g).
  { apply map_ext_in. intros r Hr. apply Hmax, Hg, Hr. }
  rewrite E.
  rewrite (agg_max_max is_delayed (fun r => Z.max (is_canceled r) (has_negative_review r))).
  rewrite (agg_max_max is_canceled has_negative_review).
  split; [reflexivity|]. intros Hbin.
  destruct (agg_max_binary is_delayed g) as [-> | ->];
    [intros; apply Hbin; auto | |];
  (destruct (agg_max_binary is_canceled g) as [-> | ->];
    [intros; apply Hbin; auto | |]);
  (destruct (agg_max_binary has_negative_review g) as [-> | ->];
    [intros; apply Hbin; auto | |]); simpl;
  (split; [intros Hm; try discriminate Hm; auto
          | intros [Hm | [Hm | Hm]]; try discriminate Hm; reflexivity]).
Qed.

(** ** Counts of the core funnel *)

Lemma filter_length_le {A : Type} (p : A -> bool) (l : list A) :
  (List.length (filter p l) <= List.length l)%nat.
Proof.
  induction l as [|a l IH]; simpl; [lia|]. destruct (p a); simpl; lia.
Qed.

Lemma filter_length_impl {A : Type} (p q : A -> bool) (l : list A) :
  (forall a, In a l -> p a = true -> q a = true) ->
  (List.length (filter p l) <= List.length (filter q l))%nat.
Proof.
  induction l as [|a l IH]; simpl; intros Hpq; [lia|].
  assert (IH' := IH (fun b Hb => Hpq b (or_intror Hb))).
  destruct (p a) eqn:Ep.
  - rewrite (Hpq a (or_introl eq_refl) Ep). simpl. lia.
  - destruct (q a); simpl; lia.
Qed.

Lemma filter_length_ext {A : Type} (p q : A -> bool) (l : list A) :
  (forall a, In a l -> p a = q a) ->
  List.length (filter p l) = List.length (filter q l).
Proof.
  intros Hpq. f_equal. apply filter_ext_in. exact Hpq.
Qed.

(** The counts of the core metrics, whatever the rates. *)
Lemma core_metrics_counts (cs : list customer) :
  exists m,
    calculate_core_funnel_metrics cs = Some m /\
    acquisition_customers m = len cs /\
    activation_customers m = len (filter (fun c => total_orders c >=? 1) cs) /\
    retention_customers m = len (filter (fun c => total_orders c >=? 2) cs) /\
    acquisition_to_activation_dropoff m =
      acquisition_customers m - activation_customers m /\
    activation_to_retention_dropoff m =
      activation_customers m - retention_customers m.
Proof.
  unfold calculate_core_funnel_metrics.
  set (acquisition := len cs).
  set (activation := len (filter (fun c => total_orders c >=? 1) cs)).
  set (retention := len (filter (fun c => total_orders c >=? 2) cs)).
  assert (Hacq : 0 <= acquisition) by apply len_nonneg.
  assert (Hact : 0 <= activation) by apply len_nonneg.
  destruct (guarded_percent_total activation acquisition Hacq) as (q1 & -> & _).
  destruct (guarded_percent_total retention activation Hact) as (q2 & -> & _).
  destruct (guarded_percent_total (acquisition - activation) acquisition Hacq)
    as (q3 & -> & _).
  destruct (guarded_percent_total (activation - retention) activation Hact)
    as (q4 & -> & _).
  simpl. eexists. split; [reflexivity|]. simpl. auto 10.
Qed.

(** X18.  For every customer summary the core metrics are returned with
    counts that narrow down the funnel, 0 <= retention <= activation <=
    acquisition, and drop-offs that are the non-negative differences, so
    that acquisition = retention + both drop-offs. *)
Theorem core_counts_narrow (cs : list customer) :
  exists m,
    calculate_core_funnel_metrics cs = Some m /\
    acquisition_customers m = Z.of_nat (List.length cs) /\
    0 <= retention_customers m <= activation_customers m /\
    activation_customers m <= acquisition_customers m /\
    0 <= acquisition_to_activation_dropoff m /\
    0 <= activation_to_retention_dropoff m /\
    acquisition_customers m =
      retention_customers m + activation_to_retention_dropoff m +
      acquisition_to_activation_dropoff m.
Proof.
  destruct (core_metrics_counts cs) as (m & E & Hacq & Hact & Hret & Hd1 & Hd2).
  exists m. split; [exact E|].
  assert (H1 : (List.length (filter (fun c => total_orders c >=? 2) cs)
                <= List.length (filter (fun c => total_orders c >=? 1) cs))%nat).
  { apply filter_length_impl. intros c _ Hc.
    apply Z.geb_le in Hc. apply Z.geb_le. lia. }
  pose proof (filter_length_le (fun c => total_orders c >=? 1) cs) as H2.
  rewrite Hd1, Hd2, Hacq, Hact, Hret. unfold len. repeat split; lia.
Qed.

(** X19.  The customer type and the retention count: a customer is typed
    "One-time" exactly with one counted order, so a customer without any
    counted order is typed "Repeat" although it is not retained; the
    retained customers never outnumber the "Repeat" ones, and when every
    order row has an order id the two counts are equal. *)
Theorem repeat_type_and_retention (df : list order_row) :
  let cs := calculate_customer_level_metrics df in
  let repeat :=
    len (filter (fun c => String.eqb (customer_type c) "Repeat") cs) in
  (forall c, In c cs ->
     (customer_type c = "One-time"%string <-> total_orders c = 1) /\
     (customer_type c = "Repeat"%string <-> total_orders c <> 1) /\
     0 <= total_orders c) /\
  exists m,
    calculate_core_funnel_metrics cs = Some m /\
    retention_customers m <= repeat /\
    ((forall r, In r df -> order_id r <> None) -> retention_customers m = repeat).
Proof.
  intros cs repeat.
  assert (Htype : forall c, In c cs ->
            (customer_type c = "One-time"%string <-> total_orders c = 1) /\
            (customer_type c = "Repeat"%string <-> total_orders c <> 1) /\
            0 <= total_orders c).
  { intros c Hc. unfold cs, calculate_customer_level_metrics in Hc.
    apply in_map_iff in Hc. destruct Hc as (k & <- & _). simpl.
    split; [|split].
    - destruct (Z.eqb_spec (agg_count (map order_id (group_rows k df))) 1);
        split; intros; try reflexivity; try discriminate; congruence.
    - destruct (Z.eqb_spec (agg_count (map order_id (group_rows k df))) 1);
        split; intros; try reflexivity; try discriminate; congruence.
    - apply len_nonneg. }
  split; [exact Htype|].
  destruct (core_metrics_counts cs) as (m & E & _ & _ & Hret & _).
  exists m. split; [exact E|]. rewrite Hret. unfold repeat, len. split.
  - apply inj_le, filter_length_impl. intros c Hc Hge.
    apply Z.geb_le in Hge. apply String.eqb_eq, (Htype c Hc). lia.
  - intros Hids. f_equal. apply filter_length_ext. intros c Hc.
    pose proof (customers_have_orders df Hids c Hc) as Hone.
    destruct (Htype c Hc) as (_ & Hrep & _).
    destruct (Z.geb_spec (total_orders c) 2) as [Hge | Hlt].
    + symmetry. apply String.eqb_eq, Hrep. lia.
    + symmetry. apply String.eqb_neq. intros Hr. apply Hrep in Hr. lia.
Qed.

(** ** Drop-off reasons *)

Lemma filter_length_union {A : Type} (p q1 q2 q3 : A -> bool) (l : list A) :
  (forall a, In a l -> p a = true -> q1 a = true \/ q2 a = true \/ q3 a = true) ->
  (List.length (filter p l) <=
   List.length (filter q1 l) + List.length (filter q2 l) + List.length (filter q3 l))%nat.
Proof.
  induction l as [|a l IH]; intros Hp; [simpl; lia|].
  assert (IH' := IH (fun b Hb => Hp b (or_intror Hb))).
  cbn [filter]. destruct (p a) eqn:Ep.
  - destruct (Hp a (or_introl eq_refl) Ep) as [E | [E | E]]; rewrite E;
      destruct (q1 a), (q2 a), (q3 a); cbn [List.length]; lia.
  - destruct (q1 a), (q2 a), (q3 a); cbn [List.length]; lia.
Qed.

(** X21.  [calculate_dropoff_reason_metrics] returns for every customer
    summary; each of its four customer counts lies between 0 and the
    number of customers, and its three impacts are those of
    [calculate_retention_impact].  When on every customer
    [had_negative_experience] is the largest of the three 0/1 signals, the
    customers with any negative experience are at least those with each
    single signal and at most the three groups together. *)
Theorem dropoff_reason_counts (cs : list customer) :
  exists m,
    calculate_dropoff_reason_metrics cs = Some m /\
    (0 <= customers_with_delays m <= len cs /\
     0 <= customers_with_cancellations m <= len cs /\
     0 <= customers_with_negative_reviews m <= len cs /\
     0 <= customers_with_any_negative_experience m <= len cs) /\
    (calculate_retention_impact cs Delay = Some (delay_retention_impact m) /\
     calculate_retention_impact cs Cancellation = Some (cancellation_retention_impact m) /\
     calculate_retention_impact cs NegativeReview = Some (review_retention_impact m)) /\
    ((forall c, In c cs ->
        had_negative_experience c =
          Z.max (experienced_delay c)
                (Z.max (experienced_cancellation c) (gave_negative_review c)) /\
        (experienced_delay c = 0 \/ experienced_delay c = 1) /\
        (experienced_cancellation c = 0 \/ experienced_cancellation c = 1) /\
        (gave_negative_review c = 0 \/ gave_negative_review c = 1)) ->
     customers_with_delays m <= customers_with_any_negative_experience m /\
     customers_with_cancellations m <= customers_with_any_negative_experience m /\
     customers_with_negative_reviews m <= customers_with_any_negative_experience m /\
     customers_with_any_negative_experience m <=
       customers_with_delays m + customers_with_cancellations m +
       customers_with_negative_reviews m).
Proof.
  unfold calculate_dropoff_reason_metrics.
  assert (Htot : 0 <= len cs) by apply len_nonneg.
  destruct (guarded_percent_total
              (len (filter (fun c => experienced_delay c =? 1) cs)) (len cs) Htot)
    as (q1 & -> & _).
  destruct (guarded_percent_total
              (len (filter (fun c => experienced_cancellation c =? 1) cs)) (len cs) Htot)
    as (q2 & -> & _).
  destruct (guarded_percent_total
              (len (filter (fun c => gave_negative_review c =? 1) cs)) (len cs) Htot)
    as (q3 & -> & _).
  destruct (guarded_percent_total
              (len (filter (fun c => had_negative_experience c =? 1) cs)) (len cs) Htot)
    as (q4 & -> & _).
  rewrite !retention_impact_value. cbn [bind].
  eexists. split; [reflexivity|].
  cbn [customers_with_delays customers_with_cancellations
       customers_with_negative_reviews customers_with_any_negative_experience
       delay_retention_impact cancellation_retention_impact review_retention_impact].
  pose proof (filter_length_le (fun c => experienced_delay c =? 1) cs).
  pose proof (filter_length_le (fun c => experienced_cancellation c =? 1) cs).
  pose proof (filter_length_le (fun c => gave_negative_review c =? 1) cs).
  pose proof (filter_length_le (fun c => had_negative_experience c =? 1) cs).
  split; [unfold len; lia|]. split; [auto|].
  intros Hcs.
  assert (Hd : (List.length (filter (fun c => experienced_delay c =? 1)%Z cs) <=
                List.length (filter (fun c => had_negative_experience c =? 1)%Z cs))%nat).
  { apply filter_length_impl. intros c Hc E. apply Z.eqb_eq in E. apply Z.eqb_eq.
    destruct (Hcs c Hc) as (-> & _ & [Hx | Hx] & [Hy | Hy]); lia. }
  assert (Hc' : (List.length (filter (fun c => experienced_cancellation c =? 1)%Z cs) <=
                 List.length (filter (fun c => had_negative_experience c =? 1)%Z cs))%nat).
  { apply filter_length_impl. intros c Hc E. apply Z.eqb_eq in E. apply Z.eqb_eq.
    destruct (Hcs c Hc) as (-> & [Hx | Hx] & _ & [Hy | Hy]); lia. }
  assert (Hr : (List.length (filter (fun c => gave_negative_review c =? 1)%Z cs) <=
                List.length (filter (fun c => had_negative_experience c =? 1)%Z cs))%nat).
  { apply filter_length_impl. intros c Hc E. apply Z.eqb_eq in E. apply Z.eqb_eq.
    destruct (Hcs c Hc) as (-> & [Hx | Hx] & [Hy | Hy] & _); lia. }
  assert (Hu : (List.length (filter (fun c => had_negative_experience c =? 1)%Z cs) <=
                List.length (filter (fun c => experienced_delay c =? 1)%Z cs) +
                List.length (filter (fun c => experienced_cancellation c =? 1)%Z cs) +
                List.length (filter (fun c => gave_negative_review c =? 1)%Z cs))%nat).
  { apply filter_length_union. intros c Hc E. apply Z.eqb_eq in E.
    destruct (Hcs c Hc) as (Hm & [Hx | Hx] & [Hy | Hy] & [Hz | Hz]);
      rewrite Hm, Hx, Hy, Hz in E; try discriminate E;
      rewrite ?Hx, ?Hy, ?Hz; auto. }
  unfold len. lia.
Qed.

(** ** Rates are percentages *)

Lemma guarded_percent_bounds (num den : Z) :
  0 <= num <= den ->
  exists q, guarded_percent num den = Some q /\ (0 <= q)%Q /\ (q <= 100)%Q.
Proof.
  intros Hn. destruct (Z.eq_dec den 0) as [-> | Hnz].
  - exists 0%Q. split; [reflexivity|]. split; lra.
  - eexists. split; [apply guarded_percent_pos; lia|].
    destruct (float_percent_accuracy num den Hn) as (H0 & H100 & _); [lia|].
    split; assumption.
Qed.

(** X22.  Every rate the funnel metrics report is a percentage between 0
    and 100, and every retention impact lies between -100 and 100. *)
Theorem rates_are_percentages (cs : list customer) :
  (exists m,
     calculate_core_funnel_metrics cs = Some m /\
     (0 <= activation_rate_percent m <= 100)%Q /\
     (0 <= retention_rate_percent m <= 100)%Q /\
     (0 <= activation_dropoff_rate_percent m <= 100)%Q /\
     (0 <= retention_dropoff_rate_percent m <= 100)%Q) /\
  (forall s, exists r,
     calculate_retention_impact cs s = Some r /\
     (0 <= retention_without_negative_percent r <= 100)%Q /\
     (0 <= retention_with_negative_percent r <= 100)%Q /\
     (-100 <= retention_impact_percent r <= 100)%Q).
Proof.
  split.
  - unfold calculate_core_funnel_metrics.
    set (acquisition := len cs).
    set (activation := len (filter (fun c => total_orders c >=? 1) cs)).
    set (retention := len (filter (fun c => total_orders c >=? 2) cs)).
    assert (H1 : 0 <= retention <= activation).
    { unfold retention, activation, len. split; [lia|].
      apply inj_le, filter_length_impl. intros c _ Hc.
      apply Z.geb_le in Hc. apply Z.geb_le. lia. }
    assert (H2 : 0 <= activation <= acquisition).
    { unfold activation, acquisition, len. split; [lia|].
      apply inj_le, filter_length_le. }
    destruct (guarded_percent_bounds activation acquisition H2) as (q1 & -> & B1).
    destruct (guarded_percent_bounds retention activation H1) as (q2 & -> & B2).
    destruct (guarded_percent_bounds (acquisition - activation) acquisition)
      as (q3 & -> & B3); [lia|].
    destruct (guarded_percent_bounds (activation - retention) activation)
      as (q4 & -> & B4); [lia|].
    cbn [bind]. eexists. split; [reflexivity|].
    cbn [activation_rate_percent retention_rate_percent
         activation_dropoff_rate_percent retention_dropoff_rate_percent].
    change 0%Q with (inject_Z 0). change 100%Q with (inject_Z 100).
    refine (conj _ (conj _ (conj _ _))); apply round2_bounds; tauto.
  - intros s. eexists. split; [apply retention_impact_value|].
    cbn [retention_without_negative_percent retention_with_negative_percent
         retention_impact_percent].
    destruct (float_retention_rate_accuracy s 0 cs) as (L0 & U0 & _).
    destruct (float_retention_rate_accuracy s 1 cs) as (L1 & U1 & _).
    set (p0 := float_retention_rate s 0 cs) in *.
    set (p1 := float_retention_rate s 1 cs) in *. clearbody p0 p1.
    assert (Hd : (- inject_Z 100 <= float_sub p0 p1)%Q /\
                 (float_sub p0 p1 <= inject_Z 100)%Q).
    { apply binary64_bounds; [reflexivity | |];
        change (inject_Z 100) with 100%Q; lra. }
    change (- inject_Z 100)%Q with (inject_Z (-100)) in Hd.
    change 0%Q with (inject_Z 0). change 100%Q with (inject_Z 100).
    change (-100)%Q with (inject_Z (-100)).
    refine (conj _ (conj _ _)); apply round2_bounds; try tauto;
      change (inject_Z 0) with 0%Q; change (inject_Z 100) with 100%Q; lra.
Qed.

End FunnelMore.

(* ===================================================================== *)
(** * Segment metrics *)
(* ===================================================================== *)

Module SegmentFacts.
Import Py FunnelMetrics Segments KeyFacts FunnelMore.

(** ** [nlargest] *)

Lemma insert_desc_perm (x : state_row) (l : list state_row) :
  Permutation (insert_desc x l) (x :: l).
Proof.
  induction l as [|y t IH]; cbn [insert_desc]; [reflexivity|].
  destruct (customer_count y <=? customer_count x); [reflexivity|].
  rewrite IH. apply perm_swap.
Qed.

Lemma sort_desc_perm (l : list state_row) : Permutation (sort_desc l) l.
Proof.
  induction l as [|x l IH]; cbn [sort_desc fold_right]; [reflexivity|].
  fold (sort_desc l). rewrite insert_desc_perm. now apply perm_skip.
Qed.

Lemma insert_desc_sorted (x : state_row) (l : list state_row) :
  StronglySorted (fun a b => customer_count b <= customer_count a) l ->
  StronglySorted (fun a b => customer_count b <= customer_count a) (insert_desc x l).
Proof.
  induction 1 as [|y t Ht IH Hy]; cbn [insert_desc].
  - repeat constructor.
  - destruct (Z.leb_spec (customer_count y) (customer_count x)) as [Hle | Hgt].
    + constructor; [constructor; assumption|].
      constructor; [exact Hle|].
      eapply Forall_impl; [|exact Hy]. intros z Hz. cbn beta in *. lia.
    + constructor; [exact IH|].
      apply (Permutation_Forall (Permutation_sym (insert_desc_perm x t))).
      constructor; [lia | exact Hy].
Qed.

Lemma sort_desc_sorted (l : list state_row) :
  StronglySorted (fun a b => customer_count b <= customer_count a) (sort_desc l).
Proof.
  induction l as [|x l IH]; cbn [sort_desc fold_right]; [constructor|].
  now apply insert_desc_sorted.
Qed.

Lemma sorted_app_inv {A : Type} (R : A -> A -> Prop) (l1 l2 : list A) :
  StronglySorted R (l1 ++ l2) ->
  StronglySorted R l1 /\ (forall a b, In a l1 -> In b l2 -> R a b).
Proof.
  induction l1 as [|x l1 IH]; cbn [app]; intros Hs.
  - split; [constructor | intros a b []].
  - inversion Hs as [|? ? Hs' Hx]; subst. destruct (IH Hs') as [H1 H2].
    rewrite Forall_app in Hx. destruct Hx as [Hx1 Hx2].
    split; [constructor; assumption|].
    intros a b [<- | Ha] Hb; [|now apply H2].
    rewrite Forall_forall in Hx2. now apply Hx2.
Qed.

(** ** Groups *)

Lemma group_sizes_conserved {R : Type} (key : R -> option string)
    (ks : list string) (l : list R) :
  NoDup ks ->
  (forall r k, In r l -> key r = Some k -> In k ks) ->
  fold_right (fun k acc => len (filter (fun r => text_eqb (key r) (Some k)) l) + acc) 0 ks
  = len (filter (fun r => negb (isna (key r))) l).
Proof.
  intros Hnd. induction l as [|r l IH]; intros Hin.
  - cbn [filter]. clear. induction ks as [|k ks IH]; cbn [fold_right]; [reflexivity|].
    rewrite IH. reflexivity.
  - specialize (IH (fun r' k Hr' => Hin r' k (or_intror Hr'))).
    transitivity
      (fold_right (fun k acc =>
         (if text_eqb (key r) (Some k) then 1 else 0) + acc) 0 ks +
       fold_right (fun k acc =>
         len (filter (fun r => text_eqb (key r) (Some k)) l) + acc) 0 ks).
    { clear. induction ks as [|k ks IHk]; cbn [fold_right]; [reflexivity|].
      rewrite IHk. cbn [filter]. unfold len.
      destruct (text_eqb (key r) (Some k)); cbn [List.length]; lia. }
    rewrite IH. unfold len. cbn [filter].
    destruct (key r) as [k0|] eqn:Ek; cbn [text_eqb isna negb].
    + rewrite (sum_indicator ks k0 1 Hnd).
      assert (Hex : existsb (String.eqb k0) ks = true).
      { apply existsb_exists. exists k0. split; [|apply String.eqb_refl].
        eapply Hin; [now left | exact Ek]. }
      rewrite Hex. cbn [List.length]. lia.
    + replace (fold_right (fun (k : string) (acc : Z) => 0 + acc) 0 ks) with 0;
        [reflexivity|].
      clear. induction ks as [|k ks IHk]; cbn [fold_right]; [reflexivity | lia].
Qed.

Lemma state_metrics_states (cs : list customer) :
  map state (state_metrics cs) = state_keys cs.
Proof.
  unfold state_metrics. rewrite map_map. cbn [state state_metrics_row]. apply map_id.
Qed.

Lemma state_listed_iff (cs : list customer) (k : string) :
  In k (map state (state_metrics cs)) <->
  exists c, In c cs /\ cs_customer_state c = Some k.
Proof.
  rewrite state_metrics_states. unfold state_keys.
  rewrite keys_In_iff, dropna_In_iff, in_map_iff.
  split; intros (c & H1 & H2); exists c; auto.
Qed.

(** X23.  [state_metrics] has one row per state of the summary, in sorted
    order of the states; each row counts at least one customer, and the
    counts add up to the number of customers that have a state. *)
Theorem state_metrics_counts (cs : list customer) :
  StronglySorted (fun a b => String.compare a b = Lt) (map state (state_metrics cs)) /\
  (forall k, In k (map state (state_metrics cs)) <->
             exists c, In c cs /\ cs_customer_state c = Some k) /\
  (forall row, In row (state_metrics cs) -> 1 <= customer_count row) /\
  fold_right (fun row acc => customer_count row + acc) 0 (state_metrics cs) =
    len (filter (fun c => negb (isna (cs_customer_state c))) cs).
Proof.
  split; [rewrite state_metrics_states; apply keys_increasing|]. split; [|split].
  - apply state_listed_iff.
  - intros row Hrow. unfold state_metrics in Hrow. apply in_map_iff in Hrow.
    destruct Hrow as (k & <- & Hk). cbn [customer_count state_metrics_row].
    apply keys_In_iff, dropna_In_iff, in_map_iff in Hk. destruct Hk as (c & Hc & Hin).
    assert (Hg : In c (state_group k cs)).
    { apply filter_In. split; [exact Hin|]. rewrite Hc. cbn [text_eqb].
      apply String.eqb_refl. }
    unfold len. destruct (state_group k cs); [destruct Hg | cbn [List.length]; lia].
  - rewrite <- (group_sizes_conserved cs_customer_state (state_keys cs) cs).
    + unfold state_metrics, state_keys.
      induction (fold_right insert_key [] (dropna (map cs_customer_state cs)))
        as [|k ks IH]; cbn [map fold_right]; [reflexivity|].
      rewrite IH. reflexivity.
    + apply keys_NoDup.
    + intros c k Hc Hk. apply keys_In_iff, dropna_In_iff, in_map_iff. eauto.
Qed.

(** X24.  [calculate_segment_metrics] fails (IndexError on
    [top_states.index[0]]) exactly when no customer has a state, the empty
    summary included.  When it returns, [top_states] holds the
    min(10, number of states) rows of [state_metrics] with the largest
    customer counts, in descending order of the count. *)
Theorem segment_top_states (cs : list customer) :
  (calculate_segment_metrics cs = None <->
   forall c, In c cs -> cs_customer_state c = None) /\
  (forall m, calculate_segment_metrics cs = Some m ->
     seg_state_metrics m = state_metrics cs /\
     List.length (seg_top_states m) = Nat.min 10 (List.length (state_metrics cs)) /\
     StronglySorted (fun a b => customer_count b <= customer_count a)
       (seg_top_states m) /\
     exists rest,
       Permutation (state_metrics cs) (seg_top_states m ++ rest) /\
       forall t x, In t (seg_top_states m) -> In x rest ->
                   customer_count x <= customer_count t).
Proof.
  assert (Htop : List.length (nlargest 10 (state_metrics cs)) =
                 Nat.min 10 (List.length (state_metrics cs))).
  { unfold nlargest. rewrite length_firstn.
    now rewrite (Permutation_length (sort_desc_perm (state_metrics cs))). }
  assert (Hsplit : sort_desc (state_metrics cs) =
                   nlargest 10 (state_metrics cs) ++ skipn 10 (sort_desc (state_metrics cs))).
  { unfold nlargest. symmetry. apply firstn_skipn. }
  pose proof (sort_desc_sorted (state_metrics cs)) as Hsorted.
  rewrite Hsplit in Hsorted. apply sorted_app_inv in Hsorted.
  destruct Hsorted as [Hdesc Hdom].
  unfold calculate_segment_metrics. split.
  - destruct (nlargest 10 (state_metrics cs)) as [|t0 ts] eqn:E.
    + split; [intros _ | reflexivity].
      assert (Hnil : state_metrics cs = []).
      { destruct (state_metrics cs) as [|x l]; [reflexivity|].
        cbn [List.length] in Htop. discriminate Htop. }
      intros c Hc. destruct (cs_customer_state c) as [k|] eqn:Ek; [|reflexivity].
      assert (Hin : In k (map state (state_metrics cs))).
      { apply state_listed_iff. eauto. }
      rewrite Hnil in Hin. destruct Hin.
    + split; [discriminate|]. intros Hnone. exfalso.
      assert (Hin : In t0 (state_metrics cs)).
      { apply (Permutation_in t0 (sort_desc_perm (state_metrics cs))).
        rewrite Hsplit. apply in_or_app. left. now left. }
      assert (Hk : In (state t0) (map state (state_metrics cs))) by now apply in_map.
      apply state_listed_iff in Hk.
      destruct Hk as (c & Hc & Hs). rewrite (Hnone c Hc) in Hs. discriminate.
  - intros m Hm.
    destruct (nlargest 10 (state_metrics cs)) as [|t0 ts] eqn:E; [discriminate|].
    injection Hm as <-. cbn [seg_state_metrics seg_top_states].
    split; [reflexivity|]. split; [exact Htop|]. split; [exact Hdesc|].
    exists (skipn 10 (sort_desc (state_metrics cs))). split.
    + rewrite <- Hsplit. symmetry. apply sort_desc_perm.
    + intros t x Ht Hx. apply (Hdom t x Ht Hx).
Qed.

End SegmentFacts.

(* ===================================================================== *)
(** * Concrete runs of the further properties *)
(* ===================================================================== *)

Module ExtraRuns.
Import Py Cleaner Validation Merger MergerFeatures OrderFeatures FunnelMetrics.
Import CleanerMore MergerMore OrderFeatureFacts FunnelMore.

(** X1 at a raw deal without [sdr_id], with padded upper-case text and a
    negative revenue. *)
Lemma clean_deals_postcondition_witness :
  let raw_deals :=
    [ mk_deal (Some "L1") (Some "s1") None (Some "sr1")
        (DateText "2018-03-01") (Some " Pet ") None (Some "Cat")
        None (Some 0%Q) None (Some "reseller") (Some 5%Q) (Some (-3)%Q) ]%string in
  exists r,
    In r (cleaned (clean_deals (H := IsoDates.iso_parser) raw_deals)) /\
    sdr_id r <> None /\
    (exists s, business_segment r = Some s /\ lower s = s /\ strip s = s) /\
    (forall q, declared_monthly_revenue r = Some q -> (0 <= q)%Q).
Proof.
  intros raw_deals.
  pose proof (clean_deals_postcondition (H := IsoDates.iso_parser) raw_deals) as Hthm.
  destruct (cleaned (clean_deals (H := IsoDates.iso_parser) raw_deals)) as [|r t] eqn:E;
    [vm_compute in E; discriminate E|].
  exists r.
  destruct (Hthm r (or_introl eq_refl)) as ((Hsdr & _) & (Hseg & _) & _ & (_ & Hrev) & _).
  split; [left; reflexivity|]. split; [exact Hsdr|]. split; [exact Hseg | exact Hrev].
Defined.

(** X4 at a raw deal with a negative catalog size, stock and revenue. *)
Lemma validate_cleaned_deals_witness :
  let raw_deals :=
    [ mk_deal (Some "L1") (Some "s1") (Some "sdr1") (Some "sr1")
        (DateText "2018-03-01") (Some "pet") (Some "online_big") (Some "cat")
        (Some 1%Q) (Some 0%Q) (Some (-10)%Q) (Some "reseller")
        (Some (-5)%Q) (Some (-3)%Q) ]%string in
  exists w,
    In w (negative_values
            (validate_deals (cleaned (clean_deals (H := IsoDates.iso_parser) raw_deals)))) /\
    w = ("declared_product_catalog_size"%string, 1%nat).
Proof.
  intros raw_deals.
  pose proof (validate_cleaned_deals (H := IsoDates.iso_parser) raw_deals) as Hthm.
  destruct (negative_values
              (validate_deals (cleaned (clean_deals (H := IsoDates.iso_parser) raw_deals))))
    as [|w t] eqn:E; [vm_compute in E; discriminate E|].
  exists w. split; [left; reflexivity|].
  pose proof (Hthm w (or_introl eq_refl)) as Hname.
  vm_compute in E. injection E as <- _. reflexivity.
Defined.

(** X5, X6 and X7 at two leads, the second matched by one deal. *)
Lemma merge_row_count_witness :
  let mql_df :=
    [ mk_lead (Some "L1") (DateText "2018-01-05") (Some "page1") (Some "organic_search");
      mk_lead (Some "L2") (DateText "2018-02-01") (Some "page2") (Some "paid_search")
    ]%string in
  let deals_df :=
    [ mk_deal (Some "L2") (Some "s1") (Some "sdr1") (Some "sr1")
        (DateText "2018-03-01") (Some "pet") (Some "online_big") (Some "cat")
        (Some 1%Q) (Some 0%Q) (Some 10%Q) (Some "reseller")
        (Some 5%Q) (Some 1000%Q) ]%string in
  exists master_df,
    merge (H := IsoDates.iso_parser) mql_df deals_df = Some master_df /\
    List.length master_df = 2%nat /\
    col_sum stage_1_lead_generated master_df = 2.
Proof.
  intros mql_df deals_df.
  destruct (merge (H := IsoDates.iso_parser) mql_df deals_df) as [master_df|] eqn:E;
    [|vm_compute in E; discriminate E].
  exists master_df. split; [reflexivity|].
  destruct (merge_row_count (H := IsoDates.iso_parser) mql_df deals_df master_df E)
    as (_ & Hsum & Hone).
  assert (Hlen : List.length master_df = List.length mql_df).
  { apply Hone. intros l [<- | [<- | []]]; vm_compute; lia. }
  split; [exact Hlen|]. rewrite Hsum, Hlen. reflexivity.
Defined.

Lemma merge_flag_accounting_witness :
  let mql_df :=
    [ mk_lead (Some "L1") DateMissing (Some "page1") (Some "organic_search");
      mk_lead (Some "L2") (DateText "2018-02-01") (Some "page2") (Some "paid_search")
    ]%string in
  let deals_df :=
    [ mk_deal (Some "L2") (Some "s1") (Some "sdr1") (Some "sr1")
        DateMissing (Some "pet") (Some "online_big") (Some "cat")
        (Some 1%Q) (Some 0%Q) (Some 10%Q) (Some "reseller")
        (Some 5%Q) (Some 1000%Q) ]%string in
  exists master_df,
    merge (H := IsoDates.iso_parser) mql_df deals_df = Some master_df /\
    (forall d, In d deals_df -> sdr_id d <> None /\ sr_id d <> None) /\
    col_sum stage_1_lead_generated master_df =
      col_sum stage_2_first_contact master_df + col_sum dropout_after_lead master_df /\
    col_sum stage_4_consultation master_df =
      col_sum is_converted master_df + col_sum dropout_after_consultation master_df.
Proof.
  intros mql_df deals_df.
  destruct (merge (H := IsoDates.iso_parser) mql_df deals_df) as [master_df|] eqn:E;
    [|vm_compute in E; discriminate E].
  exists master_df. split; [reflexivity|].
  assert (Hids : forall d, In d deals_df -> sdr_id d <> None /\ sr_id d <> None).
  { intros d [<- | []]. split; discriminate. }
  destruct (merge_flag_accounting (H := IsoDates.iso_parser) mql_df deals_df master_df E)
    as (H1 & H4).
  split; [exact Hids|]. split; [exact H1 | exact (H4 Hids)].
Defined.

Lemma days_to_close_present_witness :
  let mql_df :=
    [ mk_lead (Some "L1") (DateText "2018-01-05") (Some "page1") (Some "organic_search");
      mk_lead (Some "L2") (DateText "2018-02-01") (Some "page2") (Some "paid_search")
    ]%string in
  let deals_df :=
    [ mk_deal (Some "L2") (Some "s1") (Some "sdr1") (Some "sr1")
        (DateText "2018-03-01") (Some "pet") (Some "online_big") (Some "cat")
        (Some 1%Q) (Some 0%Q) (Some 10%Q) (Some "reseller")
        (Some 5%Q) (Some 1000%Q) ]%string in
  exists r1 r2,
    merge (H := IsoDates.iso_parser) mql_df deals_df = Some [r1; r2] /\
    days_to_close (source r1) = None /\
    days_to_close (source r2) = Some 28 /\
    stage_2_first_contact r2 = 1 /\ stage_5_deal_closed r2 = 1.
Proof.
  intros mql_df deals_df.
  destruct (merge (H := IsoDates.iso_parser) mql_df deals_df) as [[|r1 [|r2 [|r3 t]]]|] eqn:E;
    try (vm_compute in E; discriminate E).
  exists r1, r2. split; [reflexivity|].
  pose proof (days_to_close_present (H := IsoDates.iso_parser) mql_df deals_df _ E
                r2 (or_intror (or_introl eq_refl))) as Hthm.
  assert (E' := E). vm_compute in E'. injection E' as <- <-.
  split; [reflexivity|]. split; [reflexivity|].
  apply Hthm. discriminate.
Defined.

(** X10 to X13 on small tables whose rows are the columns read. *)
Lemma review_features_agree_witness :
  let df := [Some 2%Q; Some 5%Q; None; Some (5 # 2)%Q] in
  let f := mk_review_features "Negative (1-2)" 1 0 in
  In (Some 2%Q, f) (create_review_score_features (fun r => r) df) /\
  OrderFeatures.has_negative_review f = 1 /\
  review_score_label f = "Negative (1-2)"%string.
Proof.
  intros df f.
  assert (Hin : In (Some 2%Q, f) (create_review_score_features (fun r => r) df))
    by (left; reflexivity).
  split; [exact Hin|].
  destruct (review_features_agree (fun r => r) df (Some 2%Q) f Hin)
    as (_ & _ & _ & Hlabel & _).
  split; [reflexivity | apply Hlabel; reflexivity].
Defined.

Lemma cancellation_features_agree_witness :
  let df := [Some "delivered"; Some "canceled"; None; Some "shipped"]%string in
  let f := mk_cancellation_features 1 "Canceled" in
  In (Some "canceled"%string, f) (create_cancellation_features (fun r => r) df) /\
  OrderFeatures.is_canceled f = 1 /\
  order_status_category f = "Canceled"%string.
Proof.
  intros df f.
  assert (Hin : In (Some "canceled"%string, f)
                   (create_cancellation_features (fun r => r) df))
    by (right; left; reflexivity).
  split; [exact Hin|].
  destruct (cancellation_features_agree (fun r => r) df (Some "canceled"%string) f Hin)
    as (_ & Hcat & _).
  split; [reflexivity | apply Hcat; reflexivity].
Defined.

Lemma value_features_agree_witness :
  let df := [Some 20%Q; Some 200%Q; None; Some 120%Q] in
  let f := mk_value_features "High Value ($200+)" 1 in
  In (Some 200%Q, f) (create_order_value_features (fun r => r) df) /\
  is_high_value_order f = 1 /\
  order_value_category f = "High Value ($200+)"%string.
Proof.
  intros df f.
  assert (Hin : In (Some 200%Q, f) (create_order_value_features (fun r => r) df))
    by (right; left; reflexivity).
  split; [exact Hin|].
  destruct (value_features_agree (fun r => r) df (Some 200%Q) f Hin) as (_ & Hcat & _).
  split; [reflexivity | apply Hcat; reflexivity].
Defined.

Lemma drop_off_flags_consistent_witness :
  let df := [(0, 0, 0); (1, 0, 1); (0, 1, 0)] in
  let f := mk_drop_off_flags 1 0 1 1 1 in
  In ((1, 0, 1), f)
     (create_drop_off_flags (fun r => fst (fst r)) (fun r => snd (fst r))
        (fun r => snd r) df) /\
  has_severe_issues f = 1 /\
  OrderFeatures.has_negative_experience f = 1.
Proof.
  intros df f.
  assert (Hin : In ((1, 0, 1), f)
                   (create_drop_off_flags (fun r => fst (fst r)) (fun r => snd (fst r))
                      (fun r => snd r) df))
    by (right; left; reflexivity).
  split; [exact Hin|].
  destruct (drop_off_flags_consistent _ _ _ df (1, 0, 1) f Hin
              (or_intror eq_refl) (or_introl eq_refl) (or_intror eq_refl))
    as (_ & _ & _ & _ & Hsevere).
  split; [reflexivity | apply Hsevere; reflexivity].
Defined.

(** X17 at three order rows of two customers. *)
Lemma customer_negative_experience_witness :
  let df :=
    [ mk_order_row (Some "c2") (Some "o1") 0 0 0 0 (Some 10%Q) (Some "SP")
        (Some "2018-01-02 10:00:00");
      mk_order_row (Some "c1") (Some "o2") 1 0 0 1 (Some 25%Q) (Some "RJ")
        (Some "2018-02-03 11:00:00");
      mk_order_row (Some "c2") (Some "o3") 0 0 1 1 (Some 40%Q) (Some "SP")
        (Some "2018-03-04 12:00:00") ]%string in
  (forall r, In r df ->
     has_negative_experience r =
       Z.max (is_delayed r) (Z.max (is_canceled r) (has_negative_review r))) /\
  exists c1 c2,
    calculate_customer_level_metrics df = [c1; c2] /\
    had_negative_experience c2 =
      Z.max (experienced_delay c2)
            (Z.max (experienced_cancellation c2) (gave_negative_review c2)) /\
    gave_negative_review c2 = 1.
Proof.
  intros df.
  assert (Hmax : forall r, In r df ->
            FunnelMetrics.has_negative_experience r =
              Z.max (is_delayed r) (Z.max (FunnelMetrics.is_canceled r)
                                          (FunnelMetrics.has_negative_review r))).
  { intros r [<- | [<- | [<- | []]]]; reflexivity. }
  split; [exact Hmax|].
  destruct (calculate_customer_level_metrics df) as [|c1 [|c2 [|c3 t]]] eqn:E;
    try (vm_compute in E; discriminate E).
  exists c1, c2. split; [reflexivity|].
  assert (Hin : In c2 (calculate_customer_level_metrics df))
    by (rewrite E; right; left; reflexivity).
  destruct (customer_negative_experience df Hmax c2 Hin) as [Hc _].
  split; [exact Hc|].
  vm_compute in E. injection E as _ <-. reflexivity.
Defined.

End ExtraRuns.
